(* ===== verification/_CoqProject ===== *)
-Q . S2P
Prelude.v
GoFmt.v
Utf8.v
Strconv.v
GoTime.v
Parts.v
Embedded.v
Hook.v
GoLog.v
Session.v
JsonRead.v
Json.v
