(* ===== verification/Prelude.v ===== *)
(** * A verification development of insomnyawolf/DiscordWebhook (src/webhook.go)

    ** The program
    [src/webhook.go] is a Go library that builds the JSON body of a Discord
    webhook call by string concatenation and POSTs it.  Its parts:
    - ten embed parts (COLOR, AUTHOR, TITLE, URL, DESCRIPTION, FIELDS,
      IMAGE, THUMBNAIL, FOOTER, TIMESTAMP, webhook.go:218-411), each a
      struct whose [Parse] method returns "" for the zero struct and a JSON
      fragment otherwise.  COLOR calls [strconv.ParseInt(c.Color, 16, 25)]
      and TIMESTAMP calls [time.Parse] and [Time.Format] with the layout
      ["2006-01-02 03:04:05.0000"], both logging their errors with
      [log.Println].  URL.Parse writes the URL into an empty Title through
      its pointer receiver;
    - the aggregator [EMBEDDED.Parse] with [parseFields] (webhook.go:97-216),
      which calls the parts in a fixed order, appends each non-empty
      fragment behind a comma and wraps the result in ["embeds": [{...}]];
    - the message builder: [Identity.WebHook] builds a [Hook] (webhook.go:
      12-37), whose [JSONRequest] (60-95) does the same for username,
      avatar_url, content, tts and the embed and wraps the result in braces;
    - the transport: [SendWebHook] (44-58) posts the body with net/http.
      [Close] (39-42) assigns nil to its own copy of the pointer;
    - the error log: [log.Println(err)] (229, 406) writes a date-time
      header and [err.Error()], whose text quotes the user's colour or
      timestamp with [strconv.Quote] or time's [quote].

    ** Files, modules and how they correspond to the code
    - [Prelude] (this file): the [webhook_scope] notations; the classes
      [GoEq]/[GoEqOk] for Go's [==] on comparable structs; [qv] for a
      ["%v"] between quotes; the Go idiom
      [if x != "" { if acc != "" { acc += "," }; acc += x }] as
      [add_fragment], with [add_fragments_join] (the idiom computes the
      comma join of the non-empty fragments); the state and log monad
      [StL S L A = S -> A * S * list L] for methods with pointer receivers
      that call [log.Println]; the type [result] for Go's (value, error)
      returns; the hint databases [webhook] and [wh_str]; [no_newline] (a text that is one
      line) with the database [one_line] and the tactic [one_line].
    - [GoFmt]: fmt's [%v] on int64 ([itoa], Go's formatBits loop) and on
      bool, and time's [appendInt].
    - [Utf8] (Module [Utf8]): [utf8.DecodeRuneInString] (its first-byte
      table as the function [first]), [utf8.AppendRune], [ValidRune] and
      the [lowerhex] escapes, which both quoting functions use.
    - [Strconv] (Module [Strconv]): [strconv.ParseUint]/[ParseInt] for an
      explicit base, with the uint64 wrap-around written as [mod 2^64], the
      cutoff and [maxVal] checks, and [NumError]; [strconv.Quote]
      ([appendQuotedWith], [appendEscapedRune], [IsPrint]) and
      [NumError.Error].
    - [GoTime] (Module [GoTime]): [time.Parse] and [Time.Format] for the one
      layout of TIMESTAMP, chunk by chunk as Go's format.go runs it, with
      the final checks [parse_end]; time's [quote] and [ParseError.Error].
    - [Parts]: one Module per part (Record, zero value [Empty], Go equality,
      [Parse] as an [StL] computation on the receiver), the interface class
      [EmbedPart] with its laws [EmbedPartLaws] (the zero part renders ""
      without effect, any other part renders a non-empty fragment, a second
      [Parse] repeats the first), the laws' instances for the ten parts,
      and the theorems on AUTHOR, URL, COLOR and TIMESTAMP.
    - [Embedded] (Module [Embedded]): [EMBEDDED], [parseFields] and [Parse]
      as [StL] computations on the struct, each part call focused on its
      field with [st_field] (the write-back through the pointer).
    - [Hook] (Module [Hook]): [Identity], [Hook], [WebHook], [JSONRequest],
      [Close] and [SendWebHook]; net/http is the class [Transport]
      ([http.NewRequest] may fail, [Client.Do] may fail) with the contract
      [TransportLaws]; the lifecycle of a hook is the step relation [step]
      (assignments to exported fields and method calls) with [reachable].
    - [GoLog] (Module [GoLog]): [log.Println] on the standard logger: the
      header [formatHeader] of a clock reading (log's own [itoa] into a
      20-byte buffer), [fmt.Appendln] of the error's text, and [output]'s
      final-newline rule.
    - [Session] (Module [Session]): a client's method calls on one hook as
      an execution driven by a schedule [nat -> call].
    - [JsonRead] (Module [JsonRead]): nothing in [src/] reads JSON; this
      file holds the reference against which the body is judged: a JSON
      value type, an executable reader [parse_json] for the JSON the
      program emits, and the texts that encode a value as mutually
      inductive relations ([value_enc], [members_enc], [elems_enc]), with
      the theorem that the reader reads every encoded text.
    - [Json] (Module [Json]): the message of the specification
      ([request_members], [embed_members]) and the proof that the body of
      [JSONRequest] encodes it.

    ** What the theorems show
    - Serialization (C1-C6, C23, C28): [JSONRequest] and
      [EMBEDDED.Parse] equal the comma join of the non-empty fragments in
      the source's order (a refinement of the sequence of guarded appends
      by a join), fields keep the caller's order, an output is empty
      exactly when every input is zero, [EMBEDDED.Parse] changes only the
      URL title and logs COLOR before TIMESTAMP, and a second [JSONRequest]
      repeats the first.
    - The body as JSON (C2, C33): when the user's text has no quote,
      backslash or control byte, a JSON reader reads the body as exactly the
      object the specification describes (with the key "title" twice when
      both TITLE and URL are set); for any safe texts [a], [k] and [b], a
      content made of [a], a closing quote, a comma and the member [k]
      with the value [b] is read as two members, forging [k].
    - Parts and their error paths (C7-C16): AUTHOR's name gate, URL's
      default title, COLOR's decimal rendering with its error paths and its
      25-bit signed bounds, TIMESTAMP's round trip on the 12-hour clock
      (hours 01..12 come back as written, 00 as 12) and
      its zero-time fallback on an afternoon hour, on a day past the
      month's end and on trailing text (whose error message quotes it).
    - Transport (C17-C19): against any transport satisfying
      [TransportLaws], [SendWebHook] POSTs the body to [webHookURL] with
      one Content-Type header; a failing [NewRequest] ends in a nil
      dereference panic before anything is sent; on every path the
      response body is closed exactly once when there is one (the
      deferred [resp.Body.Close]).
    - The log (C20, C24-C27): what reaches [log.Println] is at most one
      [NumError] of [ParseInt] on the colour string, then at most one
      [ParseError] naming the layout and the timestamp string; each call
      writes exactly one line whatever the user's strings hold (both
      quoting functions escape every newline byte); plain text is quoted
      as typed, so the line logged for a plain colour that [ParseInt]
      rejects is the header, the call, the colour as given and the reason.
    - Lifecycle (C21, C22): every reachable hook keeps its identity; in
      any schedule of method calls the hook stops changing once a call
      renders, and keeps the state one [JSONRequest] leaves (liveness:
      eventually always stable).
    - Library models (C29-C32): [time.Parse] after [Time.Format] gives the
      time back with hour 0 as 12, hours 1..12 as themselves and 13..23 as
      1..11; a successful parse yields valid fields; the digit loop of
      [%v] terminates on its fuel with all the digits of its number (read
      back by an independent decimal reader); time's [skip] loop, within
      its fuel, strips exactly a literal prefix and fails on any other
      value, and a space of the prefix strips a whole run of spaces.

    ** Bounds and fuel
    Integers are [Z] with Go's widths written out: [uint64] arithmetic in
    [Strconv] wraps with [wrap64] ([mod 2^64]), and [ParseInt]'s result is
    proved to lie in the [bitSize]-bit signed range.  [utoa_loop] runs on
    fuel [1 + log2 u], proved enough ([utoa_fuel_enough]: [u < 10^fuel];
    C31: with that fuel or more the loop has written every digit).
    [skip_fuel] runs on [1 + length prefix]; each round consumes at least
    one byte of the prefix, and C32 shows the loop reaches the end of the
    prefix (a fuel that ran out would return [Ok] with bytes of the
    prefix left unmatched, which C32 excludes).  The JSON reader runs on [1 + length] of its input, proved
    enough for every encoded text ([parse_enc]: every nesting level and
    every member consumes at least one byte).  log's [itoa] writes into a
    20-byte array: [itoa_loop] has 20 slots and fails ([None], Go's index
    panic) beyond them; a clock field below 10^19 needs at most 19
    ([formatHeader_ok]).  The quoting loops recurse on the rest of the
    string after the decoded rune (Equations, well-founded on the length).
    Every other definition is structural.

    ** Not modelled
    The network I/O of net/http (abstracted by [Transport]; the calls
    [SendWebHook] makes on the connection are its trace [net_call]); the
    clock [time.Now] and the write to os.Stderr of [log.Println] (the clock
    reading is an input of [GoLog.Println], the written bytes its result);
    the generated Unicode tables behind [strconv.IsPrint] above U+00FF
    (the parameter [print_tables]; Latin-1 is written out);
    [strconv.ParseInt]'s base 0 prefixes and underscores (unreachable from
    base 16); time zones and [time.Date]'s normalisation of out-of-range
    fields (a successful parse has checked every field); fmt's verbs
    other than [%v] on strings, int64 and bool.  Every function of
    src/webhook.go is modelled; what is left is library code the program
    only calls on inputs the model does not reach, or I/O.
*)

From Stdlib Require Import String Ascii ZArith List Lia Bool.
Import ListNotations.

Declare Scope webhook_scope.
Delimit Scope webhook_scope with wh.

(** ** Boolean equality, as Go's [==] on comparable values *)

Class GoEq (A : Type) := go_eqb : A -> A -> bool.
Class GoEqOk (A : Type) `{GoEq A} :=
  go_eqb_spec : forall x y : A, reflect (x = y) (go_eqb x y).

Infix "==?" := go_eqb (at level 70, no associativity) : webhook_scope.
Local Open Scope webhook_scope.

#[export] Instance string_GoEq : GoEq string := String.eqb.
#[export] Instance string_GoEqOk : GoEqOk string := String.eqb_spec.
#[export] Instance bool_GoEq : GoEq bool := Bool.eqb.
#[export] Instance bool_GoEqOk : GoEqOk bool.
Proof. intros x y. destruct x, y; constructor; congruence. Qed.

Lemma go_eqb_true {A} `{GoEqOk A} (x y : A) : (x ==? y) = true <-> x = y.
Proof. destruct (go_eqb_spec x y); split; congruence. Qed.

Lemma go_eqb_refl {A} `{GoEqOk A} (x : A) : (x ==? x) = true.
Proof. apply go_eqb_true. reflexivity. Qed.

Lemma go_eqb_false {A} `{GoEqOk A} (x y : A) : (x ==? y) = false <-> x <> y.
Proof. destruct (go_eqb_spec x y); split; congruence. Qed.

(** ** Go strings are byte strings: [string] of 8-bit [ascii] *)

Local Open Scope string_scope.

(** The double-quote byte (34). *)
Definition dquote : string := String (ascii_of_nat 34) EmptyString.

(** A [%v] between double quotes in a format string. *)
Definition qv (s : string) : string := dquote ++ s ++ dquote.

Lemma qv_nonempty s : qv s <> "".
Proof. discriminate. Qed.

(** Go's [s != ""]. *)
Definition is_empty (s : string) : bool :=
  match s with EmptyString => true | String _ _ => false end.

Lemma is_empty_true s : is_empty s = true <-> s = "".
Proof. destruct s; simpl; split; congruence. Qed.

Lemma is_empty_false s : is_empty s = false <-> s <> "".
Proof. destruct s; simpl; split; congruence. Qed.

Lemma append_empty_r (s : string) : s ++ "" = s.
Proof. induction s; simpl; congruence. Qed.

Lemma append_assoc_s (a b c : string) : (a ++ b) ++ c = a ++ (b ++ c).
Proof. induction a; simpl; congruence. Qed.

Lemma append_nonempty_l (a b : string) : a <> "" -> a ++ b <> "".
Proof. destruct a; simpl; congruence. Qed.

Lemma append_nonempty_r (a b : string) : b <> "" -> a ++ b <> "".
Proof. destruct a; simpl; congruence. Qed.

Lemma append_is_empty (a b : string) :
  is_empty (a ++ b) = is_empty a && is_empty b.
Proof. destruct a; reflexivity. Qed.

Lemma length_append_s (a b : string) :
  String.length (a ++ b) = (String.length a + String.length b)%nat.
Proof. induction a; simpl; congruence. Qed.

Lemma append_cancel_l (a b c : string) : a ++ b = a ++ c -> b = c.
Proof. induction a; simpl; [auto | intros H; injection H; auto]. Qed.

Lemma substring_app_l (s r : string) : substring 0 (String.length s) (s ++ r) = s.
Proof. induction s; [destruct r; reflexivity|simpl; congruence]. Qed.

Lemma substring_app_r (s r : string) n :
  substring (String.length s) n (s ++ r) = substring 0 n r.
Proof. induction s; simpl; congruence. Qed.

Lemma substring_prefix (s r : string) n :
  String.length s = n -> substring 0 n (s ++ r) = s.
Proof. intros <-. apply substring_app_l. Qed.

Lemma substring_suffix (s r : string) n m :
  String.length s = n -> String.length r = m -> substring n m (s ++ r) = r.
Proof.
  intros <- <-. rewrite substring_app_r.
  rewrite <- (append_empty_r r) at 2. apply substring_app_l.
Qed.

Lemma substring_all (s : string) : substring 0 (String.length s) s = s.
Proof. rewrite <- (append_empty_r s) at 2. apply substring_app_l. Qed.

Create HintDb webhook discriminated.
Create Rewrite HintDb wh_str.
#[export] Hint Rewrite append_empty_r append_assoc_s append_is_empty : wh_str.
#[export] Hint Resolve append_nonempty_l append_nonempty_r qv_nonempty : webhook.

(** Decide [GoEqOk] for a record of strings and booleans, field by field. *)
Ltac solve_go_eq :=
  intros [] []; unfold go_eqb, string_GoEq, bool_GoEq; simpl;
  repeat match goal with
         | |- context [String.eqb ?a ?b] => destruct (String.eqb_spec a b)
         | |- context [Bool.eqb ?a ?b] => is_var a; destruct a
         | |- context [Bool.eqb ?a ?b] => is_var b; destruct b
         end; subst; simpl; constructor; congruence.

(** ** The append-with-comma idiom

    Every builder of the source ([JSONRequest], [EMBEDDED.Parse],
    [parseFields]) repeats, for each fragment [x],
    {v
        if x != "" { if acc != "" { acc += "," }; acc += x }
    v}
    [add_fragment] is one such block; a sequence of blocks is a
    [fold_left]. *)
Definition add_fragment (acc x : string) : string :=
  if is_empty x then acc
  else (if is_empty acc then acc else acc ++ ",") ++ x.

Definition add_fragments (acc : string) (xs : list string) : string :=
  fold_left add_fragment xs acc.

(** The reference: the non-empty fragments joined by commas. *)
Definition nonempty (s : string) : bool := negb (is_empty s).

Definition join_nonempty (xs : list string) : string :=
  String.concat "," (filter nonempty xs).

Lemma add_fragments_cons acc x xs :
  add_fragments acc (x :: xs) = add_fragments (add_fragment acc x) xs.
Proof. reflexivity. Qed.

Lemma concat_head_nonempty (y : string) ys :
  y <> "" -> String.concat "," (y :: ys) <> "".
Proof. destruct ys; simpl; auto with webhook. Qed.

Lemma filter_nonempty_head xs y ys :
  filter nonempty xs = y :: ys -> y <> "".
Proof.
  intros H. assert (Hin : In y (filter nonempty xs)) by (rewrite H; left; reflexivity).
  apply filter_In in Hin as [_ Hy]. unfold nonempty in Hy.
  apply negb_true_iff, is_empty_false in Hy. exact Hy.
Qed.

(** One step of the reference join. *)
Lemma join_nonempty_cons x xs :
  join_nonempty (x :: xs) =
  if is_empty x then join_nonempty xs
  else if is_empty (join_nonempty xs) then x else x ++ "," ++ join_nonempty xs.
Proof.
  unfold join_nonempty. simpl filter. unfold nonempty at 1.
  destruct (is_empty x); [reflexivity|]. simpl negb. cbv iota.
  destruct (filter nonempty xs) as [|y ys] eqn:Hf; [reflexivity|].
  pose proof (concat_head_nonempty y ys (filter_nonempty_head _ _ _ Hf)) as Hc.
  apply is_empty_false in Hc. rewrite Hc. reflexivity.
Qed.

(** Once the accumulator is non-empty, each later fragment is appended
    behind a comma. *)
Lemma add_fragments_nonempty acc xs :
  acc <> "" ->
  add_fragments acc xs =
  acc ++ (if is_empty (join_nonempty xs) then "" else "," ++ join_nonempty xs).
Proof.
  revert acc; induction xs as [|x xs IH]; intros acc Hacc.
  - simpl. now rewrite append_empty_r.
  - rewrite add_fragments_cons, join_nonempty_cons. unfold add_fragment.
    destruct (is_empty x) eqn:Ex; [now apply IH|].
    assert (Hx : x <> "") by (apply is_empty_false; exact Ex).
    destruct (is_empty acc) eqn:Ea; [apply is_empty_true in Ea; congruence|].
    rewrite IH by (apply append_nonempty_r; exact Hx).
    destruct (is_empty (join_nonempty xs));
      rewrite ?append_empty_r, ?append_is_empty, ?Ex; simpl;
      now rewrite !append_assoc_s.
Qed.

(** The Go idiom computes the comma join of the non-empty fragments. *)
Lemma add_fragments_join xs : add_fragments "" xs = join_nonempty xs.
Proof.
  induction xs as [|x xs IH]; [reflexivity|].
  rewrite add_fragments_cons, join_nonempty_cons. unfold add_fragment at 1.
  destruct (is_empty x) eqn:Ex; [exact IH|]. simpl.
  apply is_empty_false in Ex.
  rewrite add_fragments_nonempty by exact Ex.
  destruct (is_empty (join_nonempty xs)); [apply append_empty_r|reflexivity].
Qed.

Lemma join_nonempty_empty_iff xs :
  join_nonempty xs = "" <-> Forall (fun x => x = "") xs.
Proof.
  unfold join_nonempty; induction xs as [|x xs IH]; simpl.
  - split; auto.
  - unfold nonempty at 1. destruct (is_empty x) eqn:Ex; simpl negb; cbv iota.
    + apply is_empty_true in Ex. subst. rewrite IH. split; [auto|]. now inversion 1.
    + apply is_empty_false in Ex. split; [|inversion 1; congruence].
      destruct (filter nonempty xs); [destruct x; [congruence|discriminate]|].
      destruct x; [congruence|discriminate].
Qed.

(** ** A state and log monad

    Go methods with a pointer receiver read and write their receiver, and
    [log.Println] appends to the process log.  [StL S L A] is a computation
    on a receiver of type [S] that returns an [A] and emits log entries of
    type [L], in order. *)
Definition StL (S L A : Type) : Type := S -> A * S * list L.

Definition st_ret {S L A} (a : A) : StL S L A := fun s => (a, s, []).

Definition st_bind {S L A B} (m : StL S L A) (k : A -> StL S L B) : StL S L B :=
  fun s => let '(a, s1, w1) := m s in
           let '(b, s2, w2) := k a s1 in (b, s2, (w1 ++ w2)%list).

Definition st_get {S L} : StL S L S := fun s => (s, s, []).
Definition st_put {S L} (s' : S) : StL S L unit := fun _ => (tt, s', []).
Definition st_log {S L} (l : L) : StL S L unit := fun s => (tt, s, [l]).

(** A method called on a field of the receiver ([c.URL.Parse()] inside a
    method of [*EMBEDDED]) runs on that field and writes it back. *)
Definition st_field {S T L A} (get : S -> T) (set : T -> S -> S)
  (m : StL T L A) : StL S L A :=
  fun s => let '(a, t, w) := m (get s) in (a, set t s, w).

Notation "x <- m ;; k" := (st_bind m (fun x => k))
  (at level 61, m at next level, right associativity) : webhook_scope.
Notation "m ;;; k" := (st_bind m (fun _ => k))
  (at level 61, right associativity) : webhook_scope.

Definition run_val {S L A} (m : StL S L A) (s : S) : A := fst (fst (m s)).
Definition run_state {S L A} (m : StL S L A) (s : S) : S := snd (fst (m s)).
Definition run_log {S L A} (m : StL S L A) (s : S) : list L := snd (m s).

Lemma st_bind_ret_l {S L A B} (a : A) (k : A -> StL S L B) s :
  st_bind (st_ret a) k s = k a s.
Proof. unfold st_bind, st_ret. destruct (k a s) as [[b s2] w2]. reflexivity. Qed.

Lemma st_bind_ret_r {S L A} (m : StL S L A) s : st_bind m st_ret s = m s.
Proof. unfold st_bind, st_ret. destruct (m s) as [[a s1] w1]. now rewrite app_nil_r. Qed.

Lemma st_bind_assoc {S L A B C} (m : StL S L A) (k : A -> StL S L B)
  (h : B -> StL S L C) s :
  st_bind (st_bind m k) h s = st_bind m (fun a => st_bind (k a) h) s.
Proof.
  unfold st_bind. destruct (m s) as [[a s1] w1].
  destruct (k a s1) as [[b s2] w2]. destruct (h b s2) as [[c s3] w3].
  now rewrite app_assoc.
Qed.

#[export] Hint Rewrite @st_bind_ret_l @st_bind_ret_r : wh_str.

Lemma st_shape {S L A} (m : StL S L A) s : m s = (run_val m s, run_state m s, run_log m s).
Proof. unfold run_val, run_state, run_log. destruct (m s) as [[a b] c]. reflexivity. Qed.

(** A computation that leaves its state alone does the same thing when
    run again. *)
Lemma st_again_of_state {S L A} (m : StL S L A) s :
  run_state m s = s -> m (run_state m s) = (run_val m s, run_state m s, run_log m s).
Proof.
  unfold run_state, run_val, run_log. intros H. rewrite H.
  destruct (m s) as [[a b] c]. simpl in *. subst. reflexivity.
Qed.

Section Again.
Context {S L A : Type} (m : StL S L A) (s : S).
Hypothesis Hagain : m (run_state m s) = (run_val m s, run_state m s, run_log m s).

Lemma st_again_val : run_val m (run_state m s) = run_val m s.
Proof. unfold run_val at 1. rewrite Hagain. reflexivity. Qed.

Lemma st_again_state : run_state m (run_state m s) = run_state m s.
Proof. unfold run_state at 1. rewrite Hagain. reflexivity. Qed.

Lemma st_again_log : run_log m (run_state m s) = run_log m s.
Proof. unfold run_log at 1. rewrite Hagain. reflexivity. Qed.
End Again.

(** Unfold the monad on a concrete computation. *)
Ltac st_simpl :=
  unfold st_bind, st_ret, st_get, st_put, st_log, st_field,
         run_val, run_state, run_log in *; simpl in *.

(** ** Go's [(value, error)] returns

    A function that returns a value or a non-nil error. *)
Inductive result (A E : Type) : Type :=
| Ok (a : A)
| Err (e : E).
Arguments Ok {A E} a.
Arguments Err {A E} e.

Definition res_bind {A B E} (m : result A E) (k : A -> result B E) : result B E :=
  match m with Ok a => k a | Err e => Err e end.

Notation "x <-? m ;; k" := (res_bind m (fun x => k))
  (at level 61, m at next level, right associativity) : webhook_scope.
Notation "' p <-? m ;; k" := (res_bind m (fun x => match x with p => k end))
  (at level 61, p pattern, m at next level, right associativity) : webhook_scope.

Lemma res_bind_ok {A B E} (a : A) (k : A -> result B E) : res_bind (Ok a) k = k a.
Proof. reflexivity. Qed.
#[export] Hint Rewrite @res_bind_ok : wh_str.

(** ** Lines: strings without a newline byte

    [log.Println] writes one line per call; a text is a single line when
    it holds no newline byte (10). *)
Definition newline : ascii := ascii_of_nat 10.

Fixpoint no_newline (s : string) : bool :=
  match s with
  | EmptyString => true
  | String c r => negb (Ascii.eqb c newline) && no_newline r
  end.

Lemma no_newline_app (s t : string) : no_newline (s ++ t) = no_newline s && no_newline t.
Proof. induction s as [|c s IH]; simpl; [reflexivity|]. rewrite IH. apply andb_assoc. Qed.

Create HintDb one_line discriminated.
Create Rewrite HintDb one_line_rw.
#[export] Hint Rewrite no_newline_app : one_line_rw.

(** Split [no_newline (a ++ b ++ ...) = true] into its pieces and close
    the constant ones by computation and the others from [one_line]. *)
Ltac one_line :=
  repeat progress (autorewrite with one_line_rw; cbn [no_newline]);
  repeat match goal with |- _ && _ = true => apply andb_true_intro; split end;
  try reflexivity; auto with one_line.
