(* ===== verification/GoFmt.v ===== *)
(** * GoFmt: the formatting verbs the source relies on

    [fmt.Sprintf("%v", n)] for an [int64] (COLOR.Parse, webhook.go:231),
    [%v] for a [bool] (JSONRequest tts, FIELDS inline) and the zero-padded
    [appendInt(b, x, width)] of Go's time package used by [Time.Format].
    These are Go library routines, not code under src/; they are modelled
    from their Go implementation ([strconv.formatBits] by repeated
    division by ten, [appendInt] by zero padding to the width) and mapped
    to the source lines that call them.  A decimal reader [read_int] is the
    reference the printer is checked against. *)

From Stdlib Require Import String Ascii ZArith List Lia Bool.
From S2P Require Import Prelude.
Import ListNotations.
Local Open Scope webhook_scope.
Local Open Scope string_scope.
Local Open Scope Z_scope.

(** ** Digits *)

Definition digit_char (d : Z) : ascii := ascii_of_N (48 + Z.to_N d).

(** ['0' <= c && c <= '9'] and [c - '0']. *)
Definition digit_value (c : ascii) : option Z :=
  let n := Z.of_N (N_of_ascii c) in
  if (48 <=? n) && (n <=? 57) then Some (n - 48) else None.

(** ** [strconv.formatBits] for base 10: the digits of [u >= 0], built
    from the right by repeated division by ten.  The loop runs at most
    once per bit of [u], which is the fuel. *)
Fixpoint utoa_loop (fuel : nat) (u : Z) (acc : string) : string :=
  match fuel with
  | O => acc
  | S f =>
      let acc' := String (digit_char (u mod 10)) acc in
      if u <? 10 then acc' else utoa_loop f (u / 10) acc'
  end.

Definition utoa_fuel (u : Z) : nat := S (Z.to_nat (Z.log2 u)).

Definition utoa (u : Z) : string := utoa_loop (utoa_fuel u) u "".

(** [fmt.Sprintf("%v", n)] for a signed integer. *)
Definition itoa (n : Z) : string :=
  if n <? 0 then "-" ++ utoa (- n) else utoa n.

(** [fmt.Sprintf("%v", b)] for a bool. *)
Definition format_bool (b : bool) : string := if b then "true" else "false".

(** [appendInt(b, x, width)] of package time: the sign, then zeros up to
    [width] digits, then the digits of [|x|].  (The source's fast paths
    for width 2 and 4 produce the same bytes.) *)
Fixpoint zeros (n : nat) : string :=
  match n with O => "" | S k => String "0" (zeros k) end.

Definition append_int (x : Z) (width : nat) : string :=
  let u := Z.abs x in
  let ds := utoa u in
  (if x <? 0 then "-" else "") ++ zeros (width - String.length ds) ++ ds.

(** ** The reference decimal reader *)

Fixpoint read_digits (v : Z) (s : string) : option Z :=
  match s with
  | EmptyString => Some v
  | String c r =>
      match digit_value c with
      | Some d => read_digits (v * 10 + d) r
      | None => None
      end
  end.

(** A decimal integer: an optional minus sign and at least one digit. *)
Definition read_int (s : string) : option Z :=
  match s with
  | String "-" (String _ _ as r) => option_map Z.opp (read_digits 0 r)
  | String _ _ => read_digits 0 s
  | EmptyString => None
  end.

(** ** Fixed-width digit strings

    [fixed_digits w x] are the last [w] decimal digits of [x], most
    significant first.  [appendInt] and [utoa] produce exactly these when
    the width covers the number. *)
Fixpoint fixed_digits (w : nat) (x : Z) : string :=
  match w with
  | O => ""
  | S k => fixed_digits k (x / 10) ++ String (digit_char (x mod 10)) ""
  end.

(** Prove a statement about [digit_char d] by trying the ten digits. *)
Ltac enum_digit d :=
  let H := fresh in
  assert (H : d = 0 \/ d = 1 \/ d = 2 \/ d = 3 \/ d = 4 \/ d = 5 \/ d = 6 \/ d = 7 \/ d = 8 \/ d = 9) by lia;
  repeat (destruct H as [-> | H]; [reflexivity|]); subst; reflexivity.

(** ** Lemmas *)

Lemma digit_value_char d : 0 <= d < 10 -> digit_value (digit_char d) = Some d.
Proof.
  intros Hd. unfold digit_value, digit_char.
  rewrite N_ascii_embedding by (apply N.lt_le_trans with 58%N; lia).
  assert (E : Z.of_N (48 + Z.to_N d) = 48 + d) by lia. rewrite E.
  replace ((48 <=? 48 + d) && (48 + d <=? 57)) with true
    by (symmetry; apply andb_true_iff; split; apply Z.leb_le; lia).
  f_equal; lia.
Qed.

Lemma read_digits_app v s t :
  read_digits v (s ++ t) =
  match read_digits v s with Some w => read_digits w t | None => None end.
Proof.
  revert v; induction s as [|c s IH]; intros v; [reflexivity|].
  simpl. destruct (digit_value c); [apply IH|reflexivity].
Qed.

(** The loop prepends the digits of [u] to [acc] when the fuel covers
    the number of digits. *)
Lemma utoa_loop_spec f u acc v :
  (1 <= f)%nat -> 0 <= u < 10 ^ Z.of_nat f ->
  exists ds, utoa_loop f u acc = ds ++ acc /\ ds <> "" /\
             read_digits v ds = Some (v * 10 ^ Z.of_nat (String.length ds) + u).
Proof.
  revert u acc v; induction f as [|f IH]; intros u acc v Hf Hu; [lia|].
  simpl utoa_loop.
  assert (Hm : 0 <= u mod 10 < 10) by (apply Z.mod_pos_bound; lia).
  destruct (Z.ltb_spec u 10) as [Hlt|Hge].
  - exists (String (digit_char (u mod 10)) ""). split; [reflexivity|]. split; [discriminate|].
    simpl. rewrite digit_value_char by exact Hm.
    rewrite Z.mod_small by lia. f_equal; lia.
  - destruct f as [|f']; [simpl in Hu; lia|].
    assert (Hq : 0 <= u / 10 < 10 ^ Z.of_nat (S f')).
    { split; [apply Z.div_pos; lia|].
      apply Z.div_lt_upper_bound; [lia|].
      rewrite (Nat2Z.inj_succ (S f')), Z.pow_succ_r in Hu by lia. lia. }
    assert (H1 : (1 <= S f')%nat) by lia.
    destruct (IH (u / 10) (String (digit_char (u mod 10)) acc) v H1 Hq)
      as (ds & Heq & Hne & Hrd).
    exists (ds ++ String (digit_char (u mod 10)) ""). split.
    + rewrite Heq, append_assoc_s. reflexivity.
    + split; [apply append_nonempty_l; exact Hne|].
      rewrite read_digits_app, Hrd. simpl. rewrite digit_value_char by exact Hm.
      f_equal. rewrite length_append_s. simpl String.length.
      rewrite Nat.add_1_r, Nat2Z.inj_succ, Z.pow_succ_r by lia.
      pose proof (Z.div_mod u 10 ltac:(lia)). lia.
Qed.

Lemma utoa_fuel_enough u : 0 <= u -> u < 10 ^ Z.of_nat (utoa_fuel u).
Proof.
  intros Hu. unfold utoa_fuel.
  destruct (Z.eq_dec u 0) as [->|Hnz]; [simpl; lia|].
  pose proof (Z.log2_spec u ltac:(lia)) as [_ Hlog].
  rewrite Nat2Z.inj_succ, Z2Nat.id by (apply Z.log2_nonneg).
  eapply Z.lt_le_trans; [exact Hlog|].
  apply Z.pow_le_mono_l. lia.
Qed.

(** Once the fuel covers the digits of [u], more fuel changes nothing:
    the loop has left by its guard [u < 10]. *)
Lemma utoa_loop_fuel_irrel f g u acc :
  (1 <= f)%nat -> (f <= g)%nat -> 0 <= u < 10 ^ Z.of_nat f ->
  utoa_loop f u acc = utoa_loop g u acc.
Proof.
  revert g u acc; induction f as [|f IH]; intros g u acc Hf Hg Hu; [lia|].
  destruct g as [|g]; [lia|]. simpl utoa_loop.
  destruct (Z.ltb_spec u 10); [reflexivity|].
  destruct f as [|f']; [simpl in Hu; lia|].
  apply IH; [lia|lia|].
  split; [apply Z.div_pos; lia|]. apply Z.div_lt_upper_bound; [lia|].
  rewrite (Nat2Z.inj_succ (S f')), Z.pow_succ_r in Hu by lia. lia.
Qed.

Lemma utoa_spec u :
  0 <= u -> utoa u <> "" /\ read_digits 0 (utoa u) = Some u.
Proof.
  intros Hu. unfold utoa.
  assert (H1 : (1 <= utoa_fuel u)%nat) by (unfold utoa_fuel; lia).
  destruct (utoa_loop_spec (utoa_fuel u) u "" 0 H1
             (conj Hu (utoa_fuel_enough u Hu))) as (ds & -> & Hne & Hrd).
  rewrite append_empty_r. split; [exact Hne|]. rewrite Hrd. f_equal; lia.
Qed.

Lemma utoa_head u : 0 <= u -> exists c r, utoa u = String c r /\ c <> "-"%char.
Proof.
  intros Hu. destruct (utoa_spec u Hu) as [Hne Hrd].
  destruct (utoa u) as [|c r] eqn:E; [congruence|]. exists c, r. split; [reflexivity|].
  intros ->. discriminate Hrd.
Qed.

(** Printing a signed integer with [%v] and reading it back gives the
    integer: the printer loses nothing. *)
Lemma read_int_itoa n : read_int (itoa n) = Some n.
Proof.
  unfold itoa. destruct (Z.ltb_spec n 0) as [Hn|Hn].
  - destruct (utoa_spec (- n) ltac:(lia)) as [Hne Hrd].
    destruct (utoa (- n)) as [|c r] eqn:E; [congruence|].
    change ("-" ++ String c r) with (String "-" (String c r)). unfold read_int.
    rewrite Hrd. simpl. f_equal; lia.
  - destruct (utoa_head n Hn) as (c & r & E & Hc). pose proof (proj2 (utoa_spec n Hn)) as Hrd.
    rewrite E in *. unfold read_int.
    destruct c as [[] [] [] [] [] [] [] []]; try exact Hrd; exfalso; apply Hc; reflexivity.
Qed.

Lemma itoa_inj n m : itoa n = itoa m -> n = m.
Proof. intros H. pose proof (read_int_itoa n). rewrite H, read_int_itoa in H0. congruence. Qed.

Lemma length_fixed_digits w x : String.length (fixed_digits w x) = w.
Proof.
  revert x; induction w as [|w IH]; intros x; [reflexivity|].
  simpl. rewrite length_append_s, IH. simpl. lia.
Qed.

Lemma zeros_snoc n : zeros n ++ "0" = String "0" (zeros n).
Proof. induction n as [|n IH]; [reflexivity|]. simpl. now rewrite IH. Qed.

Lemma fixed_digits_zero w : fixed_digits w 0 = zeros w.
Proof.
  induction w as [|w IH]; [reflexivity|]. simpl fixed_digits.
  rewrite Z.div_0_l by lia. rewrite IH. apply zeros_snoc.
Qed.

Lemma pow10_succ k : 10 ^ Z.of_nat (S k) = 10 * 10 ^ Z.of_nat k.
Proof. rewrite Nat2Z.inj_succ, Z.pow_succ_r by lia. reflexivity. Qed.

(** Leading zeros: widening the field prepends zeros. *)
Lemma fixed_digits_pad n k u :
  0 <= u < 10 ^ Z.of_nat k -> fixed_digits (n + k) u = zeros n ++ fixed_digits k u.
Proof.
  revert u; induction k as [|k IH]; intros u Hu.
  - simpl in Hu. assert (u = 0) as -> by lia.
    rewrite Nat.add_0_r, fixed_digits_zero. simpl. now rewrite append_empty_r.
  - rewrite Nat.add_succ_r. simpl fixed_digits.
    rewrite pow10_succ in Hu.
    rewrite IH by (split; [apply Z.div_pos; lia|apply Z.div_lt_upper_bound; lia]).
    apply append_assoc_s.
Qed.

(** Splitting a field: the high digits, then [b] low digits. *)
Lemma fixed_digits_split a b x y :
  0 <= y < 10 ^ Z.of_nat b ->
  fixed_digits (a + b) (x * 10 ^ Z.of_nat b + y) = fixed_digits a x ++ fixed_digits b y.
Proof.
  revert y; induction b as [|b IH]; intros y Hy.
  - simpl in *. assert (y = 0) as -> by lia. rewrite Nat.add_0_r, Z.mul_1_r, Z.add_0_r.
    now rewrite append_empty_r.
  - rewrite Nat.add_succ_r, pow10_succ in *. cbn [fixed_digits].
    assert (Hq : (x * (10 * 10 ^ Z.of_nat b) + y) / 10 = x * 10 ^ Z.of_nat b + y / 10).
    { rewrite <- (Z.div_add_l (x * 10 ^ Z.of_nat b) 10 y) by lia. f_equal; lia. }
    assert (Hr : (x * (10 * 10 ^ Z.of_nat b) + y) mod 10 = y mod 10).
    { replace (x * (10 * 10 ^ Z.of_nat b) + y) with (y + (x * 10 ^ Z.of_nat b) * 10) by lia.
      apply Z.mod_add. lia. }
    rewrite Hq, Hr, IH by (split; [apply Z.div_pos; lia|apply Z.div_lt_upper_bound; lia]).
    apply append_assoc_s.
Qed.

(** [utoa] writes the digits of [u] with no leading zero. *)
Lemma utoa_loop_fixed f u acc :
  (1 <= f)%nat -> 0 <= u < 10 ^ Z.of_nat f ->
  exists k, (1 <= k <= f)%nat /\ u < 10 ^ Z.of_nat k /\
            (k = 1%nat \/ 10 ^ Z.of_nat (k - 1) <= u) /\
            utoa_loop f u acc = fixed_digits k u ++ acc.
Proof.
  revert u acc; induction f as [|f IH]; intros u acc Hf Hu; [lia|].
  simpl utoa_loop. destruct (Z.ltb_spec u 10) as [Hlt|Hge].
  - exists 1%nat. split; [lia|]. split; [simpl; lia|]. split; [left; reflexivity|].
    reflexivity.
  - rewrite pow10_succ in Hu.
    assert (Hq : 0 <= u / 10 < 10 ^ Z.of_nat f)
      by (split; [apply Z.div_pos; lia|apply Z.div_lt_upper_bound; lia]).
    assert (Hf' : (1 <= f)%nat).
    { destruct f; [|lia]. simpl in Hq. pose proof (Z.div_mod u 10 ltac:(lia)).
      pose proof (Z.mod_pos_bound u 10 ltac:(lia)). lia. }
    destruct (IH (u / 10) (String (digit_char (u mod 10)) acc) Hf' Hq) as (k & Hk & Hlt & Hlow & Heq).
    pose proof (Z.div_mod u 10 ltac:(lia)). pose proof (Z.mod_pos_bound u 10 ltac:(lia)).
    exists (S k). split; [lia|]. split; [rewrite pow10_succ; lia|]. split.
    + right. replace (S k - 1)%nat with k by lia.
      destruct Hlow as [->|Hlow]; [simpl; lia|].
      replace k with (S (k - 1)) at 1 by lia. rewrite pow10_succ. lia.
    + rewrite Heq. simpl fixed_digits. rewrite append_assoc_s. reflexivity.
Qed.

(** [appendInt(x, w)] of a non-negative [x] that fits in [w >= 1] digits
    is exactly its [w]-digit field. *)
Lemma append_int_fixed x w :
  (1 <= w)%nat -> 0 <= x < 10 ^ Z.of_nat w -> append_int x w = fixed_digits w x.
Proof.
  intros Hw Hx. unfold append_int, utoa.
  rewrite Z.abs_eq by lia.
  assert (H1 : (1 <= utoa_fuel x)%nat) by (unfold utoa_fuel; lia).
  destruct (utoa_loop_fixed (utoa_fuel x) x "" H1 (conj (proj1 Hx) (utoa_fuel_enough x (proj1 Hx))))
    as (k & Hk & Hlt & Hlow & ->).
  rewrite append_empty_r, length_fixed_digits.
  destruct (Z.ltb_spec x 0); [lia|]. simpl.
  assert (Hkw : (k <= w)%nat).
  { destruct Hlow as [->|Hlow]; [exact Hw|].
    destruct (Nat.le_gt_cases k w) as [Hle|Hgt]; [exact Hle|exfalso].
    assert (10 ^ Z.of_nat w <= 10 ^ Z.of_nat (k - 1)) by (apply Z.pow_le_mono_r; lia). lia. }
  replace w with ((w - k) + k)%nat at 2 by lia.
  rewrite fixed_digits_pad by lia. reflexivity.
Qed.

Lemma fixed_digits_head w x :
  (1 <= w)%nat -> exists d r, 0 <= d < 10 /\ fixed_digits w x = String (digit_char d) r.
Proof.
  revert x; induction w as [|w IH]; intros x Hw; [lia|].
  destruct w as [|w'].
  - exists (x mod 10), "". split; [apply Z.mod_pos_bound; lia|reflexivity].
  - destruct (IH (x / 10) ltac:(lia)) as (d & r & Hd & Heq).
    exists d, (r ++ String (digit_char (x mod 10)) ""). split; [exact Hd|].
    cbn [fixed_digits] in *. rewrite Heq. reflexivity.
Qed.

(** Decimal digits are never a newline byte. *)
Lemma digit_char_not_newline d : 0 <= d < 10 -> Ascii.eqb (digit_char d) newline = false.
Proof.
  intros Hd. apply Ascii.eqb_neq. intros E. apply (f_equal N_of_ascii) in E.
  unfold digit_char in E. rewrite N_ascii_embedding in E by lia.
  change (N_of_ascii newline) with 10%N in E. lia.
Qed.

Lemma utoa_loop_one_line f u acc : no_newline acc = true -> no_newline (utoa_loop f u acc) = true.
Proof.
  revert u acc. induction f as [|f IH]; intros u acc H; [exact H|]. simpl.
  assert (Hd : no_newline (String (digit_char (u mod 10)) acc) = true).
  { simpl. rewrite digit_char_not_newline, H by (apply Z.mod_pos_bound; lia). reflexivity. }
  destruct (u <? 10); [exact Hd|apply IH, Hd].
Qed.

Lemma itoa_one_line n : no_newline (itoa n) = true.
Proof.
  unfold itoa, utoa. destruct (n <? 0); [rewrite no_newline_app|];
    rewrite utoa_loop_one_line; reflexivity.
Qed.

#[export] Hint Resolve itoa_one_line : one_line.

(** C31: termination of [formatBits]' division loop: with the fuel
    [utoa_fuel u = 1 + log2 u], or any more, the loop leaves by its guard
    [u < 10] and has written all the digits of [u]: its output is the same
    for every such fuel, and the independent decimal reader [read_digits]
    reads it back as [u]. *)
Theorem utoa_terminates u f :
  0 <= u -> (utoa_fuel u <= f)%nat ->
  utoa_loop f u "" = utoa u /\ read_digits 0 (utoa_loop f u "") = Some u.
Proof.
  intros Hu Hf. assert (E : utoa_loop f u "" = utoa u).
  { unfold utoa. symmetry. apply utoa_loop_fuel_irrel; [unfold utoa_fuel; lia|exact Hf|].
    split; [exact Hu|apply utoa_fuel_enough, Hu]. }
  rewrite E. split; [reflexivity|apply (utoa_spec u Hu)].
Qed.

(** ** Witnesses *)

Lemma utoa_terminates_witness :
  utoa_loop 30 16711680 "" = utoa 16711680 /\ read_digits 0 (utoa_loop 30 16711680 "") = Some 16711680.
Proof. apply utoa_terminates; [lia|vm_compute; lia]. Defined.
