(* ===== verification/Utf8.v ===== *)
(** * Utf8: the parts of Go's unicode/utf8 the error texts use

    The texts the program logs quote user input: [strconv.Quote] for the
    [Num] of a [*strconv.NumError] (COLOR, webhook.go:227-229) and time's
    [quote] for the fields of a [*time.ParseError] (TIMESTAMP,
    webhook.go:404-406).  Both walk their input rune by rune with
    [utf8.DecodeRuneInString] and write runes back with [utf8.AppendRune]
    (unicode/utf8/utf8.go); both escape bytes with the [lowerhex] table.

    A byte is an [ascii]; its value is the [Z] [byte_of c] in 0..255.  The
    table [first] of the decoder is written as the function [first] with
    the same classes (ASCII, invalid, or a leading byte with the size of
    the sequence and the accepted range of the second byte).

    Lemmas: the decoded rune lies in 0..2^21 and the width is 1..4; a
    rune written back holds a newline byte only when it is the newline;
    the [lowerhex] escapes hold none. *)

From Stdlib Require Import String Ascii ZArith List Lia Bool.
From S2P Require Import Prelude.
Import ListNotations.
Local Open Scope string_scope.
Local Open Scope Z_scope.

Module Utf8.

Definition byte_of (c : ascii) : Z := Z.of_N (N_of_ascii c).
Definition chr (b : Z) : ascii := ascii_of_N (Z.to_N b).

(** [string(b)] of a list of byte values. *)
Definition bytes (l : list Z) : string := fold_right (fun b acc => String (chr b) acc) "" l.

(** [s[n:]]. *)
Fixpoint drop (n : nat) (s : string) : string :=
  match n, s with
  | O, _ => s
  | S k, EmptyString => EmptyString
  | S k, String _ r => drop k r
  end.

Definition RuneError : Z := 65533.   (** U+FFFD *)
Definition RuneSelf : Z := 128.
Definition MaxRune : Z := 1114111.   (** U+10FFFF *)
Definition surrogateMin : Z := 55296.
Definition surrogateMax : Z := 57343.
Definition rune1Max : Z := 127.
Definition rune2Max : Z := 2047.
Definition rune3Max : Z := 65535.
Definition maskx : Z := 63.
Definition mask2 : Z := 31.
Definition mask3 : Z := 15.
Definition mask4 : Z := 7.
Definition locb : Z := 128.
Definition hicb : Z := 191.

(** The classes of the table [first]: [as], [xx], and [s1]..[s7] with
    the size of the sequence and the range [acceptRanges[x>>4]]. *)
Inductive first_class :=
| FirstASCII
| FirstInvalid
| FirstLead (size : nat) (lo hi : Z).

Definition first (b : Z) : first_class :=
  if b <? 128 then FirstASCII
  else if b <? 194 then FirstInvalid                 (** 0x80-0xC1: xx *)
  else if b <? 224 then FirstLead 2 locb hicb        (** 0xC2-0xDF: s1 *)
  else if b =? 224 then FirstLead 3 160 hicb         (** 0xE0: s2 *)
  else if b <? 237 then FirstLead 3 locb hicb        (** 0xE1-0xEC: s3 *)
  else if b =? 237 then FirstLead 3 locb 159         (** 0xED: s4 *)
  else if b <? 240 then FirstLead 3 locb hicb        (** 0xEE-0xEF: s3 *)
  else if b =? 240 then FirstLead 4 144 hicb         (** 0xF0: s5 *)
  else if b <? 244 then FirstLead 4 locb hicb        (** 0xF1-0xF3: s6 *)
  else if b =? 244 then FirstLead 4 locb 143         (** 0xF4: s7 *)
  else FirstInvalid.                                 (** 0xF5-0xFF: xx *)

(** [s[i]] for an index in range. *)
Definition byte_at (s : string) (i : nat) : Z :=
  match String.get i s with Some c => byte_of c | None => 0 end.

Definition out_cb (b : Z) : bool := (b <? locb) || (hicb <? b).

(** [utf8.DecodeRuneInString(s)]: the first rune and its width. *)
Definition DecodeRuneInString (s : string) : Z * nat :=
  match s with
  | EmptyString => (RuneError, 0%nat)
  | String c0 _ =>
      let s0 := byte_of c0 in
      match first s0 with
      | FirstASCII => (s0, 1%nat)
      | FirstInvalid => (RuneError, 1%nat)
      | FirstLead sz lo hi =>
          if (String.length s <? sz)%nat then (RuneError, 1%nat)
          else
            let s1 := byte_at s 1 in
            if (s1 <? lo) || (hi <? s1) then (RuneError, 1%nat)
            else if (sz <=? 2)%nat then
              (Z.lor (Z.shiftl (Z.land s0 mask2) 6) (Z.land s1 maskx), 2%nat)
            else
              let s2 := byte_at s 2 in
              if out_cb s2 then (RuneError, 1%nat)
              else if (sz <=? 3)%nat then
                (Z.lor (Z.lor (Z.shiftl (Z.land s0 mask3) 12) (Z.shiftl (Z.land s1 maskx) 6))
                       (Z.land s2 maskx), 3%nat)
              else
                let s3 := byte_at s 3 in
                if out_cb s3 then (RuneError, 1%nat)
                else
                  (Z.lor (Z.lor (Z.lor (Z.shiftl (Z.land s0 mask4) 18) (Z.shiftl (Z.land s1 maskx) 12))
                                (Z.shiftl (Z.land s2 maskx) 6)) (Z.land s3 maskx), 4%nat)
      end
  end.

(** [byte(x)]: the low eight bits. *)
Definition byte (x : Z) : Z := Z.land x 255.

(** [utf8.AppendRune(nil, r)], i.e. [string(r)]: the UTF-8 encoding, with
    [uint32(r)] deciding the length; an invalid rune is written as
    U+FFFD. *)
Definition AppendRune (r : Z) : string :=
  let i := r mod 2 ^ 32 in
  if i <=? rune1Max then bytes [byte r]
  else if i <=? rune2Max then
    bytes [Z.lor 192 (byte (Z.shiftr r 6)); Z.lor 128 (Z.land (byte r) maskx)]
  else if (i <? surrogateMin) || ((surrogateMax <? i) && (i <=? rune3Max)) then
    bytes [Z.lor 224 (byte (Z.shiftr r 12)); Z.lor 128 (Z.land (byte (Z.shiftr r 6)) maskx);
           Z.lor 128 (Z.land (byte r) maskx)]
  else if (rune3Max <? i) && (i <=? MaxRune) then
    bytes [Z.lor 240 (byte (Z.shiftr r 18)); Z.lor 128 (Z.land (byte (Z.shiftr r 12)) maskx);
           Z.lor 128 (Z.land (byte (Z.shiftr r 6)) maskx); Z.lor 128 (Z.land (byte r) maskx)]
  else bytes [239; 191; 189].

(** [utf8.ValidRune(r)]. *)
Definition ValidRune (r : Z) : bool :=
  ((0 <=? r) && (r <? surrogateMin)) || ((surrogateMax <? r) && (r <=? MaxRune)).

(** [lowerhex[d]] of ["0123456789abcdef"]. *)
Definition lowerhex (d : Z) : ascii :=
  match String.get (Z.to_nat d) "0123456789abcdef" with Some c => c | None => "0"%char end.

(** [\xhh] of a byte: [lowerhex[b>>4]], [lowerhex[b&0xF]]. *)
Definition hex_escape (b : Z) : string :=
  "\x" ++ String (lowerhex (Z.shiftr b 4)) (String (lowerhex (Z.land b 15)) "").

(** Printable ASCII other than the double quote and the backslash: the
    bytes both quoting functions copy as they are. *)
Definition plain_byte (c : ascii) : bool :=
  let b := byte_of c in (32 <=? b) && (b <=? 126) && negb (b =? 34) && negb (b =? 92).

Fixpoint plain (s : string) : bool :=
  match s with EmptyString => true | String c r => plain_byte c && plain r end.

(** ** Bytes and bits *)

Lemma drop_length_le n s : (String.length (drop n s) <= String.length s)%nat.
Proof.
  revert s. induction n as [|n IH]; intros [|c s]; simpl; try lia. specialize (IH s). lia.
Qed.

Lemma byte_range x : 0 <= byte x < 256.
Proof.
  unfold byte. change 255 with (Z.ones 8). rewrite Z.land_ones by lia.
  apply Z.mod_pos_bound. lia.
Qed.

Lemma byte_of_range c : 0 <= byte_of c < 256.
Proof.
  unfold byte_of. pose proof (N_ascii_bounded c). split; [lia|].
  change 256 with (Z.of_N 256). apply N2Z.inj_lt. exact H.
Qed.

Lemma land_ones_range x k : 0 <= k -> 0 <= Z.land x (Z.ones k) < 2 ^ k.
Proof. intros Hk. rewrite Z.land_ones by exact Hk. apply Z.mod_pos_bound. lia. Qed.

Lemma lor_lt a b n : 0 < n -> 0 <= a < 2 ^ n -> 0 <= b < 2 ^ n -> 0 <= Z.lor a b < 2 ^ n.
Proof.
  intros Hn Ha Hb. assert (Hl : 0 <= Z.lor a b) by (apply Z.lor_nonneg; lia).
  split; [exact Hl|].
  assert (Hlog : forall x, 0 <= x < 2 ^ n -> Z.log2 x < n).
  { intros x Hx. destruct (Z.eq_dec x 0) as [->|]; [simpl; lia|].
    apply Z.log2_lt_pow2; lia. }
  destruct (Z.eq_dec (Z.lor a b) 0) as [->|Hne]; [lia|].
  apply Z.log2_lt_pow2; [lia|]. rewrite Z.log2_lor by lia.
  apply Z.max_lub_lt; apply Hlog; lia.
Qed.

(** A byte [c | x] whose bit 7 comes from [c] is a byte of 128..255. *)
Lemma lor_high c x : Z.testbit c 7 = true -> 0 <= c < 256 -> 0 <= x < 256 ->
  128 <= Z.lor c x < 256.
Proof.
  intros Hc Hcr Hx. split; [|apply (lor_lt c x 8); lia].
  destruct (Z.lt_ge_cases (Z.lor c x) 128) as [Hlt|]; [exfalso|lia].
  assert (Hl : 0 <= Z.lor c x) by (apply Z.lor_nonneg; lia).
  assert (Z.testbit (Z.lor c x) 7 = false).
  { destruct (Z.eq_dec (Z.lor c x) 0) as [E|]; [rewrite E; reflexivity|].
    apply Z.bits_above_log2; [lia|]. apply Z.log2_lt_pow2; [lia|]. exact Hlt. }
  rewrite Z.lor_spec, Hc in H. discriminate.
Qed.

Lemma chr_newline b : 0 <= b < 256 -> b <> 10 -> Ascii.eqb (chr b) newline = false.
Proof.
  intros Hb Hn. apply Ascii.eqb_neq. intros H. apply (f_equal N_of_ascii) in H.
  unfold chr in H. rewrite N_ascii_embedding in H by lia.
  change (N_of_ascii newline) with 10%N in H. lia.
Qed.

Lemma bytes_one_line l :
  Forall (fun b => 0 <= b < 256 /\ b <> 10) l -> no_newline (bytes l) = true.
Proof.
  induction 1 as [|b l [Hb Hn] _ IH]; [reflexivity|].
  simpl. rewrite chr_newline, IH by assumption. reflexivity.
Qed.

(** [string(r)] holds a newline byte only for the newline rune. *)
Lemma AppendRune_one_line r : r mod 2 ^ 32 <> 10 -> no_newline (AppendRune r) = true.
Proof.
  intros Hr. pose proof (byte_range r) as Hbr.
  assert (Hm : forall x, 0 <= Z.land (byte x) maskx < 256).
  { intros x. pose proof (land_ones_range (byte x) 6 ltac:(lia)). unfold maskx.
    change 63 with (Z.ones 6). simpl in *; lia. }
  assert (Hh : forall c x, Z.testbit c 7 = true -> 0 <= c < 256 -> 0 <= x < 256 ->
                           0 <= Z.lor c x < 256 /\ Z.lor c x <> 10)
    by (intros c x H1 H2 H3; pose proof (lor_high c x H1 H2 H3); lia).
  unfold AppendRune.
  destruct (_ <=? rune1Max) eqn:E1.
  { apply bytes_one_line. repeat constructor; try lia.
    unfold byte. change 255 with (Z.ones 8). rewrite Z.land_ones by lia.
    rewrite <- (Z.mod_mod_divide r (2 ^ 32) (2 ^ 8)) by (exists (2 ^ 24); reflexivity).
    unfold rune1Max in E1. apply Z.leb_le in E1.
    pose proof (Z.mod_pos_bound r (2 ^ 32)). rewrite Z.mod_small; lia. }
  repeat match goal with |- context [if ?b then _ else _] => destruct b end;
    apply bytes_one_line; repeat constructor;
    first [apply Hh; first [reflexivity | lia | apply byte_range | apply Hm] | lia].
Qed.

(** The [lowerhex] digits and the [\xhh] escapes hold no newline. *)
Lemma lowerhex_not_newline d : Ascii.eqb (lowerhex d) newline = false.
Proof.
  unfold lowerhex. generalize (Z.to_nat d) as n. intros n.
  do 16 (destruct n as [|n]; [reflexivity|]). reflexivity.
Qed.

Lemma hex_escape_one_line b : no_newline (hex_escape b) = true.
Proof. unfold hex_escape. simpl. rewrite !lowerhex_not_newline. reflexivity. Qed.

Lemma chr_byte_of c : chr (byte (byte_of c)) = c.
Proof.
  pose proof (byte_of_range c) as Hc. unfold byte. change 255 with (Z.ones 8).
  rewrite Z.land_ones, Z.mod_small by (try change (2 ^ 8) with 256; lia).
  unfold chr, byte_of. rewrite N2Z.id. apply ascii_N_embedding.
Qed.

(** An ASCII byte is written back as itself. *)
Lemma AppendRune_ascii c : byte_of c < 128 -> AppendRune (byte_of c) = String c "".
Proof.
  intros Hc. pose proof (byte_of_range c). unfold AppendRune.
  rewrite Z.mod_small by (change (2 ^ 32) with 4294967296; lia).
  replace (byte_of c <=? rune1Max) with true by (symmetry; apply Z.leb_le; unfold rune1Max; lia).
  cbn [bytes fold_right]. rewrite chr_byte_of. reflexivity.
Qed.

(** An ASCII byte decodes to itself, one byte wide. *)
Lemma DecodeRuneInString_ascii c r : byte_of c < 128 -> DecodeRuneInString (String c r) = (byte_of c, 1%nat).
Proof.
  intros Hc. unfold DecodeRuneInString, first.
  replace (byte_of c <? 128) with true by (symmetry; apply Z.ltb_lt; exact Hc). reflexivity.
Qed.

Lemma plain_byte_spec c : plain_byte c = true ->
  32 <= byte_of c <= 126 /\ byte_of c <> 34 /\ byte_of c <> 92.
Proof.
  unfold plain_byte. rewrite !andb_true_iff, !negb_true_iff, !Z.leb_le, !Z.eqb_neq. tauto.
Qed.

(** ** The decoder *)

Lemma shl_bound x j k : 0 <= j -> 0 <= k -> j + k <= 21 ->
  0 <= Z.shiftl (Z.land x (Z.ones j)) k < 2 ^ 21.
Proof.
  intros Hj Hk Hjk. pose proof (land_ones_range x j Hj).
  rewrite Z.shiftl_mul_pow2 by exact Hk.
  assert (2 ^ j * 2 ^ k <= 2 ^ 21)
    by (rewrite <- Z.pow_add_r by lia; apply Z.pow_le_mono_r; lia).
  pose proof (Z.pow_pos_nonneg 2 k). nia.
Qed.

Lemma land_bound x j : 0 <= j <= 21 -> 0 <= Z.land x (Z.ones j) < 2 ^ 21.
Proof.
  intros Hj. pose proof (land_ones_range x j ltac:(lia)).
  assert (2 ^ j <= 2 ^ 21) by (apply Z.pow_le_mono_r; lia). lia.
Qed.

Lemma DecodeRuneInString_range s : 0 <= fst (DecodeRuneInString s) < 2 ^ 21.
Proof.
  destruct s as [|c0 r]; [cbn [fst DecodeRuneInString]; unfold RuneError; change (2 ^ 21) with 2097152; lia|].
  pose proof (byte_of_range c0) as H0.
  unfold DecodeRuneInString.
  destruct (first (byte_of c0)) as [| |sz lo hi]; cbn [fst];
    [change (2 ^ 21) with 2097152; lia|unfold RuneError; change (2 ^ 21) with 2097152; lia|].
  unfold mask2, mask3, mask4, maskx.
  change 31 with (Z.ones 5); change 15 with (Z.ones 4); change 7 with (Z.ones 3);
    change 63 with (Z.ones 6).
  repeat match goal with |- context [if ?b then _ else _] => destruct b end;
    cbn [fst]; try (unfold RuneError; change (2 ^ 21) with 2097152; lia);
    repeat (apply lor_lt; [lia| |]);
    first [apply shl_bound; lia | apply land_bound; lia].
Qed.

Lemma DecodeRuneInString_width c r :
  (1 <= snd (DecodeRuneInString (String c r)) <= 4)%nat.
Proof.
  unfold DecodeRuneInString. destruct (first _); simpl snd; try lia.
  repeat match goal with |- context [if ?b then _ else _] => destruct b end; simpl snd; lia.
Qed.

End Utf8.

#[export] Hint Resolve Utf8.hex_escape_one_line : one_line.
#[export] Hint Rewrite Utf8.lowerhex_not_newline : one_line_rw.
