(* ===== verification/Strconv.v ===== *)
(** * Strconv: [strconv.ParseInt] as COLOR.Parse calls it

    COLOR.Parse (webhook.go:227) calls [strconv.ParseInt(c.Color, 16, 25)].
    This file models Go's [ParseUint] and [ParseInt] (package strconv,
    atoi.go) for any base and bit size, with the [uint64] arithmetic of the
    loop written out modulo 2^64, the early exits on a bad digit and on
    overflow, and the [NumError] values they return.  Go returns 0 with a
    syntax error and the clamped extreme value with a range error; the
    caller logs the error and keeps the value.

    Theorems: the loop never wraps its [uint64] accumulator and stays
    within [maxVal]; the result always fits the bit size; on a well-formed
    input the result is the clamped value of the digits (a reference
    definition [hex_value]); a bad digit early in the input gives 0 and a
    syntax error; a long well-formed input is clamped, not rejected.

    The error COLOR logs prints as [NumError.Error], which quotes the input
    with [strconv.Quote] (strconv/quote.go); both are modelled here, with
    the lemmas that their texts hold no newline byte and that plain text
    is quoted as it is. *)

From Stdlib Require Import String Ascii ZArith List Lia Bool.
From Equations Require Import Equations.
From S2P Require Import Prelude GoFmt Utf8.
Import ListNotations.
Local Open Scope webhook_scope.
Local Open Scope string_scope.
Local Open Scope Z_scope.

Module Strconv.

(** [strconv.ErrSyntax], [strconv.ErrRange] and the base and bit-size
    errors of [ParseUint]. *)
Inductive num_err := ErrSyntax | ErrRange | ErrBase (base : Z) | ErrBitSize (bitSize : Z).

(** [*strconv.NumError]: the function, the input and the cause. *)
Record NumError := mkNumError { Func : string; Num : string; Err : num_err }.

Definition maxUint64 : Z := 2 ^ 64 - 1.
Definition IntSize : Z := 64.

(** [uint64] arithmetic wraps modulo 2^64. *)
Definition wrap64 (x : Z) : Z := x mod 2 ^ 64.

(** [lower(c) = c | ('x' - 'X')]: sets bit 5 of the byte. *)
Definition lower (c : ascii) : Z := Z.lor (Z.of_N (N_of_ascii c)) 32.

(** The digit switch of [ParseUint]: ['0'..'9'] and letters of either
    case; anything else is a syntax error. *)
Definition go_digit (c : ascii) : option Z :=
  let b := Z.of_N (N_of_ascii c) in
  if (48 <=? b) && (b <=? 57) then Some (b - 48)
  else if (97 <=? lower c) && (lower c <=? 122) then Some (lower c - 97 + 10)
  else None.

(** The loop of [ParseUint] over the bytes of [s], from accumulator [n]. *)
Fixpoint parse_uint_loop (base cutoff maxVal : Z) (n : Z) (s : string)
  : Z * option num_err :=
  match s with
  | EmptyString => (n, None)
  | String c r =>
      match go_digit c with
      | None => (0, Some ErrSyntax)
      | Some d =>
          if base <=? d then (0, Some ErrSyntax)
          else if cutoff <=? n then (maxVal, Some ErrRange)
          else
            let n' := wrap64 (n * base) in
            let n1 := wrap64 (n' + d) in
            if (n1 <? n') || (maxVal <? n1) then (maxVal, Some ErrRange)
            else parse_uint_loop base cutoff maxVal n1 r
      end
  end.

(** [strconv.ParseUint(s, base, bitSize)] for an explicit base (the
    underscore rule applies to base 0 only). *)
Definition ParseUint (s : string) (base bitSize : Z) : Z * option num_err :=
  if is_empty s then (0, Some ErrSyntax)
  else if negb ((2 <=? base) && (base <=? 36)) then (0, Some (ErrBase base))
  else
    let bitSize := if bitSize =? 0 then IntSize else bitSize in
    if (bitSize <? 0) || (64 <? bitSize) then (0, Some (ErrBitSize bitSize))
    else
      let cutoff := maxUint64 / base + 1 in
      let maxVal := 2 ^ bitSize - 1 in
      parse_uint_loop base cutoff maxVal 0 s.

(** The optional sign that [ParseInt] picks off. *)
Definition split_sign (s : string) : bool * string :=
  match s with
  | String "+" r => (false, r)
  | String "-" r => (true, r)
  | _ => (false, s)
  end.

(** The range check of [ParseInt] on the unsigned magnitude [un]. *)
Definition int_range_check (s : string) (neg : bool) (un bitSize : Z)
  : Z * option NumError :=
  let bitSize := if bitSize =? 0 then IntSize else bitSize in
  let cutoff := 2 ^ (bitSize - 1) in
  if negb neg && (cutoff <=? un) then (cutoff - 1, Some (mkNumError "ParseInt" s ErrRange))
  else if neg && (cutoff <? un) then (- cutoff, Some (mkNumError "ParseInt" s ErrRange))
  else ((if neg then - un else un), None).

Definition is_range (e : num_err) : bool :=
  match e with ErrRange => true | _ => false end.

(** [strconv.ParseInt(s, base, bitSize)]: an error of [ParseUint] other
    than [ErrRange] is returned with the value 0; otherwise the magnitude
    is checked against the signed range. *)
Definition ParseInt (s : string) (base bitSize : Z) : Z * option NumError :=
  if is_empty s then (0, Some (mkNumError "ParseInt" s ErrSyntax))
  else
    let '(neg, body) := split_sign s in
    let '(un, err) := ParseUint body base bitSize in
    match err with
    | Some e =>
        if is_range e then int_range_check s neg un bitSize
        else (0, Some (mkNumError "ParseInt" s e))
    | None => int_range_check s neg un bitSize
    end.

(** ** [strconv.Quote] and [NumError.Error] (strconv/quote.go, atoi.go)

    The error [log.Println] prints for COLOR quotes the input with
    [strconv.Quote]. *)
Section Quote.

(** [strconv.IsPrint] above Latin-1 searches the generated tables
    [isPrint16], [isNotPrint16], [isPrint32] and [isNotPrint32]; that
    lookup is the parameter [print_tables]. *)
Variable print_tables : Z -> bool.

(** [strconv.IsPrint(r)], with its Latin-1 fast path. *)
Definition IsPrint (r : Z) : bool :=
  if r <=? 255 then
    if (32 <=? r) && (r <=? 126) then true
    else if (161 <=? r) && (r <=? 255) then negb (r =? 173)
    else false
  else print_tables r.

(** The hex digits [lowerhex[r>>s&0xF]] for [s = 4(n-1), ..., 4, 0]. *)
Fixpoint nibbles (r : Z) (n : nat) : string :=
  match n with
  | O => ""
  | S k => String (Utf8.lowerhex (Z.land (Z.shiftr r (4 * Z.of_nat k)) 15)) (nibbles r k)
  end.

(** [appendEscapedRune(buf, r, quote, false, false)] with the double quote as [quote]. *)
Definition appendEscapedRune (r : Z) : string :=
  if (r =? 34) || (r =? 92) then "\" ++ Utf8.AppendRune r
  else if IsPrint r then Utf8.AppendRune r
  else if r =? 7 then "\a"
  else if r =? 8 then "\b"
  else if r =? 12 then "\f"
  else if r =? 10 then "\n"
  else if r =? 13 then "\r"
  else if r =? 9 then "\t"
  else if r =? 11 then "\v"
  else if (r <? 32) || (r =? 127) then Utf8.hex_escape (Utf8.byte r)
  else
    let r := if Utf8.ValidRune r then r else Utf8.RuneError in
    if r <? 65536 then "\u" ++ nibbles r 4 else "\U" ++ nibbles r 8.

(** The loop of [appendQuotedWith]: an ASCII byte is a rune of width 1,
    anything else is decoded; a width-1 [RuneError] (an invalid byte) is
    written as [\xhh]. *)
Equations? quote_loop (s : string) : string by wf (String.length s) lt :=
  quote_loop EmptyString := EmptyString;
  quote_loop (String c r) :=
    let '(rn, width) := if Utf8.byte_of c <? Utf8.RuneSelf then (Utf8.byte_of c, 1%nat)
                        else Utf8.DecodeRuneInString (String c r) in
    if (width =? 1)%nat && (rn =? Utf8.RuneError)
    then Utf8.hex_escape (Utf8.byte_of c) ++ quote_loop r
    else appendEscapedRune rn ++ quote_loop (Utf8.drop (width - 1) r).
Proof.
  all: simpl; first [lia | match goal with |- context [Utf8.drop ?n ?r] =>
                             pose proof (Utf8.drop_length_le n r) end; lia].
Qed.

(** [strconv.Quote(s)]. *)
Definition Quote (s : string) : string := dquote ++ quote_loop s ++ dquote.

(** [e.Err.Error()]: the messages of [ErrSyntax], [ErrRange],
    [baseError] and [bitSizeError]. *)
Definition err_text (e : num_err) : string :=
  match e with
  | ErrSyntax => "invalid syntax"
  | ErrRange => "value out of range"
  | ErrBase b => "invalid base " ++ itoa b
  | ErrBitSize b => "invalid bit size " ++ itoa b
  end.

(** [func (e *NumError) Error() string]. *)
Definition Error (e : NumError) : string :=
  "strconv." ++ Func e ++ ": " ++ "parsing " ++ Quote (Num e) ++ ": " ++ err_text (Err e).

End Quote.

(** ** Reference: the value of a string of digits, by Horner's rule *)
Fixpoint digits_from (base n : Z) (s : string) : option Z :=
  match s with
  | EmptyString => Some n
  | String c r =>
      match go_digit c with
      | Some d => if d <? base then digits_from base (n * base + d) r else None
      | None => None
      end
  end.

(** The signed result [ParseInt] promises for a well-formed input: the
    value, clamped to the [bitSize]-bit range with a range error. *)
Definition clamp_signed (s : string) (bitSize sv : Z) : Z * option NumError :=
  let cutoff := 2 ^ (bitSize - 1) in
  if cutoff - 1 <? sv then (cutoff - 1, Some (mkNumError "ParseInt" s ErrRange))
  else if sv <? - cutoff then (- cutoff, Some (mkNumError "ParseInt" s ErrRange))
  else (sv, None).

(** ** Lemmas on digits and on 64-bit wrap-around *)

Lemma go_digit_range c d : go_digit c = Some d -> 0 <= d <= 35.
Proof.
  unfold go_digit. destruct ((48 <=? _) && _) eqn:E1.
  - intros H; injection H as <-. apply andb_true_iff in E1 as [E1 E2].
    apply Z.leb_le in E1, E2. lia.
  - destruct ((97 <=? lower c) && _) eqn:E2; [|discriminate].
    intros H; injection H as <-. apply andb_true_iff in E2 as [E2 E3].
    apply Z.leb_le in E2, E3. lia.
Qed.

Lemma digits_from_ge base n s v :
  1 <= base -> 0 <= n -> digits_from base n s = Some v -> n <= v.
Proof.
  revert n; induction s as [|c r IH]; intros n Hb Hn H; simpl in H.
  - injection H; lia.
  - destruct (go_digit c) as [d|] eqn:Hd; [|discriminate].
    destruct (d <? base); [|discriminate].
    pose proof (go_digit_range c d Hd).
    specialize (IH (n * base + d) Hb ltac:(nia) H). nia.
Qed.

Lemma wrap64_small x : 0 <= x <= maxUint64 -> wrap64 x = x.
Proof. unfold wrap64, maxUint64. intros. apply Z.mod_small. lia. Qed.

Lemma wrap64_once x : maxUint64 < x < 2 * 2 ^ 64 -> wrap64 x = x - 2 ^ 64.
Proof.
  unfold wrap64, maxUint64. intros H. symmetry.
  apply (Z.mod_unique x (2 ^ 64) 1); lia.
Qed.

Lemma wrap64_nonneg x : 0 <= wrap64 x.
Proof. unfold wrap64. apply Z.mod_pos_bound. lia. Qed.

Lemma digits_from_lt base n s v :
  2 <= base -> 0 <= n -> digits_from base n s = Some v ->
  v < (n + 1) * base ^ Z.of_nat (String.length s).
Proof.
  revert n; induction s as [|c r IH]; intros n Hb Hn H; simpl in H.
  - injection H as <-. simpl. lia.
  - destruct (go_digit c) as [d|] eqn:Hd; [|discriminate].
    destruct (Z.ltb_spec d base); [|discriminate].
    pose proof (go_digit_range c d Hd).
    assert (Hn2 : 0 <= n * base + d) by nia. specialize (IH (n * base + d) Hb Hn2 H).
    simpl String.length. rewrite Nat2Z.inj_succ, Z.pow_succ_r by lia.
    assert (0 <= base ^ Z.of_nat (String.length r)) by (apply Z.pow_nonneg; lia). nia.
Qed.

(** A string that starts with a digit has no sign. *)
Lemma split_sign_digit c r d : go_digit c = Some d -> split_sign (String c r) = (false, String c r).
Proof. intros H. destruct c as [[] [] [] [] [] [] [] []]; try reflexivity; discriminate H. Qed.

(** ** The loop of [ParseUint] *)
Section Loop.
Variables base maxVal : Z.
Hypothesis Hbase : 2 <= base <= 36.
Hypothesis HmaxVal : 0 <= maxVal <= maxUint64.

Let cutoff := maxUint64 / base + 1.

(** Below the cutoff, multiplying by the base does not wrap. *)
Lemma below_cutoff_no_wrap n : 0 <= n < cutoff -> 0 <= n * base <= maxUint64.
Proof.
  unfold cutoff. intros Hn. split; [nia|].
  pose proof (Z.mul_div_le maxUint64 base ltac:(lia)). nia.
Qed.

Lemma above_cutoff_overflows n : cutoff <= n -> maxUint64 < n * base.
Proof.
  unfold cutoff. intros Hn.
  pose proof (Z.mod_pos_bound maxUint64 base ltac:(lia)).
  pose proof (Z.div_mod maxUint64 base ltac:(lia)). nia.
Qed.

(** The accumulator stays in [0, maxVal], and so does the result. *)
Lemma parse_uint_loop_bound n s :
  0 <= n <= maxVal -> 0 <= fst (parse_uint_loop base cutoff maxVal n s) <= maxVal.
Proof.
  revert n; induction s as [|c r IH]; intros n Hn; simpl; [lia|].
  destruct (go_digit c) as [d|]; simpl; [|lia].
  destruct (base <=? d); simpl; [lia|].
  destruct (cutoff <=? n); simpl; [lia|].
  destruct (_ || _) eqn:E; simpl; [lia|].
  apply orb_false_iff in E as [_ E]. apply Z.ltb_ge in E.
  apply IH. split; [apply wrap64_nonneg|exact E].
Qed.

(** Reading a prefix [p] of digits: the loop exits with a range error
    inside [p] when its value exceeds [maxVal], whatever follows, and
    otherwise continues from that value. *)
Lemma parse_uint_loop_app n p r v :
  0 <= n <= maxVal -> digits_from base n p = Some v ->
  parse_uint_loop base cutoff maxVal n (p ++ r) =
  if maxVal <? v then (maxVal, Some ErrRange)
  else parse_uint_loop base cutoff maxVal v r.
Proof.
  revert n; induction p as [|c p IH]; intros n Hn Hp; simpl in Hp |- *.
  - injection Hp as <-. destruct (Z.ltb_spec maxVal n); [lia|reflexivity].
  - destruct (go_digit c) as [d|] eqn:Hd; [|discriminate].
    pose proof (go_digit_range c d Hd) as Hdr.
    destruct (Z.ltb_spec d base) as [Hdb|]; [|discriminate].
    destruct (Z.leb_spec base d); [lia|].
    assert (Hv : n * base + d <= v) by (apply (digits_from_ge base _ p v); [lia|nia|exact Hp]).
    destruct (Z.leb_spec cutoff n) as [Hc|Hc].
    + pose proof (above_cutoff_overflows n Hc).
      destruct (Z.ltb_spec maxVal v); [reflexivity|lia].
    + pose proof (below_cutoff_no_wrap n ltac:(lia)) as Hnb.
      rewrite (wrap64_small (n * base)) by exact Hnb.
      destruct (Z.leb_spec (n * base + d) maxUint64) as [Hs|Hs].
      * rewrite (wrap64_small (n * base + d)) by lia.
        destruct (Z.ltb_spec (n * base + d) (n * base)); [lia|].
        destruct (Z.ltb_spec maxVal (n * base + d)); simpl.
        -- destruct (Z.ltb_spec maxVal v); [reflexivity|lia].
        -- apply IH; [lia|exact Hp].
      * rewrite (wrap64_once (n * base + d)) by (unfold maxUint64 in *; lia).
        destruct (Z.ltb_spec (n * base + d - 2 ^ 64) (n * base)); [|lia].
        simpl. destruct (Z.ltb_spec maxVal v); [reflexivity|lia].
Qed.

(** A byte that is not a digit, after a prefix whose value fits,
    stops the loop with a syntax error and the value 0. *)
Lemma parse_uint_loop_bad_digit n p c r v :
  0 <= n <= maxVal -> digits_from base n p = Some v -> v <= maxVal ->
  (go_digit c = None \/ exists d, go_digit c = Some d /\ base <= d) ->
  parse_uint_loop base cutoff maxVal n (p ++ String c r) = (0, Some ErrSyntax).
Proof.
  intros Hn Hp Hv Hc. rewrite (parse_uint_loop_app n p _ v Hn Hp).
  destruct (Z.ltb_spec maxVal v); [lia|]. simpl.
  destruct Hc as [-> | (d & -> & Hd)]; [reflexivity|].
  destruct (Z.leb_spec base d); [reflexivity|lia].
Qed.
End Loop.

(** ** [ParseUint] and [ParseInt] *)

Lemma split_sign_nonempty s neg body :
  split_sign s = (neg, body) -> body <> "" -> is_empty s = false.
Proof. destruct s; simpl; [intros H; injection H as <- <-; congruence|reflexivity]. Qed.

Lemma ParseUint_loop body base bitSize :
  body <> "" -> 2 <= base <= 36 -> 1 <= bitSize <= 64 ->
  ParseUint body base bitSize =
  parse_uint_loop base (maxUint64 / base + 1) (2 ^ bitSize - 1) 0 body.
Proof.
  intros Hb Hbase Hbs. unfold ParseUint.
  destruct body; [congruence|]. simpl is_empty. cbv iota.
  destruct (Z.leb_spec 2 base), (Z.leb_spec base 36); try lia. simpl.
  destruct (Z.eqb_spec bitSize 0); [lia|].
  destruct (Z.ltb_spec bitSize 0), (Z.ltb_spec 64 bitSize); try lia. reflexivity.
Qed.

Lemma maxVal_range bitSize : 1 <= bitSize <= 64 -> 0 <= 2 ^ bitSize - 1 <= maxUint64.
Proof.
  intros H. unfold maxUint64. split.
  - assert (0 < 2 ^ bitSize) by (apply Z.pow_pos_nonneg; lia). lia.
  - assert (2 ^ bitSize <= 2 ^ 64) by (apply Z.pow_le_mono_r; lia). lia.
Qed.

(** The magnitude read by [ParseUint] lies in [0, 2^bitSize - 1]. *)
Lemma ParseUint_bound body base bitSize :
  2 <= base <= 36 -> 1 <= bitSize <= 64 ->
  0 <= fst (ParseUint body base bitSize) <= 2 ^ bitSize - 1.
Proof.
  intros Hbase Hbs. pose proof (maxVal_range bitSize Hbs).
  destruct (is_empty body) eqn:E.
  - apply is_empty_true in E; subst. simpl. lia.
  - rewrite ParseUint_loop by (try apply is_empty_false; assumption).
    apply parse_uint_loop_bound; lia.
Qed.

Lemma cutoff_le_maxVal bitSize :
  1 <= bitSize -> 1 <= 2 ^ (bitSize - 1) <= 2 ^ bitSize - 1.
Proof.
  intros H. replace (2 ^ bitSize) with (2 * 2 ^ (bitSize - 1))
    by (rewrite <- Z.pow_succ_r by lia; f_equal; lia).
  assert (2 ^ 0 <= 2 ^ (bitSize - 1)) by (apply Z.pow_le_mono_r; lia).
  change (2 ^ 0) with 1 in *.
  lia.
Qed.

Lemma int_range_check_bound s neg un bitSize :
  1 <= bitSize <= 64 -> 0 <= un <= 2 ^ bitSize - 1 ->
  - 2 ^ (bitSize - 1) <= fst (int_range_check s neg un bitSize) <= 2 ^ (bitSize - 1) - 1.
Proof.
  intros Hbs Hun. pose proof (cutoff_le_maxVal bitSize ltac:(lia)).
  unfold int_range_check. destruct (Z.eqb_spec bitSize 0); [lia|].
  destruct neg; simpl.
  - destruct (Z.ltb_spec (2 ^ (bitSize - 1)) un); simpl; lia.
  - destruct (Z.leb_spec (2 ^ (bitSize - 1)) un); simpl; lia.
Qed.

(** [ParseInt]'s result always fits in [bitSize] signed bits, whatever
    the input: errors give 0 or the clamped extremes. *)
Theorem ParseInt_bounds s base bitSize :
  2 <= base <= 36 -> 1 <= bitSize <= 64 ->
  - 2 ^ (bitSize - 1) <= fst (ParseInt s base bitSize) <= 2 ^ (bitSize - 1) - 1.
Proof.
  intros Hbase Hbs. pose proof (cutoff_le_maxVal bitSize ltac:(lia)).
  unfold ParseInt. destruct (is_empty s); [simpl; lia|].
  destruct (split_sign s) as [neg body].
  pose proof (ParseUint_bound body base bitSize Hbase Hbs) as Hb.
  destruct (ParseUint body base bitSize) as [un err]; simpl in Hb.
  destruct err as [e|]; [destruct (is_range e); [|simpl; lia]|];
    apply int_range_check_bound; assumption.
Qed.

(** On a well-formed input (a sign and a non-empty run of digits),
    [ParseInt] returns the value clamped to the signed range, with a range
    error exactly when it clamps. *)
Theorem ParseInt_wellformed s base bitSize neg body v :
  2 <= base <= 36 -> 2 <= bitSize <= 64 ->
  split_sign s = (neg, body) -> body <> "" ->
  digits_from base 0 body = Some v ->
  ParseInt s base bitSize = clamp_signed s bitSize (if neg then - v else v).
Proof.
  intros Hbase Hbs Hs Hb Hv.
  pose proof (maxVal_range bitSize ltac:(lia)) as Hm.
  pose proof (digits_from_ge base 0 body v ltac:(lia) ltac:(lia) Hv) as Hv0.
  assert (Hc : 2 ^ (bitSize - 1) < 2 ^ bitSize - 1).
  { replace (2 ^ bitSize) with (2 * 2 ^ (bitSize - 1))
      by (rewrite <- Z.pow_succ_r by lia; f_equal; lia).
    assert (2 ^ 1 <= 2 ^ (bitSize - 1)) by (apply Z.pow_le_mono_r; lia).
    change (2 ^ 1) with 2 in *. lia. }
  unfold ParseInt. rewrite (split_sign_nonempty s neg body Hs Hb), Hs.
  rewrite ParseUint_loop by (assumption || lia).
  rewrite <- (append_empty_r body).
  rewrite (parse_uint_loop_app base (2 ^ bitSize - 1) ltac:(lia) Hm 0 body "" v ltac:(lia) Hv).
  unfold int_range_check, clamp_signed. destruct (Z.eqb_spec bitSize 0); [lia|].
  destruct (Z.ltb_spec (2 ^ bitSize - 1) v); simpl; destruct neg; simpl.
  - destruct (Z.ltb_spec (2 ^ (bitSize - 1)) (2 ^ bitSize - 1)); [|lia].
    destruct (Z.ltb_spec (2 ^ (bitSize - 1) - 1) (- v)); [lia|].
    destruct (Z.ltb_spec (- v) (- 2 ^ (bitSize - 1))); [reflexivity|lia].
  - destruct (Z.leb_spec (2 ^ (bitSize - 1)) (2 ^ bitSize - 1)); [|lia].
    destruct (Z.ltb_spec (2 ^ (bitSize - 1) - 1) v); [reflexivity|lia].
  - destruct (Z.ltb_spec (2 ^ (bitSize - 1)) v);
      destruct (Z.ltb_spec (2 ^ (bitSize - 1) - 1) (- v)); try lia;
      destruct (Z.ltb_spec (- v) (- 2 ^ (bitSize - 1))); try lia; reflexivity.
  - destruct (Z.leb_spec (2 ^ (bitSize - 1)) v);
      destruct (Z.ltb_spec (2 ^ (bitSize - 1) - 1) v); try lia; simpl; try reflexivity.
    destruct (Z.ltb_spec v (- 2 ^ (bitSize - 1))); [lia|reflexivity].
Qed.

(** A byte that is not a digit makes [ParseInt] return 0 with a syntax
    error, provided the digits before it still fit in [bitSize] bits. *)
Theorem ParseInt_bad_digit s base bitSize neg p c r v :
  2 <= base <= 36 -> 1 <= bitSize <= 64 ->
  split_sign s = (neg, p ++ String c r) ->
  digits_from base 0 p = Some v -> v <= 2 ^ bitSize - 1 ->
  (go_digit c = None \/ exists d, go_digit c = Some d /\ base <= d) ->
  ParseInt s base bitSize = (0, Some (mkNumError "ParseInt" s ErrSyntax)).
Proof.
  intros Hbase Hbs Hs Hp Hv Hc.
  pose proof (maxVal_range bitSize Hbs) as Hm.
  assert (Hne : p ++ String c r <> "") by (apply append_nonempty_r; discriminate).
  unfold ParseInt. rewrite (split_sign_nonempty s neg _ Hs Hne), Hs.
  rewrite ParseUint_loop by (assumption || lia).
  rewrite (parse_uint_loop_bad_digit base (2 ^ bitSize - 1) Hbase Hm 0 p c r v
             ltac:(lia) Hp Hv Hc).
  reflexivity.
Qed.

(** Once the digits read so far exceed [bitSize] bits, [ParseUint] stops
    with a range error before looking at the rest of the input, so
    [ParseInt] answers with the clamped maximum even if a bad byte
    follows. *)
Theorem ParseInt_overflow_prefix s base bitSize p r v :
  2 <= base <= 36 -> 1 <= bitSize <= 64 ->
  split_sign s = (false, p ++ r) ->
  digits_from base 0 p = Some v -> 2 ^ bitSize - 1 < v ->
  ParseInt s base bitSize =
  (2 ^ (bitSize - 1) - 1, Some (mkNumError "ParseInt" s ErrRange)).
Proof.
  intros Hbase Hbs Hs Hp Hv.
  pose proof (maxVal_range bitSize Hbs) as Hm.
  pose proof (cutoff_le_maxVal bitSize ltac:(lia)).
  assert (Hne : p ++ r <> "").
  { destruct p; [simpl in Hp; injection Hp as <-; lia|apply append_nonempty_l; discriminate]. }
  unfold ParseInt. rewrite (split_sign_nonempty s false _ Hs Hne), Hs.
  rewrite ParseUint_loop by (assumption || lia).
  rewrite (parse_uint_loop_app base (2 ^ bitSize - 1) Hbase Hm 0 p r v ltac:(lia) Hp).
  destruct (Z.ltb_spec (2 ^ bitSize - 1) v); [|lia]. simpl.
  unfold int_range_check. destruct (Z.eqb_spec bitSize 0); [lia|]. simpl.
  destruct (Z.leb_spec (2 ^ (bitSize - 1)) (2 ^ bitSize - 1)); [reflexivity|lia].
Qed.

(** Every error [ParseInt] returns is a [*NumError] of [fnParseInt] on
    the whole input [s0], sign included: the syntax error of the empty
    string, the range errors of the range check, and the errors of
    [ParseUint], whose [Func] and [Num] it overwrites. *)
Lemma ParseInt_err s base bitSize e :
  snd (ParseInt s base bitSize) = Some e -> Func e = "ParseInt" /\ Num e = s.
Proof.
  assert (Hr : forall neg un, snd (int_range_check s neg un bitSize) = Some e ->
                         Func e = "ParseInt" /\ Num e = s).
  { intros neg un. unfold int_range_check.
    destruct (_ && _); [|destruct (_ && _)]; simpl; intros H; try discriminate H;
      injection H as <-; split; reflexivity. }
  unfold ParseInt. destruct (is_empty s).
  { simpl. intros H. injection H as <-. split; reflexivity. }
  destruct (split_sign s) as [neg body]. destruct (ParseUint body base bitSize) as [un [e'|]].
  - destruct (is_range e'); [apply Hr|]. simpl. intros H. injection H as <-. split; reflexivity.
  - apply Hr.
Qed.

(** ** The quoted texts are single lines *)

Lemma nibbles_one_line r n : no_newline (nibbles r n) = true.
Proof. induction n as [|n IH]; [reflexivity|]. simpl. rewrite Utf8.lowerhex_not_newline, IH. reflexivity. Qed.

Lemma IsPrint_not_newline pt r : IsPrint pt r = true -> 0 <= r < 2 ^ 21 -> r mod 2 ^ 32 <> 10.
Proof.
  intros Hp Hr. change (2 ^ 21) with 2097152 in Hr. change (2 ^ 32) with 4294967296.
  rewrite Z.mod_small by lia. unfold IsPrint in Hp.
  destruct (Z.leb_spec r 255); [|lia].
  destruct (Z.leb_spec 32 r), (Z.leb_spec r 126), (Z.leb_spec 161 r); simpl in Hp; try lia.
  all: discriminate Hp.
Qed.

Lemma appendEscapedRune_one_line pt r : 0 <= r < 2 ^ 21 -> no_newline (appendEscapedRune pt r) = true.
Proof.
  intros Hr. unfold appendEscapedRune.
  destruct ((r =? 34) || (r =? 92)) eqn:E.
  { apply orb_true_iff in E as [E|E]; apply Z.eqb_eq in E; subst; reflexivity. }
  destruct (IsPrint pt r) eqn:Ep.
  { apply Utf8.AppendRune_one_line, (IsPrint_not_newline pt); assumption. }
  destruct (r =? 7); [reflexivity|]. destruct (r =? 8); [reflexivity|].
  destruct (r =? 12); [reflexivity|]. destruct (r =? 10); [reflexivity|].
  destruct (r =? 13); [reflexivity|]. destruct (r =? 9); [reflexivity|].
  destruct (r =? 11); [reflexivity|].
  destruct ((r <? 32) || (r =? 127)); [apply Utf8.hex_escape_one_line|].
  set (r' := if Utf8.ValidRune r then r else Utf8.RuneError).
  destruct (r' <? 65536); rewrite no_newline_app, nibbles_one_line; reflexivity.
Qed.

Lemma quote_loop_one_line pt s : no_newline (quote_loop pt s) = true.
Proof.
  remember (String.length s) as n eqn:Hn. revert s Hn.
  induction n as [n IH] using (well_founded_induction lt_wf). intros [|c r] Hn; [reflexivity|].
  simp quote_loop. pose proof (Utf8.byte_of_range c).
  assert (IHs : forall s', (String.length s' < n)%nat -> no_newline (quote_loop pt s') = true)
    by (intros s' Hs'; exact (IH _ Hs' s' eq_refl)).
  assert (Hd : forall w, (String.length (Utf8.drop w r) < n)%nat)
    by (intros w; pose proof (Utf8.drop_length_le w r); simpl in Hn; lia).
  destruct (Utf8.byte_of c <? Utf8.RuneSelf) eqn:Ea.
  - cbn [fst snd]. destruct (_ && _); one_line;
      first [apply IHs; first [apply Hd | simpl in Hn; lia]
            | apply appendEscapedRune_one_line; change (2 ^ 21) with 2097152; unfold Utf8.RuneSelf in Ea; lia].
  - pose proof (Utf8.DecodeRuneInString_range (String c r)) as Hr.
    destruct (Utf8.DecodeRuneInString (String c r)) as [rn w]. cbn [fst] in Hr.
    destruct (_ && _); one_line;
      first [apply IHs; first [apply Hd | simpl in Hn; lia] | apply appendEscapedRune_one_line, Hr].
Qed.

#[export] Hint Resolve quote_loop_one_line nibbles_one_line : one_line.

Lemma Quote_one_line pt s : no_newline (Quote pt s) = true.
Proof. unfold Quote. one_line. Qed.

Lemma err_text_one_line e : no_newline (err_text e) = true.
Proof. destruct e; cbn [err_text]; one_line. Qed.

#[export] Hint Resolve Quote_one_line err_text_one_line : one_line.

(** The text of a [NumError] is one line when its [Func] is. *)
Lemma NumError_one_line pt e : no_newline (Func e) = true -> no_newline (Error pt e) = true.
Proof. intros Hf. unfold Error. one_line. Qed.

(** Plain text is copied between the quotes. *)
Lemma quote_loop_plain pt s : Utf8.plain s = true -> quote_loop pt s = s.
Proof.
  induction s as [|c r IH]; intros Hp; [reflexivity|].
  cbn [Utf8.plain] in Hp. apply andb_true_iff in Hp as [Hc Hr].
  apply Utf8.plain_byte_spec in Hc as (Hc & H34 & H92).
  simp quote_loop.
  replace (Utf8.byte_of c <? Utf8.RuneSelf) with true
    by (symmetry; apply Z.ltb_lt; unfold Utf8.RuneSelf; lia).
  replace ((1 =? 1)%nat && (Utf8.byte_of c =? Utf8.RuneError)) with false
    by (symmetry; apply andb_false_iff; right; apply Z.eqb_neq; unfold Utf8.RuneError; lia).
  unfold appendEscapedRune.
  replace ((Utf8.byte_of c =? 34) || (Utf8.byte_of c =? 92)) with false
    by (symmetry; apply orb_false_iff; split; apply Z.eqb_neq; assumption).
  replace (IsPrint pt (Utf8.byte_of c)) with true.
  - rewrite Utf8.AppendRune_ascii by lia. cbn [Utf8.drop Nat.sub]. rewrite IH by exact Hr. reflexivity.
  - unfold IsPrint. replace (Utf8.byte_of c <=? 255) with true by (symmetry; apply Z.leb_le; lia).
    replace ((32 <=? Utf8.byte_of c) && (Utf8.byte_of c <=? 126)) with true
      by (symmetry; apply andb_true_iff; split; apply Z.leb_le; lia). reflexivity.
Qed.

(** * Theorems *)

(** C26: on plain text (printable ASCII without a double quote or a
    backslash) [strconv.Quote] only adds the double quotes, so the error
    COLOR logs shows such a colour as it was given. *)
Theorem Quote_plain pt s : Utf8.plain s = true -> Quote pt s = qv s.
Proof. intros Hp. unfold Quote, qv. rewrite quote_loop_plain by exact Hp. reflexivity. Qed.

(** ** Witnesses *)

Lemma Quote_plain_witness : Quote (fun _ => false) "12G4" = qv "12G4".
Proof. apply Quote_plain. reflexivity. Defined.

End Strconv.
