(* ===== verification/GoTime.v ===== *)
(** * GoTime: [time.Parse] and [Time.Format] for the layout of TIMESTAMP

    TIMESTAMP.Parse (webhook.go:404-408) calls
    [time.Parse("2006-01-02 03:04:05.0000", c.Time)] and formats the result
    (the zero [Time] on error) with the same layout.  This file models Go's
    [time.Parse] (format.go: [parse], [skip], [getnum], [atoi],
    [leadingInt], [parseNanoseconds], the day-of-month check) and
    [Time.Format] ([appendInt], the 12-hour [hr % 12] rule, [appendNano])
    for this one layout, chunk by chunk as Go's [nextStdChunk] splits it:
    [2006] [-] [01] [-] [02] [ ] [03] [:] [04] [:] [05] [.0000].

    In Go's layout language ["03"] is the zero-padded hour of a 12-hour
    clock and ["15"] the 24-hour one: the layout accepts hours 00..12 only
    and prints hour 0 as 12.

    A [Time] is kept as its civil fields in UTC.  [time.Date] normalises
    out-of-range fields; a successful parse has already checked every field
    (month 1..12, day 1..daysIn, hour 0..12, minute and second 0..59,
    nanoseconds below 10^9), so [Date] is the identity on them.

    The error TIMESTAMP logs prints as [ParseError.Error], which quotes the
    value and the leftover text with time's own [quote]; the lemmas show
    every error of [parse] names the layout and the value and has a
    one-line message. *)

From Stdlib Require Import String Ascii ZArith List Lia Bool.
From Equations Require Import Equations.
From S2P Require Import Prelude GoFmt Utf8.
Import ListNotations.
Local Open Scope webhook_scope.
Local Open Scope string_scope.
Local Open Scope Z_scope.

Module GoTime.

Record Time := mkTime {
  year : Z; month : Z; day : Z; hour : Z; minute : Z; sec : Z; nsec : Z }.

(** The zero [Time]: January 1, year 1, 00:00:00 UTC. *)
Definition zero_time : Time := mkTime 1 1 1 0 0 0 0.

(** [*time.ParseError]. *)
Record ParseError := mkParseError {
  Layout : string; Value : string; LayoutElem : string; ValueElem : string;
  Message : string }.

Definition layout : string := "2006-01-02 03:04:05.0000".

(** ** Helpers of format.go *)

Definition is_digit (c : ascii) : bool :=
  match digit_value c with Some _ => true | None => false end.

(** [isDigit(s, i)]. *)
Definition is_digit_at (s : string) (i : nat) : bool :=
  match String.get i s with Some c => is_digit c | None => false end.

(** [getnum(s, fixed)]: one or (when [fixed]) exactly two leading digits;
    [None] is [errBad]. *)
Definition getnum (s : string) (fixed : bool) : option (Z * string) :=
  match s with
  | String c1 r1 =>
      match digit_value c1 with
      | None => None
      | Some d1 =>
          match r1 with
          | String c2 r2 =>
              match digit_value c2 with
              | Some d2 => Some (d1 * 10 + d2, r2)
              | None => if fixed then None else Some (d1, r1)
              end
          | EmptyString => if fixed then None else Some (d1, r1)
          end
      end
  | EmptyString => None
  end.

(** [leadingInt(s)]: the leading digits, with its overflow checks
    against 2^63. *)
Fixpoint leading_int_acc (x : Z) (s : string) : option (Z * string) :=
  match s with
  | String c r =>
      match digit_value c with
      | Some d =>
          if (2 ^ 63 / 10) <? x then None
          else let x' := x * 10 + d in
               if 2 ^ 63 <? x' then None else leading_int_acc x' r
      | None => Some (x, s)
      end
  | EmptyString => Some (x, EmptyString)
  end.

(** The sign [atoi] picks off. *)
Definition atoi_sign (s : string) : bool * string :=
  match s with
  | String "-" r => (true, r)
  | String "+" r => (false, r)
  | _ => (false, s)
  end.

(** [atoi(s)]: an optional sign, then only digits. *)
Definition atoi (s : string) : option Z :=
  let '(neg, r) := atoi_sign s in
  match leading_int_acc 0 r with
  | Some (q, EmptyString) => Some (if neg then - q else q)
  | _ => None
  end.

Fixpoint cutspace (s : string) : string :=
  match s with String " " r => cutspace r | _ => s end.

(** [skip(value, prefix)]: a space in the prefix matches any run of
    spaces; [Err v] returns the value where matching failed.  The fuel
    is the length of the prefix. *)
Fixpoint skip_fuel (fuel : nat) (value prefix : string) : result string string :=
  match fuel with
  | O => Ok value
  | S f =>
      match prefix with
      | EmptyString => Ok value
      | String " " _ =>
          match value with
          | String c _ => if Ascii.eqb c " " then skip_fuel f (cutspace value) (cutspace prefix)
                          else Err value
          | EmptyString => skip_fuel f (cutspace value) (cutspace prefix)
          end
      | String p pr =>
          match value with
          | String c vr => if Ascii.eqb c p then skip_fuel f vr pr else Err value
          | EmptyString => Err value
          end
      end
  end.

Definition skip (value prefix : string) : result string string :=
  skip_fuel (S (String.length prefix)) value prefix.

(** A literal chunk without spaces, which [skip] matches byte by byte. *)
Fixpoint no_space (s : string) : bool :=
  match s with
  | EmptyString => true
  | String c r => negb (Ascii.eqb c " ") && no_space r
  end.

Definition is_leap (y : Z) : bool :=
  (y mod 4 =? 0) && (negb (y mod 100 =? 0) || (y mod 400 =? 0)).

(** [daysIn(m, year)]. *)
Definition days_in (m y : Z) : Z :=
  if m =? 2 then (if is_leap y then 29 else 28)
  else if (m =? 4) || (m =? 6) || (m =? 9) || (m =? 11) then 30 else 31.

(** [newParseError(layout, value, elem, valueElem, msg)]. *)
Definition perr (value elem velem msg : string) : ParseError :=
  mkParseError layout value elem velem msg.

(** ** The text of a [*time.ParseError] *)

(** The [\xhh] escapes of the bytes of [s]. *)
Fixpoint hex_bytes (s : string) : string :=
  match s with
  | EmptyString => EmptyString
  | String c r => Utf8.hex_escape (Utf8.byte_of c) ++ hex_bytes r
  end.

(** The loop of [quote(s)] (time/format.go) over the runes of [s]: a rune
    from space to DEL is kept, with a backslash before a double quote or a
    backslash; any other rune (a control byte, a non-ASCII rune, an
    invalid byte) is written as the [\xhh] of each of its bytes, [width]
    of them. *)
Equations? quote_loop (s : string) : string by wf (String.length s) lt :=
  quote_loop EmptyString := EmptyString;
  quote_loop (String c r) :=
    let '(rn, size) := Utf8.DecodeRuneInString (String c r) in
    (if (Utf8.RuneSelf <=? rn) || (rn <? 32) then
       let width :=
         if rn =? Utf8.RuneError then
           if (2 <? String.length (String c r))%nat &&
              String.eqb (substring 0 3 (String c r)) (Utf8.bytes [239; 191; 189])
           then 3%nat else 1%nat
         else String.length (Utf8.AppendRune rn) in
       hex_bytes (substring 0 width (String c r))
     else (if (rn =? 34) || (rn =? 92) then "\" else "") ++ Utf8.AppendRune rn)
    ++ quote_loop (Utf8.drop (size - 1) r).
Proof.
  clear quote_loop. induction (size - 1)%nat as [|k IH] in r |- *; [simpl; lia|].
  destruct r as [|c' r]; simpl in *; [lia|]. specialize (IH r). lia.
Qed.

(** [quote(s)] of package time. *)
Definition quote (s : string) : string := dquote ++ quote_loop s ++ dquote.

(** [func (e *ParseError) Error() string]. *)
Definition Error (e : ParseError) : string :=
  if is_empty (Message e) then
    "parsing time " ++ quote (Value e) ++ " as " ++ quote (Layout e) ++ ": cannot parse " ++
    quote (ValueElem e) ++ " as " ++ quote (LayoutElem e)
  else "parsing time " ++ quote (Value e) ++ Message e.

(** ** [time.Parse(layout, value)], chunk by chunk *)

(** A literal chunk: [skip] or fail with the prefix. *)
Definition lit (avalue prefix value : string) : result string ParseError :=
  match skip value prefix with
  | Ok v => Ok v
  | Err v => Err (perr avalue prefix v "")
  end.

(** [stdLongYear]: four bytes, the first a digit, read by [atoi]. *)
Definition std_year (avalue value : string) : result (Z * string) ParseError :=
  if (String.length value <? 4)%nat || negb (is_digit_at value 0)
  then Err (perr avalue "2006" value "")
  else match atoi (substring 0 4 value) with
       | Some y => Ok (y, substring 4 (String.length value - 4) value)
       | None => Err (perr avalue "2006" value "")
       end.

(** A two-digit field ([01], [02], [03], [04], [05]) with its range
    check: [ok v] says the value is in range, [what] names it in the
    message. *)
Definition std_num2 (avalue elem what : string) (ok : Z -> bool) (value : string)
  : result (Z * string) ParseError :=
  match getnum value true with
  | None => Err (perr avalue elem value "")
  | Some (v, rest) =>
      if ok v then Ok (v, rest)
      else Err (perr avalue elem rest (": " ++ what ++ " out of range"))
  end.

(** [parseNanoseconds(value, nbytes)]: a comma or period, then the
    digits read by [atoi], scaled to nanoseconds. *)
Definition parse_nanoseconds (value : string) (nbytes : nat)
  : option (option Z) (* None: errBad; Some None: range; Some (Some ns) *) :=
  match value with
  | String c _ =>
      if Ascii.eqb c "," || Ascii.eqb c "." then
        match atoi (substring 1 (nbytes - 1) value) with
        | None => None
        | Some ns =>
            if ns <? 0 then Some None
            else Some (Some (ns * 10 ^ (10 - Z.of_nat nbytes)))
        end
      else None
  | EmptyString => None
  end.

(** [stdFracSecond0] with four digits: exactly 1 + 4 bytes. *)
Definition std_frac4 (avalue value : string) : result (Z * string) ParseError :=
  if (String.length value <? 5)%nat then Err (perr avalue ".0000" value "")
  else
    let rest := substring 5 (String.length value - 5) value in
    match parse_nanoseconds value 5 with
    | None => Err (perr avalue ".0000" value "")
    | Some None => Err (perr avalue ".0000" rest ": fractional second out of range")
    | Some (Some ns) => Ok (ns, rest)
    end.

Definition in_range (lo hi : Z) (v : Z) : bool := (lo <=? v) && (v <=? hi).

(** The checks after the last chunk: no text may be left, and the day
    must exist in its month. *)
Definition parse_end (value v : string) (y mo d h mi s ns : Z) : result Time ParseError :=
  if negb (is_empty v) then Err (perr value "" v (": extra text: " ++ quote v))
  else if (d <? 1) || (days_in mo y <? d) then Err (perr value "" v ": day out of range")
  else Ok (mkTime y mo d h mi s ns).

(** [time.Parse("2006-01-02 03:04:05.0000", value)]. *)
Definition parse (value : string) : result Time ParseError :=
  '(y, v) <-? std_year value value ;;
  v <-? lit value "-" v ;;
  '(mo, v) <-? std_num2 value "01" "month" (in_range 1 12) v ;;
  v <-? lit value "-" v ;;
  '(d, v) <-? std_num2 value "02" "day" (fun _ => true) v ;;
  v <-? lit value " " v ;;
  '(h, v) <-? std_num2 value "03" "hour" (in_range 0 12) v ;;
  v <-? lit value ":" v ;;
  '(mi, v) <-? std_num2 value "04" "minute" (in_range 0 59) v ;;
  v <-? lit value ":" v ;;
  '(s, v) <-? std_num2 value "05" "second" (in_range 0 59) v ;;
  '(ns, v) <-? std_frac4 value v ;;
  parse_end value v y mo d h mi s ns.

(** ** [Time.Format("2006-01-02 03:04:05.0000")] *)

(** [stdZeroHour12]: [hr := hour % 12; if hr == 0 { hr = 12 }]. *)
Definition hour12 (h : Z) : Z := let hr := h mod 12 in if hr =? 0 then 12 else hr.

(** [appendNano] for [stdFracSecond0] with 4 digits: the separator, then
    the first 4 of the 9 zero-padded digits. *)
Definition append_nano4 (ns : Z) : string := "." ++ substring 0 4 (append_int ns 9).

Definition format (t : Time) : string :=
  append_int (year t) 4 ++ "-" ++ append_int (month t) 2 ++ "-" ++
  append_int (day t) 2 ++ " " ++ append_int (hour12 (hour t)) 2 ++ ":" ++
  append_int (minute t) 2 ++ ":" ++ append_int (sec t) 2 ++ append_nano4 (nsec t).

(** The times [Format] writes and [Parse] can read back: a four-digit
    year, valid calendar fields, a 24-hour clock hour, and nanoseconds in
    whole ten-thousandths of a second (the four digits the layout keeps). *)
Definition representable (t : Time) : bool :=
  in_range 0 9999 (year t) && in_range 1 12 (month t) &&
  in_range 1 (days_in (month t) (year t)) (day t) && in_range 0 23 (hour t) &&
  in_range 0 59 (minute t) && in_range 0 59 (sec t) &&
  in_range 0 (10 ^ 9 - 1) (nsec t) && (nsec t mod 10 ^ 5 =? 0).

(** The string a value in the layout's fixed-width fields spells: year,
    month, day, hour, minute, second and ten-thousandths of a second. *)
Definition layout_string (y mo d h mi se n : Z) : string :=
  fixed_digits 4 y ++ "-" ++ fixed_digits 2 mo ++ "-" ++ fixed_digits 2 d ++ " " ++
  fixed_digits 2 h ++ ":" ++ fixed_digits 2 mi ++ ":" ++ fixed_digits 2 se ++
  "." ++ fixed_digits 4 n.

(** The fields other than the hour are a valid date and time. *)
Definition date_fields_ok (y mo d mi se n : Z) : bool :=
  in_range 0 9999 y && in_range 1 12 mo && in_range 1 (days_in mo y) d &&
  in_range 0 59 mi && in_range 0 59 se && in_range 0 9999 n.

(** Peel one [<-?] step off a hypothesis [res_bind m k = Ok _]. *)
Ltac res_step H :=
  lazymatch type of H with
  | res_bind ?m _ = Ok _ =>
      let E := fresh "E" in
      lazymatch type of m with
      | result (prod _ _) _ => destruct m as [[? ?]|?] eqn:E
      | _ => destruct m as [?|?] eqn:E
      end; cbn [res_bind] in H; [|discriminate H]
  end.

(** ** Parsing fixed-width fields *)

Lemma atoi_sign_digit d r : 0 <= d < 10 -> atoi_sign (String (digit_char d) r) = (false, String (digit_char d) r).
Proof. intros Hd. enum_digit d. Qed.

Lemma leading_int_acc_cons x c r :
  leading_int_acc x (String c r) =
  match digit_value c with
  | Some d =>
      if (2 ^ 63 / 10) <? x then None
      else if 2 ^ 63 <? x * 10 + d then None else leading_int_acc (x * 10 + d) r
  | None => Some (x, String c r)
  end.
Proof. reflexivity. Qed.

Lemma leading_int_fixed w x v r :
  0 <= x -> 0 <= v < 10 ^ Z.of_nat w -> x * 10 ^ Z.of_nat w + v <= 2 ^ 62 ->
  leading_int_acc x (fixed_digits w v ++ r) = leading_int_acc (x * 10 ^ Z.of_nat w + v) r.
Proof.
  revert v r; induction w as [|w IH]; intros v r Hx Hv Hb.
  - simpl in *. f_equal. lia.
  - rewrite pow10_succ in *. cbn [fixed_digits]. rewrite append_assoc_s.
    change (String ?c "" ++ r) with (String c r).
    pose proof (Z.div_mod v 10 ltac:(lia)). pose proof (Z.mod_pos_bound v 10 ltac:(lia)).
    assert (Hq : 0 <= v / 10 < 10 ^ Z.of_nat w)
      by (split; [apply Z.div_pos; lia|apply Z.div_lt_upper_bound; lia]).
    rewrite IH by (try exact Hq; nia). rewrite leading_int_acc_cons, digit_value_char by lia.
    destruct (Z.ltb_spec (2 ^ 63 / 10) (x * 10 ^ Z.of_nat w + v / 10)).
    { exfalso. assert (2 ^ 62 / 10 < 2 ^ 63 / 10) by reflexivity.
      assert (10 * (x * 10 ^ Z.of_nat w + v / 10) <= 2 ^ 62) by nia.
      assert (x * 10 ^ Z.of_nat w + v / 10 <= 2 ^ 62 / 10) by (apply Z.div_le_lower_bound; lia).
      lia. }
    replace ((x * 10 ^ Z.of_nat w + v / 10) * 10 + v mod 10) with (x * (10 * 10 ^ Z.of_nat w) + v) by nia.
    destruct (Z.ltb_spec (2 ^ 63) (x * (10 * 10 ^ Z.of_nat w) + v)); [lia|reflexivity].
Qed.

Lemma atoi_fixed w v :
  (1 <= w)%nat -> 0 <= v < 10 ^ Z.of_nat w -> 10 ^ Z.of_nat w <= 2 ^ 62 ->
  atoi (fixed_digits w v) = Some v.
Proof.
  intros Hw Hv Hb. unfold atoi.
  destruct (fixed_digits_head w v Hw) as (d & r & Hd & Heq).
  rewrite Heq, atoi_sign_digit by exact Hd. rewrite <- Heq.
  rewrite <- (append_empty_r (fixed_digits w v)), leading_int_fixed by lia.
  reflexivity.
Qed.

Lemma getnum_fixed2 x r :
  0 <= x < 100 -> getnum (fixed_digits 2 x ++ r) true = Some (x, r).
Proof.
  intros Hx. simpl. pose proof (Z.div_mod x 10 ltac:(lia)).
  pose proof (Z.mod_pos_bound x 10 ltac:(lia)).
  assert (Hq : 0 <= x / 10 < 10) by (split; [apply Z.div_pos|apply Z.div_lt_upper_bound]; lia).
  rewrite (Z.mod_small (x / 10)) by exact Hq.
  rewrite !digit_value_char by lia. f_equal. f_equal. lia.
Qed.

Lemma std_num2_fixed av elem what ok x r :
  0 <= x < 100 -> ok x = true ->
  std_num2 av elem what ok (fixed_digits 2 x ++ r) = Ok (x, r).
Proof. intros Hx Hok. unfold std_num2. rewrite getnum_fixed2 by exact Hx. now rewrite Hok. Qed.

Lemma std_year_fixed av y r :
  0 <= y < 10000 -> std_year av (fixed_digits 4 y ++ r) = Ok (y, r).
Proof.
  intros Hy. unfold std_year.
  pose proof (length_fixed_digits 4 y) as Hl.
  destruct (fixed_digits_head 4 y ltac:(lia)) as (d & t & Hd & Heq).
  rewrite length_append_s, Hl.
  replace (is_digit_at (fixed_digits 4 y ++ r) 0) with true
    by (rewrite Heq; unfold is_digit_at; simpl; unfold is_digit; now rewrite digit_value_char).
  simpl ((4 + String.length r <? 4)%nat || negb true). cbv iota.
  rewrite substring_prefix, atoi_fixed by (simpl; lia).
  rewrite substring_suffix by lia. reflexivity.
Qed.

Lemma std_frac4_fixed av ns r :
  0 <= ns < 10000 ->
  std_frac4 av (String "." (fixed_digits 4 ns ++ r)) = Ok (ns * 10 ^ 5, r).
Proof.
  intros Hns. unfold std_frac4.
  pose proof (length_fixed_digits 4 ns) as Hl.
  change (String.length (String "." ?s)) with (S (String.length s)).
  rewrite length_append_s, Hl.
  simpl ((S (4 + String.length r) <? 5)%nat). cbv iota.
  unfold parse_nanoseconds.
  replace (Ascii.eqb "." "," || Ascii.eqb "." ".")%char with true by reflexivity.
  change (substring 1 ?n (String "." ?s)) with (substring 0 n s).
  simpl (5 - 1)%nat.
  rewrite substring_prefix, atoi_fixed by (simpl; lia).
  destruct (Z.ltb_spec ns 0); [lia|].
  change (substring 5 ?n (String "." ?s)) with (substring 4 n s).
  rewrite substring_suffix by lia. reflexivity.
Qed.

(** One round of the [skip] loop on a prefix byte that is not known: the
    byte is one of 256. *)
Lemma skip_fuel_cons f v p pr :
  skip_fuel (S f) v (String p pr) =
  if Ascii.eqb p " " then
    match v with
    | String c _ => if Ascii.eqb c " " then skip_fuel f (cutspace v) (cutspace pr) else Err v
    | EmptyString => skip_fuel f (cutspace v) (cutspace pr)
    end
  else
    match v with
    | String c vr => if Ascii.eqb c p then skip_fuel f vr pr else Err v
    | EmptyString => Err v
    end.
Proof. destruct p as [[|] [|] [|] [|] [|] [|] [|] [|]]; reflexivity. Qed.

(** On a prefix without spaces, the loop with fuel beyond the length of
    the prefix strips exactly that prefix, and fails on any value that
    does not start with it. *)
Lemma skip_fuel_literal p f v r :
  no_space p = true -> (String.length p < f)%nat ->
  skip_fuel f v p = Ok r <-> v = p ++ r.
Proof.
  revert f v. induction p as [|c p IH]; intros [|f] v Hp Hf; simpl in Hf; try lia.
  - simpl. split; [intros H; injection H; auto|intros ->; reflexivity].
  - simpl in Hp. apply andb_true_iff in Hp as [Hc Hp]. apply negb_true_iff in Hc.
    rewrite skip_fuel_cons, Hc.
    destruct v as [|c' v]; [split; discriminate|].
    destruct (Ascii.eqb_spec c' c) as [->|Hne].
    + rewrite (IH f v Hp ltac:(lia)). simpl. split; [intros ->|intros H; injection H]; auto.
    + split; [discriminate|]. simpl. intros H. injection H. intros _ E. contradiction.
Qed.

Lemma lit_char_dash av r : lit av "-" ("-" ++ r) = Ok r.
Proof. reflexivity. Qed.

Lemma lit_char_colon av r : lit av ":" (":" ++ r) = Ok r.
Proof. reflexivity. Qed.

(** The space of the layout matches the one space the format writes,
    since a digit follows it. *)
Lemma lit_space_digit av d r :
  0 <= d < 10 -> lit av " " (String " " (String (digit_char d) r)) = Ok (String (digit_char d) r).
Proof. intros Hd. enum_digit d. Qed.

Lemma lit_space_digits av x r :
  0 <= x -> lit av " " (" " ++ (fixed_digits 2 x ++ r)) = Ok (fixed_digits 2 x ++ r).
Proof.
  intros Hx. destruct (fixed_digits_head 2 x ltac:(lia)) as (d & t & Hd & ->).
  apply lit_space_digit. exact Hd.
Qed.

(** ** Formatting *)

Lemma days_in_range m y : 28 <= days_in m y <= 31.
Proof.
  unfold days_in. destruct (m =? 2); [destruct (is_leap y); lia|].
  destruct (_ || _); lia.
Qed.

Lemma in_range_spec lo hi v : in_range lo hi v = true <-> lo <= v <= hi.
Proof. unfold in_range. rewrite andb_true_iff, !Z.leb_le. reflexivity. Qed.

Lemma representable_spec t :
  representable t = true <->
  0 <= year t <= 9999 /\ 1 <= month t <= 12 /\
  1 <= day t <= days_in (month t) (year t) /\ 0 <= hour t <= 23 /\
  0 <= minute t <= 59 /\ 0 <= sec t <= 59 /\
  0 <= nsec t <= 10 ^ 9 - 1 /\ nsec t mod 10 ^ 5 = 0.
Proof.
  unfold representable. rewrite !andb_true_iff, !in_range_spec, Z.eqb_eq.
  tauto.
Qed.

Lemma hour12_range h : 0 <= hour12 h <= 12.
Proof.
  unfold hour12. pose proof (Z.mod_pos_bound h 12 ltac:(lia)).
  repeat match goal with |- context [if ?b then _ else _] => destruct b end; lia.
Qed.

(** The 12-hour clock on a day's hours, case by case: 0 is 12, 1..12
    are themselves, 13..23 lose 12. *)
Lemma hour12_clock h :
  0 <= h <= 23 -> hour12 h = if h =? 0 then 12 else if h <=? 12 then h else h - 12.
Proof.
  intros Hh. assert (Hc : h = 0 \/ (1 <= h <= 11) \/ h = 12 \/ 13 <= h <= 23) by lia.
  unfold hour12. destruct Hc as [->|[Hc|[->|Hc]]]; [reflexivity| |reflexivity|].
  - rewrite Z.mod_small by lia. destruct (Z.eqb_spec h 0), (Z.leb_spec h 12); lia.
  - rewrite <- (Z.mod_add h (-1) 12) by lia. rewrite Z.mod_small by lia.
    destruct (Z.eqb_spec (h + -1 * 12) 0), (Z.eqb_spec h 0), (Z.leb_spec h 12); lia.
Qed.

Lemma append_nano4_fixed ns :
  0 <= ns < 10 ^ 4 -> append_nano4 (ns * 10 ^ 5) = "." ++ fixed_digits 4 ns.
Proof.
  intros Hns. unfold append_nano4.
  rewrite append_int_fixed by (simpl; lia).
  change 9%nat with (4 + 5)%nat. rewrite <- (Z.add_0_r (ns * 10 ^ 5)).
  change (10 ^ 5) with (10 ^ Z.of_nat 5).
  rewrite fixed_digits_split by (simpl; lia).
  rewrite substring_prefix by apply length_fixed_digits. reflexivity.
Qed.

Lemma std_num2_fixed_out av elem what ok x r :
  0 <= x < 100 -> ok x = false ->
  std_num2 av elem what ok (fixed_digits 2 x ++ r) =
  Err (perr av elem r (": " ++ what ++ " out of range")).
Proof. intros Hx Hok. unfold std_num2. rewrite getnum_fixed2 by exact Hx. now rewrite Hok. Qed.

Lemma date_fields_ok_spec y mo d mi se n :
  date_fields_ok y mo d mi se n = true <->
  0 <= y <= 9999 /\ 1 <= mo <= 12 /\ 1 <= d <= days_in mo y /\
  0 <= mi <= 59 /\ 0 <= se <= 59 /\ 0 <= n <= 9999.
Proof. unfold date_fields_ok. rewrite !andb_true_iff, !in_range_spec. tauto. Qed.

(** [Format] of a representable time is its fixed-width fields, with the
    hour on the 12-hour clock. *)
Lemma format_fields t :
  representable t = true ->
  format t = layout_string (year t) (month t) (day t) (hour12 (hour t))
                           (minute t) (sec t) (nsec t / 10 ^ 5).
Proof.
  intros Ht. apply representable_spec in Ht as (Hy & Hm & Hd & Hh & Hmi & Hs & Hn & Hn5).
  pose proof (days_in_range (month t) (year t)). pose proof (hour12_range (hour t)).
  unfold format, layout_string.
  rewrite (append_int_fixed (year t)), (append_int_fixed (month t)), (append_int_fixed (day t)),
    (append_int_fixed (hour12 (hour t))), (append_int_fixed (minute t)),
    (append_int_fixed (sec t)) by (simpl; lia).
  pose proof (Z.div_mod (nsec t) (10 ^ 5) ltac:(lia)) as Hdm.
  rewrite Hn5, Z.add_0_r in Hdm.
  assert (Hq : 0 <= nsec t / 10 ^ 5 < 10 ^ 4)
    by (split; [apply Z.div_pos|apply Z.div_lt_upper_bound]; simpl in *; lia).
  rewrite Hdm at 1. rewrite Z.mul_comm, append_nano4_fixed by exact Hq. reflexivity.
Qed.

(** Run [parse] on a layout string through the date and the space
    before the hour. *)
Ltac parse_date_prefix :=
  rewrite std_year_fixed by lia; cbn [res_bind];
  rewrite lit_char_dash; cbn [res_bind];
  rewrite std_num2_fixed by (try apply in_range_spec; lia); cbn [res_bind];
  rewrite lit_char_dash; cbn [res_bind];
  rewrite std_num2_fixed by (try reflexivity; lia); cbn [res_bind];
  rewrite lit_space_digits by lia; cbn [res_bind].

(** A layout string whose fields are in their ranges, the day being any
    two digits, followed by any text, reaches the final checks of
    [time.Parse] with that text left. *)
Lemma parse_layout_suffix y mo d h mi se n r :
  0 <= y <= 9999 -> 1 <= mo <= 12 -> 0 <= d <= 99 -> 0 <= h <= 12 ->
  0 <= mi <= 59 -> 0 <= se <= 59 -> 0 <= n <= 9999 ->
  parse (layout_string y mo d h mi se n ++ r) =
  parse_end (layout_string y mo d h mi se n ++ r) r y mo d h mi se (n * 10 ^ 5).
Proof.
  intros Hy Hm Hd Hh Hmi Hse Hn. unfold parse. unfold layout_string at 2.
  rewrite !append_assoc_s. parse_date_prefix.
  rewrite std_num2_fixed by (try apply in_range_spec; lia). cbn [res_bind].
  rewrite lit_char_colon. cbn [res_bind].
  rewrite std_num2_fixed by (try apply in_range_spec; lia). cbn [res_bind].
  rewrite lit_char_colon. cbn [res_bind].
  rewrite std_num2_fixed by (try apply in_range_spec; lia). cbn [res_bind].
  change ("." ++ ?x) with (String "." x).
  rewrite std_frac4_fixed by lia. reflexivity.
Qed.

(** ... and with no text left, its day check. *)
Lemma parse_layout_day y mo d h mi se n :
  0 <= y <= 9999 -> 1 <= mo <= 12 -> 0 <= d <= 99 -> 0 <= h <= 12 ->
  0 <= mi <= 59 -> 0 <= se <= 59 -> 0 <= n <= 9999 ->
  parse (layout_string y mo d h mi se n) =
  if (d <? 1) || (days_in mo y <? d)
  then Err (perr (layout_string y mo d h mi se n) "" "" ": day out of range")
  else Ok (mkTime y mo d h mi se (n * 10 ^ 5)).
Proof.
  intros. rewrite <- (append_empty_r (layout_string y mo d h mi se n)) at 1.
  rewrite parse_layout_suffix by assumption. unfold parse_end.
  rewrite append_empty_r. reflexivity.
Qed.

(** A layout string whose hour is 00..12 parses to its fields. *)
Theorem parse_layout y mo d h mi se n :
  date_fields_ok y mo d mi se n = true -> 0 <= h <= 12 ->
  parse (layout_string y mo d h mi se n) = Ok (mkTime y mo d h mi se (n * 10 ^ 5)).
Proof.
  intros Hf Hh. apply date_fields_ok_spec in Hf as (Hy & Hm & Hd & Hmi & Hse & Hn).
  pose proof (days_in_range mo y).
  rewrite parse_layout_day by lia.
  destruct (Z.ltb_spec d 1); [lia|].
  destruct (Z.ltb_spec (days_in mo y) d); [lia|]. reflexivity.
Qed.


(** A layout string whose hour is 13..99 is rejected with Go's "hour out
    of range" error: the layout reads a 12-hour clock. *)
Theorem parse_layout_pm y mo d h mi se n :
  date_fields_ok y mo d mi se n = true -> 13 <= h <= 99 ->
  parse (layout_string y mo d h mi se n) =
  Err (perr (layout_string y mo d h mi se n) "03"
         (":" ++ fixed_digits 2 mi ++ ":" ++ fixed_digits 2 se ++ "." ++ fixed_digits 4 n)
         ": hour out of range").
Proof.
  intros Hf Hh. apply date_fields_ok_spec in Hf as (Hy & Hm & Hd & Hmi & Hse & Hn).
  pose proof (days_in_range mo y). unfold parse. unfold layout_string at 2. parse_date_prefix.
  rewrite std_num2_fixed_out; [reflexivity|lia|].
  unfold in_range. destruct (Z.leb_spec h 12); [lia|]. apply andb_false_r.
Qed.

(** C16: a layout string with valid fields followed by any non-empty text
    is rejected with Go's "extra text" error, whose message quotes the
    text left over with time's [quote]. *)
Theorem parse_extra_text y mo d h mi se n r :
  date_fields_ok y mo d mi se n = true -> 0 <= h <= 12 -> r <> "" ->
  parse (layout_string y mo d h mi se n ++ r) =
  Err (perr (layout_string y mo d h mi se n ++ r) "" r (": extra text: " ++ quote r)).
Proof.
  intros Hf Hh Hr. apply date_fields_ok_spec in Hf as (Hy & Hm & Hd & Hmi & Hse & Hn).
  pose proof (days_in_range mo y). rewrite parse_layout_suffix by lia.
  unfold parse_end. apply is_empty_false in Hr. rewrite Hr. reflexivity.
Qed.

(** C32: time's [skip] loop runs to the end of its prefix within the fuel
    [GoTime.skip] gives it (one round more than the prefix has bytes): on
    a prefix without spaces it succeeds exactly on the values that start
    with the prefix and returns what follows it; on the prefix of one
    space it accepts an empty value or one that starts with a space,
    strips the whole run of spaces, and rejects a value that starts with
    another byte, returning the value. *)
Theorem skip_spec :
  (forall p v r, no_space p = true -> (skip v p = Ok r <-> v = p ++ r)) /\
  (forall v, skip v " " =
     match v with
     | EmptyString => Ok EmptyString
     | String c _ => if Ascii.eqb c " " then Ok (cutspace v) else Err v
     end).
Proof.
  split.
  - intros p v r Hp. apply skip_fuel_literal; [exact Hp|lia].
  - intros [|c v]; [reflexivity|]. unfold skip. rewrite skip_fuel_cons.
    cbn [Ascii.eqb Bool.eqb]. destruct (Ascii.eqb c " "); [|reflexivity].
    cbn [cutspace]. destruct (cutspace (String c v)); reflexivity.
Qed.

(** ** Round trip *)

(** Formatting a time and parsing it back gives its fields, the hour
    through [hour12]. *)
Lemma parse_format_hour12 t :
  representable t = true ->
  parse (format t) =
  Ok (mkTime (year t) (month t) (day t) (hour12 (hour t)) (minute t) (sec t) (nsec t)).
Proof.
  intros Ht. rewrite (format_fields t Ht).
  pose proof Ht as Hs. apply representable_spec in Hs as (Hy & Hm & Hd & Hh & Hmi & Hse & Hn & Hn5).
  pose proof (hour12_range (hour t)).
  assert (Hq : 0 <= nsec t / 10 ^ 5 <= 9999)
    by (split; [apply Z.div_pos|apply Z.lt_succ_r, Z.div_lt_upper_bound]; simpl in *; lia).
  rewrite parse_layout by (try (apply date_fields_ok_spec; repeat split); lia).
  pose proof (Z.div_mod (nsec t) (10 ^ 5) ltac:(lia)) as Hdm.
  rewrite Hn5, Z.add_0_r, Z.mul_comm in Hdm. rewrite <- Hdm. reflexivity.
Qed.

(** On the hours the layout can express (1..12) the round trip is exact. *)
Corollary parse_format_exact t :
  representable t = true -> 1 <= hour t <= 12 -> parse (format t) = Ok t.
Proof.
  intros Ht Hh. rewrite parse_format_hour12 by exact Ht.
  replace (hour12 (hour t)) with (hour t).
  - destruct t; reflexivity.
  - unfold hour12. destruct (Z.eq_dec (hour t) 12) as [->|Hne]; [reflexivity|].
    rewrite Z.mod_small by lia. destruct (Z.eqb_spec (hour t) 0); lia.
Qed.

(** C29: Formatting a time and parsing it back gives the same date,
    minute, second and nanoseconds, and the hour on the 12-hour clock of
    the layout ["03"]: hour 0 comes back as 12, hours 1..12 as
    themselves, hours 13..23 as 1..11. *)
Theorem parse_format t :
  representable t = true ->
  parse (format t) =
  Ok (mkTime (year t) (month t) (day t)
         (if hour t =? 0 then 12 else if hour t <=? 12 then hour t else hour t - 12)
         (minute t) (sec t) (nsec t)).
Proof.
  intros Ht. rewrite parse_format_hour12 by exact Ht.
  apply representable_spec in Ht as (_ & _ & _ & Hh & _).
  rewrite hour12_clock by exact Hh. reflexivity.
Qed.

(** ** What a successful parse guarantees *)

Lemma std_num2_ok av elem what ok v x r :
  std_num2 av elem what ok v = Ok (x, r) -> ok x = true.
Proof.
  unfold std_num2. destruct (getnum v true) as [[y r']|]; [|discriminate].
  destruct (ok y) eqn:E; [|discriminate]. intros H; injection H as <- <-. exact E.
Qed.

Lemma std_frac4_ok av v ns r : std_frac4 av v = Ok (ns, r) -> 0 <= ns.
Proof.
  unfold std_frac4, parse_nanoseconds. destruct (_ <? _)%nat; [discriminate|].
  destruct v as [|c v']; [discriminate|].
  destruct (_ || _); [|discriminate].
  destruct (atoi _) as [n|]; [|discriminate].
  destruct (Z.ltb_spec n 0); [discriminate|].
  intros Hr; injection Hr as <- _. simpl; lia.
Qed.

(** C30: A successful parse yields a valid calendar date and a time of day
    with the hour in 0..12: the layout never accepts the afternoon hours
    13..23 of a 24-hour clock. *)
Theorem parse_fields_valid s t :
  parse s = Ok t ->
  0 <= hour t <= 12 /\ 1 <= month t <= 12 /\ 1 <= day t <= days_in (month t) (year t) /\
  0 <= minute t <= 59 /\ 0 <= sec t <= 59 /\ 0 <= nsec t.
Proof.
  unfold parse. intros H. do 12 res_step H.
  unfold parse_end in H. destruct (negb (is_empty _)); [discriminate H|].
  destruct (_ || _) eqn:Ed; [discriminate H|].
  injection H as <-. simpl.
  apply orb_false_iff in Ed as [Ed1 Ed2]. apply Z.ltb_ge in Ed1, Ed2.
  repeat match goal with
         | E : std_num2 _ _ _ _ _ = Ok _ |- _ => apply std_num2_ok in E; try rewrite in_range_spec in E
         | E : std_frac4 _ _ = Ok _ |- _ => apply std_frac4_ok in E
         end.
  lia.
Qed.

(** ** What a failed parse reports *)

(** [newParseError(alayout, avalue, ...)]: an error that names the layout
    and the whole value given to [time.Parse]. *)
Definition reports (avalue : string) (e : ParseError) : Prop :=
  Layout e = layout /\ Value e = avalue.

Lemma perr_reports av elem velem msg : reports av (perr av elem velem msg).
Proof. split; reflexivity. Qed.

(** ... and whose message is a single line. *)
Definition reports_line (avalue : string) (e : ParseError) : Prop :=
  reports avalue e /\ no_newline (Message e) = true.

Lemma perr_reports_line av elem velem msg :
  no_newline msg = true -> reports_line av (perr av elem velem msg).
Proof. split; [apply perr_reports|exact H]. Qed.

(** Close a goal [X = Err e -> reports_line av e] on a chunk parser [X]. *)
Ltac chunk_err :=
  repeat match goal with |- context [match ?x with _ => _ end] => destruct x end;
  intros H; first [discriminate H | injection H as <-; apply perr_reports_line; one_line].

Lemma lit_err av p v e : lit av p v = Err e -> reports_line av e.
Proof. unfold lit. chunk_err. Qed.

Lemma std_year_err av v e : std_year av v = Err e -> reports_line av e.
Proof. unfold std_year. chunk_err. Qed.

Lemma std_num2_err av elem what ok v e :
  std_num2 av elem what ok v = Err e -> no_newline what = true -> reports_line av e.
Proof. intros H Hw. revert H. unfold std_num2. chunk_err. Qed.

Lemma std_frac4_err av v e : std_frac4 av v = Err e -> reports_line av e.
Proof. unfold std_frac4. chunk_err. Qed.

(** Peel one [<-?] step off a hypothesis [res_bind m k = Err e]: either
    [m] failed with [e], or it succeeded and the rest failed. *)
Ltac res_err_step H :=
  lazymatch type of H with
  | res_bind ?m _ = Err _ =>
      let E := fresh "E" in
      lazymatch type of m with
      | result (prod _ _) _ => destruct m as [[? ?]|?] eqn:E
      | _ => destruct m as [?|?] eqn:E
      end; cbn [res_bind] in H;
      [|injection H as ->;
        first [exact (lit_err _ _ _ _ E) | exact (std_year_err _ _ _ E)
              | exact (std_num2_err _ _ _ _ _ _ E eq_refl) | exact (std_frac4_err _ _ _ E)]]
  end.

(** ** The texts of the errors are single lines *)

Lemma hex_bytes_one_line s : no_newline (hex_bytes s) = true.
Proof. induction s as [|c s IH]; [reflexivity|]. cbn [hex_bytes]. one_line. Qed.

#[export] Hint Resolve hex_bytes_one_line : one_line.

Lemma time_quote_loop_one_line s : no_newline (quote_loop s) = true.
Proof.
  remember (String.length s) as n eqn:Hn. revert s Hn.
  induction n as [n IH] using (well_founded_induction lt_wf). intros [|c r] Hn; [reflexivity|].
  simp quote_loop.
  assert (IHs : forall s', (String.length s' < n)%nat -> no_newline (quote_loop s') = true)
    by (intros s' Hs'; exact (IH _ Hs' s' eq_refl)).
  destruct (Utf8.DecodeRuneInString (String c r)) as [rn w].
  rewrite no_newline_app. apply andb_true_intro. split.
  - destruct (_ || _) eqn:Eb; [apply hex_bytes_one_line|].
    rewrite orb_false_iff, Z.leb_gt, Z.ltb_ge in Eb. unfold Utf8.RuneSelf in Eb.
    rewrite no_newline_app, Utf8.AppendRune_one_line;
      [destruct (_ || _); reflexivity|rewrite Z.mod_small; lia].
  - apply IHs. pose proof (Utf8.drop_length_le (w - 1) r). simpl in Hn. lia.
Qed.

#[export] Hint Resolve time_quote_loop_one_line : one_line.

Lemma quote_one_line s : no_newline (quote s) = true.
Proof. unfold quote. one_line. Qed.

#[export] Hint Resolve quote_one_line : one_line.

(** Plain text is copied between the quotes. *)
Lemma time_quote_loop_plain s : Utf8.plain s = true -> quote_loop s = s.
Proof.
  induction s as [|c r IH]; intros Hp; [reflexivity|].
  cbn [Utf8.plain] in Hp. apply andb_true_iff in Hp as [Hc Hr].
  apply Utf8.plain_byte_spec in Hc as (Hc & H34 & H92).
  simp quote_loop. rewrite Utf8.DecodeRuneInString_ascii by lia.
  replace ((Utf8.RuneSelf <=? Utf8.byte_of c) || (Utf8.byte_of c <? 32)) with false
    by (symmetry; apply orb_false_iff; split; [apply Z.leb_gt|apply Z.ltb_ge];
        unfold Utf8.RuneSelf; lia).
  replace ((Utf8.byte_of c =? 34) || (Utf8.byte_of c =? 92)) with false
    by (symmetry; apply orb_false_iff; split; apply Z.eqb_neq; assumption).
  rewrite Utf8.AppendRune_ascii by lia. cbn [Utf8.drop Nat.sub]. rewrite IH by exact Hr.
  reflexivity.
Qed.

(** Every error [time.Parse] returns names the layout and the value, and
    its message is one line. *)
Lemma parse_err_line s e : parse s = Err e -> reports_line s e.
Proof.
  unfold parse. intros H. do 12 res_err_step H.
  unfold parse_end in H.
  destruct (negb (is_empty _)); [injection H as <-; apply perr_reports_line; one_line|].
  destruct (_ || _); [injection H as <-; apply perr_reports_line; reflexivity|discriminate H].
Qed.

Lemma parse_err s e : parse s = Err e -> reports s e.
Proof. intros H. apply (parse_err_line s e H). Qed.

(** The text of a [ParseError] whose message is one line is one line. *)
Lemma ParseError_one_line e : no_newline (Message e) = true -> no_newline (Error e) = true.
Proof. intros Hm. unfold Error. destruct (is_empty _); one_line. Qed.

(** C27: on plain text (printable ASCII without a double quote or a
    backslash) time's [quote] only adds the double quotes, so the error
    TIMESTAMP logs shows such a timestamp as it was given. *)
Theorem quote_plain s : Utf8.plain s = true -> quote s = qv s.
Proof. intros Hp. unfold quote, qv. rewrite time_quote_loop_plain by exact Hp. reflexivity. Qed.

(** ** Witnesses *)

Lemma parse_format_witness :
  parse (format (mkTime 2024 1 2 0 4 5 678900000)) = Ok (mkTime 2024 1 2 12 4 5 678900000).
Proof. apply (parse_format (mkTime 2024 1 2 0 4 5 678900000)). vm_compute. reflexivity. Defined.

Lemma parse_extra_text_witness :
  parse (layout_string 2024 1 2 3 4 5 6789 ++ "Z") =
  Err (perr (layout_string 2024 1 2 3 4 5 6789 ++ "Z") "" "Z" (": extra text: " ++ quote "Z")).
Proof. apply parse_extra_text; [vm_compute; reflexivity|lia|discriminate]. Defined.

Lemma skip_spec_witness :
  no_space "-" = true /\ (skip "-05 12" "-" = Ok "05 12" <-> "-05 12" = "-" ++ "05 12").
Proof. split; [reflexivity|]. exact (proj1 skip_spec "-" "-05 12" "05 12" eq_refl). Defined.

Lemma quote_plain_witness : quote "2024-01-02 15:04:05.6789" = qv "2024-01-02 15:04:05.6789".
Proof. apply quote_plain. reflexivity. Defined.

Lemma parse_fields_valid_witness :
  (0 <= 3 <= 12 /\ 1 <= 1 <= 12 /\ 1 <= 2 <= days_in 1 2024 /\
   0 <= 4 <= 59 /\ 0 <= 5 <= 59 /\ 0 <= 678900000)%Z.
Proof.
  exact (parse_fields_valid (layout_string 2024 1 2 3 4 5 6789) (mkTime 2024 1 2 3 4 5 678900000)
           ltac:(vm_compute; reflexivity)).
Defined.

End GoTime.
