(* ===== verification/Parts.v ===== *)
(** * Parts: the ten embed parts of webhook.go

    Each Go struct COLOR, AUTHOR, TITLE, URL, DESCRIPTION, FIELDS, IMAGE,
    THUMBNAIL, FOOTER, TIMESTAMP is a Record of the same name in a Module
    of its own, with its zero value [Empty] (the Go literal [X{}]) and its
    [Parse] method (webhook.go:218-411) as an [StL] computation on the
    receiver: [Parse] reads [*c], compares it with [Empty], may log an
    error (COLOR, TIMESTAMP) and may write the receiver (URL).  Format
    strings are spelled with [qv] for each ["%v"], byte for byte.

    The parts share one interface, the class [EmbedPart] (a zero value
    and a [Parse]), and the laws [EmbedPartLaws] that [EMBEDDED.Parse]
    relies on: the zero part renders "" without effect, any other part
    renders a non-empty fragment, and a second [Parse] repeats the first.

    The second half of the file proves the laws for the ten parts and the
    behaviour of the parts whose [Parse] does more than print its fields:
    AUTHOR's gating of [url] and [icon_url] on [name], URL's back-filled
    title, COLOR's call of [strconv.ParseInt] with its error paths,
    TIMESTAMP's call of [time.Parse] with its 12-hour layout and its
    zero-time fallback. *)

From Stdlib Require Import String Ascii ZArith List Lia Bool.
From S2P Require Import Prelude GoFmt Strconv GoTime.
Import ListNotations.
Local Open Scope webhook_scope.
Local Open Scope string_scope.

(** What [log.Println(err)] receives. *)
Inductive log_entry :=
| LogNumError (e : Strconv.NumError)
| LogParseError (e : GoTime.ParseError).

Class EmbedPart (P : Type) := {
  part_zero : P;
  part_parse : StL P log_entry string
}.

Class EmbedPartLaws (P : Type) `{EmbedPart P} := {
  part_parse_zero : part_parse part_zero = ("", part_zero, []);
  part_parse_nonzero : forall p, p <> part_zero -> run_val part_parse p <> "";
  part_parse_again : forall p,
    part_parse (run_state part_parse p) =
    (run_val part_parse p, run_state part_parse p, run_log part_parse p)
}.

(** A part whose [Parse] only reads the receiver. *)
Definition pure_parse {P} `{GoEq P} (empty : P) (render : P -> string)
  : StL P log_entry string :=
  c <- st_get ;;
  if c ==? empty then st_ret "" else st_ret (render c).

Module Color.
(** [type COLOR struct { Color string }] *)
Record COLOR := mkCOLOR { Color : string }.
Definition Empty : COLOR := mkCOLOR "".
#[global] Instance go_eq : GoEq COLOR := fun a b => Color a ==? Color b.
#[global] Instance eq_ok : GoEqOk COLOR.
Proof. unfold GoEqOk, go_eq. solve_go_eq. Qed.

(** The log call of webhook.go:228-230. *)
Definition log_err (err : option Strconv.NumError) : StL COLOR log_entry unit :=
  match err with Some e => st_log (LogNumError e) | None => st_ret tt end.

(** [func (c *COLOR) Parse() string] *)
Definition Parse : StL COLOR log_entry string :=
  c <- st_get ;;
  if c ==? Empty then st_ret ""
  else
    let '(n, err) := Strconv.ParseInt (Color c) 16 25 in
    log_err err ;;;
    st_ret (qv "color" ++ ": " ++ qv (itoa n) ++ " ").
End Color.

Module Author.
(** [type AUTHOR struct { Name, URL, IconURL string }] *)
Record AUTHOR := mkAUTHOR { Name : string; URL : string; IconURL : string }.
Definition Empty : AUTHOR := mkAUTHOR "" "" "".
#[global] Instance go_eq : GoEq AUTHOR :=
  fun a b => (Name a ==? Name b) && (URL a ==? URL b) && (IconURL a ==? IconURL b).
#[global] Instance eq_ok : GoEqOk AUTHOR.
Proof. unfold GoEqOk, go_eq. solve_go_eq. Qed.

(** The body of the object: [name], then [url] and [icon_url] only
    when [auth] is already non-empty. *)
Definition auth (c : AUTHOR) : string :=
  let auth := if negb (Name c ==? "") then qv "name" ++ ": " ++ qv (Name c) ++ " " else "" in
  if negb (auth ==? "") then
    let auth := if negb (URL c ==? "") then auth ++ ", " ++ qv "url" ++ ": " ++ qv (URL c) ++ " " else auth in
    if negb (IconURL c ==? "") then auth ++ ", " ++ qv "icon_url" ++ ": " ++ qv (IconURL c) ++ " " else auth
  else auth.

(** [func (c *AUTHOR) Parse() string] *)
Definition Parse : StL AUTHOR log_entry string :=
  pure_parse Empty (fun c => qv "author" ++ ": { " ++ auth c ++ " }").
End Author.

Module Title.
(** [type TITLE struct { Title string }] *)
Record TITLE := mkTITLE { Title : string }.
Definition Empty : TITLE := mkTITLE "".
#[global] Instance go_eq : GoEq TITLE := fun a b => Title a ==? Title b.
#[global] Instance eq_ok : GoEqOk TITLE.
Proof. unfold GoEqOk, go_eq. solve_go_eq. Qed.

(** [func (c *TITLE) Parse() string] *)
Definition Parse : StL TITLE log_entry string :=
  pure_parse Empty (fun c => qv "title" ++ ": " ++ qv (Title c)).
End Title.

Module Url.
(** [type URL struct { Title, URL string }]; the type is [URL_] since
    Rocq does not let a record and its field share the name [URL]. *)
Record URL_ := mkURL { Title : string; URL : string }.
Definition Empty : URL_ := mkURL "" "".
#[global] Instance go_eq : GoEq URL_ := fun a b => (Title a ==? Title b) && (URL a ==? URL b).
#[global] Instance eq_ok : GoEqOk URL_.
Proof. unfold GoEqOk, go_eq. solve_go_eq. Qed.

(** [func (c *URL) Parse() string]: an empty title is overwritten with
    the URL through the pointer receiver before rendering. *)
Definition Parse : StL URL_ log_entry string :=
  c <- st_get ;;
  if c ==? Empty then st_ret ""
  else
    (if Title c ==? "" then st_put (mkURL (URL c) (URL c)) else st_ret tt) ;;;
    c <- st_get ;;
    st_ret (qv "title" ++ ": " ++ qv (Title c) ++ ", " ++ qv "url" ++ ": " ++ qv (URL c) ++ " ").
End Url.

Module Description.
(** [type DESCRIPTION struct { Description string }] *)
Record DESCRIPTION := mkDESCRIPTION { Description : string }.
Definition Empty : DESCRIPTION := mkDESCRIPTION "".
#[global] Instance go_eq : GoEq DESCRIPTION := fun a b => Description a ==? Description b.
#[global] Instance eq_ok : GoEqOk DESCRIPTION.
Proof. unfold GoEqOk, go_eq. solve_go_eq. Qed.

(** [func (c *DESCRIPTION) Parse() string] *)
Definition Parse : StL DESCRIPTION log_entry string :=
  pure_parse Empty (fun c => " " ++ qv "description" ++ ": " ++ qv (Description c) ++ " ").
End Description.

Module Fields.
(** [type FIELDS struct { Name, Value string; Inline bool }] *)
Record FIELDS := mkFIELDS { Name : string; Value : string; Inline : bool }.
Definition Empty : FIELDS := mkFIELDS "" "" false.
#[global] Instance go_eq : GoEq FIELDS :=
  fun a b => (Name a ==? Name b) && (Value a ==? Value b) && (Inline a ==? Inline b).
#[global] Instance eq_ok : GoEqOk FIELDS.
Proof. unfold GoEqOk, go_eq. solve_go_eq. Qed.

(** The members of one field object. *)
Definition field (c : FIELDS) : string :=
  let f := if negb (Name c ==? "") then qv "name" ++ ": " ++ qv (Name c) ++ " " else "" in
  let f := if negb (Value c ==? "") then
             (if negb (f ==? "") then f ++ "," else f) ++ qv "value" ++ ": " ++ qv (Value c) ++ " "
           else f in
  if negb (Inline c ==? false) then
    (if negb (f ==? "") then f ++ "," else f) ++ qv "inline" ++ ": " ++ qv (format_bool (Inline c)) ++ " "
  else f.

(** [func (c *FIELDS) Parse() string] *)
Definition Parse : StL FIELDS log_entry string :=
  pure_parse Empty (fun c => "{ " ++ field c ++ " }").
End Fields.

Module Image.
(** [type IMAGE struct { URL string }] *)
Record IMAGE := mkIMAGE { URL : string }.
Definition Empty : IMAGE := mkIMAGE "".
#[global] Instance go_eq : GoEq IMAGE := fun a b => URL a ==? URL b.
#[global] Instance eq_ok : GoEqOk IMAGE.
Proof. unfold GoEqOk, go_eq. solve_go_eq. Qed.

(** [func (c *IMAGE) Parse() string] *)
Definition Parse : StL IMAGE log_entry string :=
  pure_parse Empty (fun c => qv "image" ++ ": { " ++ qv "url" ++ ": " ++ qv (URL c) ++ " }").
End Image.

Module Thumbnail.
(** [type THUMBNAIL struct { URL string }] *)
Record THUMBNAIL := mkTHUMBNAIL { URL : string }.
Definition Empty : THUMBNAIL := mkTHUMBNAIL "".
#[global] Instance go_eq : GoEq THUMBNAIL := fun a b => URL a ==? URL b.
#[global] Instance eq_ok : GoEqOk THUMBNAIL.
Proof. unfold GoEqOk, go_eq. solve_go_eq. Qed.

(** [func (c *THUMBNAIL) Parse() string] *)
Definition Parse : StL THUMBNAIL log_entry string :=
  pure_parse Empty (fun c => qv "thumbnail" ++ ": { " ++ qv "url" ++ ": " ++ qv (URL c) ++ " }").
End Thumbnail.

Module Footer.
(** [type FOOTER struct { Text, IconURL string }] *)
Record FOOTER := mkFOOTER { Text : string; IconURL : string }.
Definition Empty : FOOTER := mkFOOTER "" "".
#[global] Instance go_eq : GoEq FOOTER := fun a b => (Text a ==? Text b) && (IconURL a ==? IconURL b).
#[global] Instance eq_ok : GoEqOk FOOTER.
Proof. unfold GoEqOk, go_eq. solve_go_eq. Qed.

Definition foot (c : FOOTER) : string :=
  let foot := if negb (Text c ==? "") then qv "text" ++ ": " ++ qv (Text c) else "" in
  if negb (IconURL c ==? "") then
    (if negb (foot ==? "") then foot ++ "," else foot) ++ qv "icon_url" ++ ": " ++ qv (IconURL c)
  else foot.

(** [func (c *FOOTER) Parse() string] *)
Definition Parse : StL FOOTER log_entry string :=
  pure_parse Empty (fun c => qv "footer" ++ ": {" ++ foot c ++ "}").
End Footer.

Module Timestamp.
(** [type TIMESTAMP struct { Time string }] *)
Record TIMESTAMP := mkTIMESTAMP { Time : string }.
Definition Empty : TIMESTAMP := mkTIMESTAMP "".
#[global] Instance go_eq : GoEq TIMESTAMP := fun a b => Time a ==? Time b.
#[global] Instance eq_ok : GoEqOk TIMESTAMP.
Proof. unfold GoEqOk, go_eq. solve_go_eq. Qed.

(** [t, err := time.Parse(layout, c.Time)]: the zero [Time] on error,
    which is logged. *)
Definition parse_logged (s : string) : StL TIMESTAMP log_entry GoTime.Time :=
  match GoTime.parse s with
  | Ok t => st_ret t
  | Err e => st_log (LogParseError e) ;;; st_ret GoTime.zero_time
  end.

(** [func (c *TIMESTAMP) Parse() string] *)
Definition Parse : StL TIMESTAMP log_entry string :=
  c <- st_get ;;
  if c ==? Empty then st_ret ""
  else
    t <- parse_logged (Time c) ;;
    st_ret (qv "timestamp" ++ ": " ++ qv (GoTime.format t)).
End Timestamp.

#[export] Instance Color_part : EmbedPart Color.COLOR := {| part_zero := Color.Empty; part_parse := Color.Parse |}.
#[export] Instance Author_part : EmbedPart Author.AUTHOR := {| part_zero := Author.Empty; part_parse := Author.Parse |}.
#[export] Instance Title_part : EmbedPart Title.TITLE := {| part_zero := Title.Empty; part_parse := Title.Parse |}.
#[export] Instance Url_part : EmbedPart Url.URL_ := {| part_zero := Url.Empty; part_parse := Url.Parse |}.
#[export] Instance Description_part : EmbedPart Description.DESCRIPTION :=
  {| part_zero := Description.Empty; part_parse := Description.Parse |}.
#[export] Instance Fields_part : EmbedPart Fields.FIELDS := {| part_zero := Fields.Empty; part_parse := Fields.Parse |}.
#[export] Instance Image_part : EmbedPart Image.IMAGE := {| part_zero := Image.Empty; part_parse := Image.Parse |}.
#[export] Instance Thumbnail_part : EmbedPart Thumbnail.THUMBNAIL :=
  {| part_zero := Thumbnail.Empty; part_parse := Thumbnail.Parse |}.
#[export] Instance Footer_part : EmbedPart Footer.FOOTER := {| part_zero := Footer.Empty; part_parse := Footer.Parse |}.
#[export] Instance Timestamp_part : EmbedPart Timestamp.TIMESTAMP :=
  {| part_zero := Timestamp.Empty; part_parse := Timestamp.Parse |}.

(** ** Running a part's [Parse] *)

Lemma pure_parse_run {P} `{GoEqOk P} (empty : P) render c :
  pure_parse empty render c = (if c ==? empty then "" else render c, c, []).
Proof. unfold pure_parse. st_simpl. destruct (c ==? empty); reflexivity. Qed.

Lemma Color_Parse_run c :
  Color.Parse c =
  if c ==? Color.Empty then ("", c, [])
  else (qv "color" ++ ": " ++ qv (itoa (fst (Strconv.ParseInt (Color.Color c) 16 25))) ++ " ", c,
        match snd (Strconv.ParseInt (Color.Color c) 16 25) with
        | Some e => [LogNumError e] | None => [] end).
Proof.
  unfold Color.Parse. st_simpl. destruct (c ==? Color.Empty); [reflexivity|].
  destruct (Strconv.ParseInt _ 16 25) as [n [e|]]; reflexivity.
Qed.

Lemma Url_Parse_run c :
  Url.Parse c =
  if c ==? Url.Empty then ("", c, [])
  else let c' := if Url.Title c ==? "" then Url.mkURL (Url.URL c) (Url.URL c) else c in
       (qv "title" ++ ": " ++ qv (Url.Title c') ++ ", " ++ qv "url" ++ ": " ++ qv (Url.URL c') ++ " ",
        c', []).
Proof.
  unfold Url.Parse. st_simpl. destruct (c ==? Url.Empty); [reflexivity|].
  destruct (Url.Title c ==? ""); reflexivity.
Qed.

Lemma Timestamp_Parse_run c :
  Timestamp.Parse c =
  if c ==? Timestamp.Empty then ("", c, [])
  else match GoTime.parse (Timestamp.Time c) with
       | Ok t => (qv "timestamp" ++ ": " ++ qv (GoTime.format t), c, [])
       | Err e => (qv "timestamp" ++ ": " ++ qv (GoTime.format GoTime.zero_time), c, [LogParseError e])
       end.
Proof.
  unfold Timestamp.Parse, Timestamp.parse_logged. st_simpl.
  destruct (c ==? Timestamp.Empty); [reflexivity|].
  destruct (GoTime.parse _); reflexivity.
Qed.

(** What each [Parse] does to its receiver and to the log. *)
Lemma pure_parse_state {P} `{GoEqOk P} (empty : P) render c :
  run_state (pure_parse empty render) c = c.
Proof. unfold run_state. rewrite pure_parse_run. reflexivity. Qed.

Lemma pure_parse_log {P} `{GoEqOk P} (empty : P) render c :
  run_log (pure_parse empty render) c = [].
Proof. unfold run_log. rewrite pure_parse_run. reflexivity. Qed.

Lemma Color_Parse_state c : run_state Color.Parse c = c.
Proof. unfold run_state. rewrite Color_Parse_run. destruct (c ==? Color.Empty); reflexivity. Qed.

Lemma Timestamp_Parse_state c : run_state Timestamp.Parse c = c.
Proof.
  unfold run_state. rewrite Timestamp_Parse_run.
  destruct (c ==? Timestamp.Empty); [reflexivity|]. destruct (GoTime.parse _); reflexivity.
Qed.

Lemma Url_Parse_log c : run_log Url.Parse c = [].
Proof. unfold run_log. rewrite Url_Parse_run. destruct (c ==? Url.Empty); reflexivity. Qed.

(** ** The interface laws *)

(** A part whose [Parse] only reads its receiver satisfies the laws as
    soon as it renders something for every non-zero value. *)
Lemma pure_part_laws {P} `{GoEqOk P} (empty : P) (render : P -> string) :
  (forall c, render c <> "") ->
  @EmbedPartLaws P {| part_zero := empty; part_parse := pure_parse empty render |}.
Proof.
  intros Hr. constructor; cbn -[pure_parse]; unfold run_val, run_state, run_log.
  - rewrite pure_parse_run, go_eqb_refl. reflexivity.
  - intros p Hp. rewrite pure_parse_run. apply go_eqb_false in Hp. rewrite Hp. apply Hr.
  - intros p. rewrite !pure_parse_run. reflexivity.
Qed.

#[export] Instance Author_laws : EmbedPartLaws Author.AUTHOR.
Proof. apply pure_part_laws. discriminate. Qed.
#[export] Instance Title_laws : EmbedPartLaws Title.TITLE.
Proof. apply pure_part_laws. discriminate. Qed.
#[export] Instance Description_laws : EmbedPartLaws Description.DESCRIPTION.
Proof. apply pure_part_laws. discriminate. Qed.
#[export] Instance Fields_laws : EmbedPartLaws Fields.FIELDS.
Proof. apply pure_part_laws. discriminate. Qed.
#[export] Instance Image_laws : EmbedPartLaws Image.IMAGE.
Proof. apply pure_part_laws. discriminate. Qed.
#[export] Instance Thumbnail_laws : EmbedPartLaws Thumbnail.THUMBNAIL.
Proof. apply pure_part_laws. discriminate. Qed.
#[export] Instance Footer_laws : EmbedPartLaws Footer.FOOTER.
Proof. apply pure_part_laws. discriminate. Qed.

#[export] Instance Color_laws : EmbedPartLaws Color.COLOR.
Proof.
  constructor; cbn -[Color.Parse]; unfold run_val, run_state, run_log.
  - reflexivity.
  - intros p Hp. rewrite Color_Parse_run. apply go_eqb_false in Hp. rewrite Hp. discriminate.
  - intros p. apply st_again_of_state. unfold run_state. rewrite Color_Parse_run.
    destruct (p ==? Color.Empty); reflexivity.
Qed.

#[export] Instance Timestamp_laws : EmbedPartLaws Timestamp.TIMESTAMP.
Proof.
  constructor; cbn -[Timestamp.Parse]; unfold run_val, run_state, run_log.
  - reflexivity.
  - intros p Hp. rewrite Timestamp_Parse_run. apply go_eqb_false in Hp. rewrite Hp.
    destruct (GoTime.parse _); discriminate.
  - intros p. apply st_again_of_state. unfold run_state. rewrite Timestamp_Parse_run.
    destruct (p ==? Timestamp.Empty); [reflexivity|]. destruct (GoTime.parse _); reflexivity.
Qed.

(** URL's back-filled title is a fixed point: a second [Parse] finds a
    non-empty title and changes nothing. *)
#[export] Instance Url_laws : EmbedPartLaws Url.URL_.
Proof.
  constructor; cbn -[Url.Parse]; unfold run_val, run_state, run_log.
  - reflexivity.
  - intros p Hp. rewrite Url_Parse_run. apply go_eqb_false in Hp. rewrite Hp. discriminate.
  - intros [t u]. destruct (go_eqb_spec t "") as [->|Ht].
    + destruct (go_eqb_spec u "") as [->|Hu]; [apply st_again_of_state; reflexivity|].
      assert (Hne : (u ==? "") = false) by (apply go_eqb_false; exact Hu).
      assert (H1 : Url.Parse (Url.mkURL "" u) =
                   (qv "title" ++ ": " ++ qv u ++ ", " ++ qv "url" ++ ": " ++ qv u ++ " ",
                    Url.mkURL u u, [])).
      { rewrite Url_Parse_run. unfold go_eqb at 1, Url.go_eq. simpl Url.Title; simpl Url.URL.
        rewrite go_eqb_refl, Hne. reflexivity. }
      rewrite H1. simpl. rewrite Url_Parse_run. unfold go_eqb at 1, Url.go_eq.
      simpl Url.Title; simpl Url.URL. rewrite Hne. reflexivity.
    + apply st_again_of_state. unfold run_state. rewrite Url_Parse_run.
      apply go_eqb_false in Ht. unfold go_eqb at 1, Url.go_eq. simpl Url.Title.
      rewrite Ht. reflexivity.
Qed.

(** A part renders "" exactly when it is the zero value. *)
Lemma part_val_empty_iff {P} `{GoEqOk P} `{EmbedPartLaws P} (p : P) :
  run_val part_parse p = "" <-> p = part_zero.
Proof.
  split.
  - intros Hp. destruct (go_eqb_spec p part_zero) as [E|E]; [exact E|].
    exfalso. exact (part_parse_nonzero p E Hp).
  - intros ->. unfold run_val. rewrite part_parse_zero. reflexivity.
Qed.

(** ** AUTHOR *)

(** C7: AUTHOR's [url] and [icon_url] are emitted only after a non-empty
    [name]: without a name the part renders an empty object, or nothing
    when the URLs are empty too. *)
Theorem Author_name_gating u i :
  Author.Parse (Author.mkAUTHOR "" u i) =
  ((if (u ==? "") && (i ==? "") then "" else qv "author" ++ ": {  }"),
   Author.mkAUTHOR "" u i, []).
Proof.
  unfold Author.Parse. rewrite pure_parse_run. unfold go_eqb at 1, Author.go_eq. simpl Author.Name.
  rewrite go_eqb_refl. simpl andb.
  destruct ((u ==? "") && (i ==? "")); reflexivity.
Qed.

(** ** URL *)

Lemma Url_Parse_fill u :
  u <> "" ->
  Url.Parse (Url.mkURL "" u) =
  (qv "title" ++ ": " ++ qv u ++ ", " ++ qv "url" ++ ": " ++ qv u ++ " ", Url.mkURL u u, []).
Proof.
  intros Hu. apply go_eqb_false in Hu.
  rewrite Url_Parse_run. unfold go_eqb at 1, Url.go_eq. simpl Url.Title; simpl Url.URL.
  rewrite go_eqb_refl, Hu. reflexivity.
Qed.

(** C8: a URL part with an empty title renders the URL as its title, and
    writes it into the receiver's [Title]. *)
Theorem Url_default_title u :
  u <> "" ->
  run_val Url.Parse (Url.mkURL "" u) = qv "title" ++ ": " ++ qv u ++ ", " ++ qv "url" ++ ": " ++ qv u ++ " " /\
  run_state Url.Parse (Url.mkURL "" u) = Url.mkURL u u.
Proof. intros Hu. unfold run_val, run_state. rewrite Url_Parse_fill by exact Hu. split; reflexivity. Qed.

(** ** COLOR *)

(** C9: a colour of one to six hex digits (either case) is rendered as
    the decimal string of its value, without logging; reading that
    decimal back gives the value. *)
Theorem Color_hex_decimal s v :
  s <> "" -> (String.length s <= 6)%nat -> Strconv.digits_from 16 0 s = Some v ->
  Color.Parse (Color.mkCOLOR s) =
  (qv "color" ++ ": " ++ qv (itoa v) ++ " ", Color.mkCOLOR s, []) /\
  read_int (itoa v) = Some v.
Proof.
  intros Hs Hl Hv. split; [|apply read_int_itoa].
  pose proof (Strconv.digits_from_lt 16 0 s v ltac:(lia) ltac:(lia) Hv) as Hlt.
  pose proof (Strconv.digits_from_ge 16 0 s v ltac:(lia) ltac:(lia) Hv) as Hge.
  assert (Hp : (16 ^ Z.of_nat (String.length s) <= 16 ^ 6)%Z)
    by (apply Z.pow_le_mono_r; lia).
  destruct s as [|c r]; [congruence|].
  assert (Hsign : Strconv.split_sign (String c r) = (false, String c r)).
  { simpl in Hv. destruct (Strconv.go_digit c) as [d|] eqn:Hd; [|discriminate].
    exact (Strconv.split_sign_digit c r d Hd). }
  rewrite Color_Parse_run.
  replace (Color.mkCOLOR (String c r) ==? Color.Empty) with false by reflexivity.
  simpl Color.Color.
  rewrite (Strconv.ParseInt_wellformed (String c r) 16 25 false (String c r) v)
    by (assumption || lia || discriminate).
  unfold Strconv.clamp_signed. change (2 ^ (25 - 1))%Z with 16777216%Z.
  destruct (Z.ltb_spec (16777216 - 1) v); [change (16 ^ 6)%Z with 16777216%Z in Hp; lia|].
  destruct (Z.ltb_spec v (Z.opp 16777216)); [lia|]. reflexivity.
Qed.

(** C10: a byte that is not a hex digit, after at most six digits, makes
    COLOR render 0 and log ParseInt's syntax error. *)
Theorem Color_bad_digit_zero s neg p c r v :
  Strconv.split_sign s = (neg, p ++ String c r) ->
  Strconv.digits_from 16 0 p = Some v -> (String.length p <= 6)%nat ->
  (Strconv.go_digit c = None \/ exists d, Strconv.go_digit c = Some d /\ (16 <= d)%Z) ->
  Color.Parse (Color.mkCOLOR s) =
  (qv "color" ++ ": " ++ qv "0" ++ " ", Color.mkCOLOR s,
   [LogNumError (Strconv.mkNumError "ParseInt" s Strconv.ErrSyntax)]).
Proof.
  intros Hs Hp Hl Hc.
  pose proof (Strconv.digits_from_lt 16 0 p v ltac:(lia) ltac:(lia) Hp) as Hlt.
  assert (16 ^ Z.of_nat (String.length p) <= 16 ^ 6)%Z by (apply Z.pow_le_mono_r; lia).
  assert (Hne : s <> "") by (intros ->; simpl in Hs; injection Hs as _ Hs;
                             destruct p; discriminate).
  rewrite Color_Parse_run.
  replace (Color.mkCOLOR s ==? Color.Empty) with false
    by (symmetry; apply go_eqb_false; intros E; injection E; exact Hne).
  simpl Color.Color.
  change (16 ^ 6)%Z with 16777216%Z in *.
  rewrite (Strconv.ParseInt_bad_digit s 16 25 neg p c r v)
    by (first [assumption | change (2 ^ 25)%Z with 33554432%Z; lia | lia]).
  reflexivity.
Qed.

(** C12: for every non-empty colour string, the rendered number lies in
    the 25-bit signed range of ParseInt's [bitSize]. *)
Theorem Color_rendered_bounds c :
  c <> Color.Empty ->
  exists n w, Color.Parse c = (qv "color" ++ ": " ++ qv (itoa n) ++ " ", c, w) /\
              (- 2 ^ 24 <= n <= 2 ^ 24 - 1)%Z.
Proof.
  intros Hc. rewrite Color_Parse_run. apply go_eqb_false in Hc. rewrite Hc.
  eexists _, _. split; [reflexivity|].
  apply (Strconv.ParseInt_bounds _ 16 25); lia.
Qed.

(** C11: once the leading digits exceed ParseUint's 25-bit maximum,
    COLOR renders the clamped maximum 16777215 and logs a range error,
    whatever bytes follow (so "2000000G" is not rendered as 0). *)
Theorem Color_overflow_clamps s p r v :
  Strconv.split_sign s = (false, p ++ r) ->
  Strconv.digits_from 16 0 p = Some v -> (2 ^ 25 - 1 < v)%Z ->
  Color.Parse (Color.mkCOLOR s) =
  (qv "color" ++ ": " ++ qv "16777215" ++ " ", Color.mkCOLOR s,
   [LogNumError (Strconv.mkNumError "ParseInt" s Strconv.ErrRange)]).
Proof.
  intros Hs Hp Hv.
  assert (Hne : s <> "").
  { intros ->. simpl in Hs. injection Hs as Hs. destruct p; [simpl in Hp; injection Hp as <-; lia|discriminate]. }
  rewrite Color_Parse_run.
  replace (Color.mkCOLOR s ==? Color.Empty) with false
    by (symmetry; apply go_eqb_false; intros E; injection E; exact Hne).
  simpl Color.Color.
  rewrite (Strconv.ParseInt_overflow_prefix s 16 25 p r v) by (assumption || lia).
  reflexivity.
Qed.

(** ** TIMESTAMP *)

Lemma layout_string_nonempty y mo d h mi se n : GoTime.layout_string y mo d h mi se n <> "".
Proof.
  unfold GoTime.layout_string. apply append_nonempty_l.
  destruct (fixed_digits_head 4 y ltac:(lia)) as (c & r & _ & ->). discriminate.
Qed.

Lemma Timestamp_nonempty s : s <> "" -> (Timestamp.mkTIMESTAMP s ==? Timestamp.Empty) = false.
Proof. intros Hs. apply go_eqb_false. intros E. injection E. exact Hs. Qed.

(** C13: a timestamp written in the layout's fields with an hour from 00
    to 12 is parsed and printed back, without logging; hours 01..12 come
    back as written, and hour 00 is printed as 12 (the layout's 12-hour
    clock). *)
Theorem Timestamp_layout_roundtrip y mo d h mi se n :
  GoTime.date_fields_ok y mo d mi se n = true -> (0 <= h <= 12)%Z ->
  Timestamp.Parse (Timestamp.mkTIMESTAMP (GoTime.layout_string y mo d h mi se n)) =
  (qv "timestamp" ++ ": " ++ qv (GoTime.layout_string y mo d (if (h =? 0)%Z then 12 else h)%Z mi se n),
   Timestamp.mkTIMESTAMP (GoTime.layout_string y mo d h mi se n), []).
Proof.
  intros Hf Hh. replace (if (h =? 0)%Z then 12 else h)%Z with (GoTime.hour12 h)
    by (rewrite GoTime.hour12_clock by lia; destruct (Z.leb_spec h 12); [reflexivity|lia]).
  rewrite Timestamp_Parse_run, Timestamp_nonempty by apply layout_string_nonempty.
  simpl Timestamp.Time. rewrite GoTime.parse_layout by assumption.
  rewrite GoTime.format_fields.
  - simpl GoTime.year. simpl GoTime.nsec. rewrite Z.div_mul by lia. reflexivity.
  - apply GoTime.date_fields_ok_spec in Hf as (Hy & Hm & Hd & Hmi & Hse & Hn).
    apply GoTime.representable_spec; simpl. rewrite Z.mod_mul by lia.
    repeat split; simpl; lia.
Qed.

(** C14: a timestamp whose hour field is 13..99 (an afternoon hour of a
    24-hour clock) is rejected by the 12-hour layout: TIMESTAMP logs Go's
    "hour out of range" error and renders the zero time
    "0001-01-01 12:00:00.0000". *)
Theorem Timestamp_pm_hour_zero y mo d h mi se n :
  GoTime.date_fields_ok y mo d mi se n = true -> (13 <= h <= 99)%Z ->
  let s := GoTime.layout_string y mo d h mi se n in
  Timestamp.Parse (Timestamp.mkTIMESTAMP s) =
  (qv "timestamp" ++ ": " ++ qv "0001-01-01 12:00:00.0000", Timestamp.mkTIMESTAMP s,
   [LogParseError (GoTime.perr s "03"
      (":" ++ fixed_digits 2 mi ++ ":" ++ fixed_digits 2 se ++ "." ++ fixed_digits 4 n)
      ": hour out of range")]).
Proof.
  intros Hf Hh s. rewrite Timestamp_Parse_run, Timestamp_nonempty by apply layout_string_nonempty.
  simpl Timestamp.Time. unfold s. rewrite GoTime.parse_layout_pm by assumption. reflexivity.
Qed.

(** ** What the parts log *)

(** COLOR logs at most one error, a [*NumError] of [ParseInt] on the
    colour string. *)
Lemma Color_log_typed c :
  exists ne, run_log Color.Parse c = map LogNumError ne /\ (length ne <= 1)%nat /\
    Forall (fun e => Strconv.Func e = "ParseInt" /\ Strconv.Num e = Color.Color c) ne.
Proof.
  unfold run_log. rewrite Color_Parse_run. destruct (c ==? Color.Empty).
  - exists []. repeat constructor.
  - destruct (snd (Strconv.ParseInt (Color.Color c) 16 25)) as [e|] eqn:Es; [exists [e]|exists []]; repeat split; simpl; auto.
    constructor; [|constructor]. exact (Strconv.ParseInt_err _ _ _ _ Es).
Qed.

(** TIMESTAMP logs at most one error, a [*time.ParseError] that names the
    layout and the timestamp string, with a one-line message. *)
Lemma Timestamp_log_typed c :
  exists pe, run_log Timestamp.Parse c = map LogParseError pe /\ (length pe <= 1)%nat /\
    Forall (GoTime.reports_line (Timestamp.Time c)) pe.
Proof.
  unfold run_log. rewrite Timestamp_Parse_run. destruct (c ==? Timestamp.Empty).
  - exists []. repeat constructor.
  - destruct (GoTime.parse (Timestamp.Time c)) as [t|e] eqn:E; [exists []|exists [e]];
      repeat split; simpl; auto.
    constructor; [|constructor]. exact (GoTime.parse_err_line _ _ E).
Qed.

(** C15: a timestamp whose fields are in their ranges but whose day is not
    a day of its month (00, or past the month's end: February 29 of a
    common year, April 31) is rejected by [time.Parse]'s final day check:
    TIMESTAMP logs Go's "day out of range" error and renders the zero time
    "0001-01-01 12:00:00.0000". *)
Theorem Timestamp_day_out_of_range y mo d h mi se n :
  (0 <= y <= 9999)%Z -> (1 <= mo <= 12)%Z -> (0 <= d <= 99)%Z ->
  (d < 1 \/ GoTime.days_in mo y < d)%Z -> (0 <= h <= 12)%Z ->
  (0 <= mi <= 59)%Z -> (0 <= se <= 59)%Z -> (0 <= n <= 9999)%Z ->
  let s := GoTime.layout_string y mo d h mi se n in
  Timestamp.Parse (Timestamp.mkTIMESTAMP s) =
  (qv "timestamp" ++ ": " ++ qv "0001-01-01 12:00:00.0000", Timestamp.mkTIMESTAMP s,
   [LogParseError (GoTime.perr s "" "" ": day out of range")]).
Proof.
  intros Hy Hm Hd Hbad Hh Hmi Hse Hn s.
  rewrite Timestamp_Parse_run, Timestamp_nonempty by apply layout_string_nonempty.
  simpl Timestamp.Time. unfold s. rewrite GoTime.parse_layout_day by lia.
  replace ((d <? 1) || (GoTime.days_in mo y <? d))%Z with true
    by (symmetry; apply orb_true_iff; destruct Hbad; [left|right]; apply Z.ltb_lt; lia).
  reflexivity.
Qed.

(** ** Witnesses *)

Lemma Url_default_title_witness :
  run_val Url.Parse (Url.mkURL "" "https://x") =
    qv "title" ++ ": " ++ qv "https://x" ++ ", " ++ qv "url" ++ ": " ++ qv "https://x" ++ " " /\
  run_state Url.Parse (Url.mkURL "" "https://x") = Url.mkURL "https://x" "https://x".
Proof. apply Url_default_title. discriminate. Defined.

Lemma Color_hex_decimal_witness :
  Color.Parse (Color.mkCOLOR "FF0000") =
  (qv "color" ++ ": " ++ qv (itoa 16711680) ++ " ", Color.mkCOLOR "FF0000", []) /\
  read_int (itoa 16711680) = Some 16711680%Z.
Proof. apply Color_hex_decimal; [discriminate|simpl; lia|vm_compute; reflexivity]. Defined.

Lemma Color_bad_digit_zero_witness :
  Color.Parse (Color.mkCOLOR "12G4") =
  (qv "color" ++ ": " ++ qv "0" ++ " ", Color.mkCOLOR "12G4",
   [LogNumError (Strconv.mkNumError "ParseInt" "12G4" Strconv.ErrSyntax)]).
Proof.
  apply (Color_bad_digit_zero "12G4" false "12" "G" "4" 18%Z);
    [vm_compute; reflexivity|vm_compute; reflexivity|simpl; lia|].
  right. exists 16%Z. split; [vm_compute; reflexivity|lia].
Defined.

Lemma Color_rendered_bounds_witness :
  exists n w, Color.Parse (Color.mkCOLOR "FF0000") =
              (qv "color" ++ ": " ++ qv (itoa n) ++ " ", Color.mkCOLOR "FF0000", w) /\
              (- 2 ^ 24 <= n <= 2 ^ 24 - 1)%Z.
Proof. apply Color_rendered_bounds. discriminate. Defined.

Lemma Color_overflow_clamps_witness :
  Color.Parse (Color.mkCOLOR "2000000G") =
  (qv "color" ++ ": " ++ qv "16777215" ++ " ", Color.mkCOLOR "2000000G",
   [LogNumError (Strconv.mkNumError "ParseInt" "2000000G" Strconv.ErrRange)]).
Proof.
  apply (Color_overflow_clamps "2000000G" "2000000" "G" 33554432%Z);
    [vm_compute; reflexivity|vm_compute; reflexivity|lia].
Defined.

Lemma Timestamp_layout_roundtrip_witness :
  Timestamp.Parse (Timestamp.mkTIMESTAMP (GoTime.layout_string 2024 1 2 0 4 5 6789)) =
  (qv "timestamp" ++ ": " ++ qv (GoTime.layout_string 2024 1 2 12 4 5 6789),
   Timestamp.mkTIMESTAMP (GoTime.layout_string 2024 1 2 0 4 5 6789), []).
Proof. apply Timestamp_layout_roundtrip; [vm_compute; reflexivity|lia]. Defined.

Lemma Timestamp_pm_hour_zero_witness :
  let s := GoTime.layout_string 2024 1 2 15 4 5 6789 in
  Timestamp.Parse (Timestamp.mkTIMESTAMP s) =
  (qv "timestamp" ++ ": " ++ qv "0001-01-01 12:00:00.0000", Timestamp.mkTIMESTAMP s,
   [LogParseError (GoTime.perr s "03"
      (":" ++ fixed_digits 2 4 ++ ":" ++ fixed_digits 2 5 ++ "." ++ fixed_digits 4 6789)
      ": hour out of range")]).
Proof. apply Timestamp_pm_hour_zero; [vm_compute; reflexivity|lia]. Defined.

Lemma Timestamp_day_out_of_range_witness :
  let s := GoTime.layout_string 2023 2 29 10 4 5 6789 in
  Timestamp.Parse (Timestamp.mkTIMESTAMP s) =
  (qv "timestamp" ++ ": " ++ qv "0001-01-01 12:00:00.0000", Timestamp.mkTIMESTAMP s,
   [LogParseError (GoTime.perr s "" "" ": day out of range")]).
Proof.
  apply Timestamp_day_out_of_range; try lia.
  right. vm_compute. reflexivity.
Defined.
