(* ===== verification/Embedded.v ===== *)
(** * Embedded: the embed aggregator of webhook.go

    [type EMBEDDED struct] (webhook.go:97-109), [parseFields]
    (webhook.go:122-137) and [EMBEDDED.Parse] (webhook.go:139-216).
    [Parse] has a pointer receiver and calls each part's [Parse] on the
    part's field ([c.URL.Parse()] may write [c.URL.Title]); it is an [StL]
    computation on the whole [EMBEDDED], each part call focused on its
    field with [st_field].  The accumulator [emb] is threaded as in the
    source, one [add_fragment] per part, in the source's order: fields,
    description, title, author, color, url, image, thumbnail, footer,
    timestamp.

    The theorems show that [Parse] is the comma join of the non-empty part
    fragments in that order wrapped in ["embeds": [{...}]] (and "" when
    all are empty), that it renders "" exactly when every part is zero,
    that only [URL.Title] changes, that the log holds COLOR's entry before
    TIMESTAMP's, and that a second [Parse] repeats the first. *)

From Stdlib Require Import String Ascii ZArith List Lia Bool.
From S2P Require Import Prelude GoFmt Strconv GoTime Parts.
Import ListNotations.
Local Open Scope webhook_scope.
Local Open Scope string_scope.

Module Embedded.

Record EMBEDDED := mkEMBEDDED {
  Color : Color.COLOR;
  Author : Author.AUTHOR;
  Title : Title.TITLE;
  URL : Url.URL_;
  Description : Description.DESCRIPTION;
  Fields : list Fields.FIELDS;
  Image : Image.IMAGE;
  Thumbnail : Thumbnail.THUMBNAIL;
  Footer : Footer.FOOTER;
  Timestamp : Timestamp.TIMESTAMP }.

(** Writing one field of [*c] back after a method call on it. *)
Definition set_Color x c := mkEMBEDDED x (Author c) (Title c) (URL c) (Description c) (Fields c) (Image c) (Thumbnail c) (Footer c) (Timestamp c).
Definition set_Author x c := mkEMBEDDED (Color c) x (Title c) (URL c) (Description c) (Fields c) (Image c) (Thumbnail c) (Footer c) (Timestamp c).
Definition set_Title x c := mkEMBEDDED (Color c) (Author c) x (URL c) (Description c) (Fields c) (Image c) (Thumbnail c) (Footer c) (Timestamp c).
Definition set_URL x c := mkEMBEDDED (Color c) (Author c) (Title c) x (Description c) (Fields c) (Image c) (Thumbnail c) (Footer c) (Timestamp c).
Definition set_Description x c := mkEMBEDDED (Color c) (Author c) (Title c) (URL c) x (Fields c) (Image c) (Thumbnail c) (Footer c) (Timestamp c).
Definition set_Image x c := mkEMBEDDED (Color c) (Author c) (Title c) (URL c) (Description c) (Fields c) x (Thumbnail c) (Footer c) (Timestamp c).
Definition set_Thumbnail x c := mkEMBEDDED (Color c) (Author c) (Title c) (URL c) (Description c) (Fields c) (Image c) x (Footer c) (Timestamp c).
Definition set_Footer x c := mkEMBEDDED (Color c) (Author c) (Title c) (URL c) (Description c) (Fields c) (Image c) (Thumbnail c) x (Timestamp c).
Definition set_Timestamp x c := mkEMBEDDED (Color c) (Author c) (Title c) (URL c) (Description c) (Fields c) (Image c) (Thumbnail c) (Footer c) x.

(** The loop of [parseFields]: each [v] is a copy of the element, so its
    [Parse] cannot change the slice. *)
Definition fields_loop (fs : list Fields.FIELDS) : string :=
  fold_left (fun Fields v => add_fragment Fields (run_val Fields.Parse v)) fs "".

(** [func (c *EMBEDDED) parseFields() string] *)
Definition parseFields : StL EMBEDDED log_entry string :=
  c <- st_get ;;
  let Fields := fields_loop (Fields c) in
  if Fields ==? "" then st_ret "" else st_ret (qv "fields" ++ ": [ " ++ Fields ++ " ]").

(** [func (c *EMBEDDED) Parse() string] *)
Definition Parse : StL EMBEDDED log_entry string :=
  Fields <- parseFields ;;
  let emb := add_fragment "" Fields in
  Desc <- st_field Description set_Description Description.Parse ;;
  let emb := add_fragment emb Desc in
  Title <- st_field Title set_Title Title.Parse ;;
  let emb := add_fragment emb Title in
  aut <- st_field Author set_Author Author.Parse ;;
  let emb := add_fragment emb aut in
  col <- st_field Color set_Color Color.Parse ;;
  let emb := add_fragment emb col in
  URI <- st_field URL set_URL Url.Parse ;;
  let emb := add_fragment emb URI in
  img <- st_field Image set_Image Image.Parse ;;
  let emb := add_fragment emb img in
  thumb <- st_field Thumbnail set_Thumbnail Thumbnail.Parse ;;
  let emb := add_fragment emb thumb in
  foot <- st_field Footer set_Footer Footer.Parse ;;
  let emb := add_fragment emb foot in
  time <- st_field Timestamp set_Timestamp Timestamp.Parse ;;
  let emb := add_fragment emb time in
  if emb ==? "" then st_ret "" else st_ret (qv "embeds" ++ ": [{" ++ emb ++ "}]").

(** The zero [EMBEDDED{}]. *)
Definition Empty : EMBEDDED :=
  mkEMBEDDED Color.Empty Author.Empty Title.Empty Url.Empty Description.Empty []
             Image.Empty Thumbnail.Empty Footer.Empty Timestamp.Empty.

(** The fragments [Parse] appends, in the order of the source. *)
Definition fragments (e : EMBEDDED) : list string :=
  [run_val parseFields e; run_val Description.Parse (Description e);
   run_val Title.Parse (Title e); run_val Author.Parse (Author e);
   run_val Color.Parse (Color e); run_val Url.Parse (URL e);
   run_val Image.Parse (Image e); run_val Thumbnail.Parse (Thumbnail e);
   run_val Footer.Parse (Footer e); run_val Timestamp.Parse (Timestamp e)].

(** Rewrite [run_val P.Parse x = ""] to [x = P.Empty] through the part's laws. *)
Ltac part_empty_rw x :=
  let H := fresh in
  pose proof (part_val_empty_iff x) as H;
  cbn [part_parse part_zero Color_part Author_part Title_part Url_part Description_part
       Image_part Thumbnail_part Footer_part Timestamp_part] in H;
  rewrite H; clear H.

Lemma parseFields_val e :
  run_val parseFields e =
  if fields_loop (Fields e) ==? "" then "" else qv "fields" ++ ": [ " ++ fields_loop (Fields e) ++ " ]".
Proof. unfold run_val, parseFields. st_simpl. destruct (_ ==? _); reflexivity. Qed.

Lemma parseFields_state e : run_state parseFields e = e.
Proof. unfold run_state, parseFields. st_simpl. destruct (_ ==? _); reflexivity. Qed.

Lemma parseFields_log e : run_log parseFields e = [].
Proof. unfold run_log, parseFields. st_simpl. destruct (_ ==? _); reflexivity. Qed.

Ltac embed_cbn :=
  cbn -[Color.Parse Author.Parse Title.Parse Url.Parse Description.Parse Image.Parse
        Thumbnail.Parse Footer.Parse Timestamp.Parse parseFields add_fragment go_eqb
        run_val run_state run_log app].

(** Run one part call of [Parse]: its value, its state (unchanged except
    for URL) and its log (empty except for COLOR and TIMESTAMP). *)
Ltac embed_step m x :=
  rewrite (st_shape m x);
  try replace (run_state m x) with x
    by (symmetry; first [apply pure_parse_state | apply Color_Parse_state
                         | apply Timestamp_Parse_state | apply parseFields_state]);
  try replace (run_log m x) with (@nil log_entry)
    by (symmetry; first [apply pure_parse_log | apply Url_Parse_log | apply parseFields_log]);
  embed_cbn.

(** [Parse], run: the wrapped comma join of the fragments; the receiver
    with its URL part written back; COLOR's log, then TIMESTAMP's. *)
Lemma Parse_run e :
  Parse e =
  (let emb := add_fragments "" (fragments e) in
   if emb ==? "" then "" else qv "embeds" ++ ": [{" ++ emb ++ "}]",
   set_URL (run_state Url.Parse (URL e)) e,
   (run_log Color.Parse (Color e) ++ run_log Timestamp.Parse (Timestamp e))%list).
Proof.
  destruct e as [c a t u d f i th fo ts].
  unfold Parse, st_bind, st_field, st_get, st_ret. embed_cbn.
  embed_step parseFields (mkEMBEDDED c a t u d f i th fo ts).
  embed_step Description.Parse d. embed_step Title.Parse t. embed_step Author.Parse a.
  embed_step Color.Parse c. embed_step Url.Parse u. embed_step Image.Parse i.
  embed_step Thumbnail.Parse th. embed_step Footer.Parse fo. embed_step Timestamp.Parse ts.
  cbn [fragments add_fragments set_Timestamp set_Footer set_Thumbnail set_Image set_URL
       set_Color set_Author set_Title set_Description fold_left
       Color Author Title URL Description Fields Image Thumbnail Footer Timestamp].
  destruct (add_fragment _ _ ==? ""); embed_cbn; cbn [app]; rewrite ?app_nil_r; reflexivity.
Qed.

(** What [parseFields] renders for one element. *)
Definition field_object (f : Fields.FIELDS) : string := "{ " ++ Fields.field f ++ " }".

Definition nonzero_field (f : Fields.FIELDS) : bool := negb (f ==? Fields.Empty).

Lemma Fields_Parse_val f :
  run_val Fields.Parse f = if f ==? Fields.Empty then "" else field_object f.
Proof. unfold run_val, Fields.Parse. rewrite pure_parse_run. reflexivity. Qed.

Lemma filter_map_fields fs :
  filter nonempty (map (run_val Fields.Parse) fs) = map field_object (filter nonzero_field fs).
Proof.
  induction fs as [|f fs IH]; [reflexivity|]. simpl. rewrite Fields_Parse_val.
  unfold nonzero_field. destruct (f ==? Fields.Empty); simpl; rewrite IH; reflexivity.
Qed.

Lemma fields_loop_join fs :
  fields_loop fs = String.concat "," (map field_object (filter nonzero_field fs)).
Proof.
  unfold fields_loop. rewrite <- filter_map_fields.
  change (String.concat "," (filter nonempty (map (run_val Fields.Parse) fs)))
    with (join_nonempty (map (run_val Fields.Parse) fs)).
  rewrite <- add_fragments_join. unfold add_fragments.
  generalize "". induction fs as [|f fs IH]; intros acc; [reflexivity|]. apply IH.
Qed.

Lemma concat_field_objects_empty fs :
  String.concat "," (map field_object fs) = "" -> fs = [].
Proof.
  destruct fs as [|f fs]; [reflexivity|]. intros H.
  exfalso. exact (concat_head_nonempty (field_object f) (map field_object fs) ltac:(discriminate) H).
Qed.

(** C5: [parseFields] renders the non-empty fields in the caller's
    order, comma-joined inside ["fields": [ ... ]], dropping the zero
    fields, and renders "" when every field is zero. *)
Theorem parseFields_order e :
  run_val parseFields e =
  match filter nonzero_field (Fields e) with
  | [] => ""
  | fs => qv "fields" ++ ": [ " ++ String.concat "," (map field_object fs) ++ " ]"
  end.
Proof.
  rewrite parseFields_val, fields_loop_join.
  destruct (filter nonzero_field (Fields e)) as [|f fs] eqn:Hf; [reflexivity|].
  destruct (go_eqb_spec (String.concat "," (map field_object (f :: fs))) "") as [E|E].
  - apply concat_field_objects_empty in E. discriminate.
  - reflexivity.
Qed.

(** C4: [EMBEDDED.Parse] renders the comma join of the non-empty
    fragments in the fixed order fields, description, title, author,
    color, url, image, thumbnail, footer, timestamp, wrapped in
    ["embeds": [{...}]], and "" when every fragment is empty. *)
Theorem Parse_order e :
  run_val Parse e =
  if join_nonempty (fragments e) ==? "" then ""
  else qv "embeds" ++ ": [{" ++ join_nonempty (fragments e) ++ "}]".
Proof. unfold run_val. rewrite Parse_run. cbn [fst snd]. rewrite add_fragments_join. reflexivity. Qed.

(** C23: [EMBEDDED.Parse] changes only the URL part of its receiver (the
    back-filled title), and logs COLOR's error before TIMESTAMP's. *)
Theorem Parse_effects e :
  run_state Parse e = set_URL (run_state Url.Parse (URL e)) e /\
  run_log Parse e = (run_log Color.Parse (Color e) ++ run_log Timestamp.Parse (Timestamp e))%list.
Proof. unfold run_state, run_log. rewrite Parse_run. split; reflexivity. Qed.

Lemma filter_nonzero_nil fs :
  filter nonzero_field fs = [] <-> Forall (fun f => f = Fields.Empty) fs.
Proof.
  induction fs as [|f fs IH]; [split; auto|]. cbn [filter]. unfold nonzero_field at 1.
  rewrite Forall_cons_iff, <- IH.
  destruct (go_eqb_spec f Fields.Empty) as [E|E]; simpl; [tauto|].
  split; [discriminate|intros [H _]; contradiction].
Qed.

Lemma fields_wrap_nonempty x : qv "fields" ++ ": [ " ++ x ++ " ]" <> "".
Proof. discriminate. Qed.

Lemma parseFields_empty_iff e :
  run_val parseFields e = "" <-> Forall (fun f => f = Fields.Empty) (Fields e).
Proof.
  rewrite parseFields_val, fields_loop_join.
  transitivity (filter nonzero_field (Fields e) = []).
  - destruct (filter nonzero_field (Fields e)) as [|f fs]; [simpl; split; reflexivity|].
    pose proof (concat_head_nonempty (field_object f) (map field_object fs) ltac:(discriminate)) as Hc.
    cbn [map]. apply go_eqb_false in Hc. rewrite Hc.
    split; intros H; [exfalso; exact (fields_wrap_nonempty _ H)|discriminate].
  - apply filter_nonzero_nil.
Qed.

Lemma embeds_wrap_nonempty x : qv "embeds" ++ ": [{" ++ x ++ "}]" <> "".
Proof. discriminate. Qed.

(** C6: omission is total: [EMBEDDED.Parse] renders "" exactly when
    every part is its zero value and every element of [Fields] is zero. *)
Theorem Parse_empty_iff e :
  run_val Parse e = "" <->
  Color e = Color.Empty /\ Author e = Author.Empty /\ Title e = Title.Empty /\
  URL e = Url.Empty /\ Description e = Description.Empty /\
  Forall (fun f => f = Fields.Empty) (Fields e) /\ Image e = Image.Empty /\
  Thumbnail e = Thumbnail.Empty /\ Footer e = Footer.Empty /\ Timestamp e = Timestamp.Empty.
Proof.
  unfold run_val. rewrite Parse_run. cbn [fst snd]. rewrite add_fragments_join.
  transitivity (join_nonempty (fragments e) = "").
  { destruct (go_eqb_spec (join_nonempty (fragments e)) "") as [E|E];
      split; intros H; try exact E; try reflexivity; [exfalso; exact (embeds_wrap_nonempty _ H)|congruence]. }
  rewrite join_nonempty_empty_iff. unfold fragments.
  rewrite !Forall_cons_iff.
  rewrite parseFields_empty_iff.
  part_empty_rw (Description e). part_empty_rw (Title e). part_empty_rw (Author e).
  part_empty_rw (Color e). part_empty_rw (URL e). part_empty_rw (Image e).
  part_empty_rw (Thumbnail e). part_empty_rw (Footer e). part_empty_rw (Timestamp e).
  simpl. split; intros H; decompose [and] H; repeat split; auto.
Qed.

Lemma Url_again u :
  Url.Parse (run_state Url.Parse u) = (run_val Url.Parse u, run_state Url.Parse u, run_log Url.Parse u).
Proof. exact (part_parse_again u). Qed.

Lemma Url_state_again u : run_state Url.Parse (run_state Url.Parse u) = run_state Url.Parse u.
Proof. exact (st_again_state _ _ (Url_again u)). Qed.

Lemma Url_val_again u : run_val Url.Parse (run_state Url.Parse u) = run_val Url.Parse u.
Proof. exact (st_again_val _ _ (Url_again u)). Qed.

Lemma Parse_state_eq e : run_state Parse e = set_URL (run_state Url.Parse (URL e)) e.
Proof. unfold run_state at 1. rewrite Parse_run. reflexivity. Qed.

Lemma Parse_triple e : (run_val Parse e, run_state Parse e, run_log Parse e) = Parse e.
Proof. unfold run_val, run_state, run_log. destruct (Parse e) as [[v s] w]. reflexivity. Qed.

(** [EMBEDDED.Parse] reaches a fixed point after one call: calling it
    again on the updated receiver renders the same string, logs the same
    entries and leaves the receiver unchanged. *)
Lemma Parse_again e :
  Parse (run_state Parse e) = (run_val Parse e, run_state Parse e, run_log Parse e).
Proof.
  rewrite Parse_triple, Parse_state_eq, !Parse_run.
  destruct e as [c a t u d f i th fo ts].
  unfold set_URL, fragments.
  cbn [Color Author Title URL Description Fields Image Thumbnail Footer Timestamp].
  rewrite Url_state_again, Url_val_again, !parseFields_val. reflexivity.
Qed.

End Embedded.
