(* ===== verification/Hook.v ===== *)
(** * Hook: the message builder, its lifecycle and its transport

    [Identity] and [Identity.WebHook] (webhook.go:12-26), [Hook]
    (webhook.go:28-37), [Hook.Close] (39-42), [Hook.SendWebHook] (44-58)
    and [Hook.JSONRequest] (60-95).  [JSONRequest] has a pointer receiver
    and calls [c.Embedded.Parse()], which may write the URL part, so it is
    an [StL] computation on the [Hook].

    net/http is the transport collaborator: the class [Transport] gives
    [http.NewRequest] (which may fail) and [Client.Do] (which may fail),
    and [TransportLaws] states what [NewRequest] promises (the method, URL
    and body it is given, and an empty header).  [SendWebHook] is proved
    against that interface; [loopback] is a concrete transport used by the
    witnesses.  The calls [SendWebHook] makes on the connection
    ([client.Do] and the deferred [resp.Body.Close]) come out in order as
    the trace [net_call].  The lifecycle of a hook is the relation [step]: a client
    may assign the three exported fields and call the methods in any
    order, and [reachable] closes [Identity.WebHook] under [step].

    The theorems give the body [JSONRequest] renders (the join of the
    non-empty fragments in the source's order, the empty object exactly
    when every input is zero, the same body on a second call), what
    [SendWebHook] sends and how it fails, that it closes every response
    body it receives, the type of the log [JSONRequest] leaves, the
    and the identity invariant of the lifecycle. *)

From Stdlib Require Import String Ascii ZArith List Lia Bool.
From S2P Require Import Prelude GoFmt Strconv GoTime Parts Embedded.
Import ListNotations.
Local Open Scope webhook_scope.
Local Open Scope string_scope.

Module Hook.

(** [type Identity struct] *)
Record Identity := mkIdentity { Username : string; AvatarURL : string; WebHookURL : string }.

(** [type Hook struct]: three unexported fields and three exported ones. *)
Record Hook := mkHook {
  username : string; avatarURL : string; webHookURL : string;
  Content : string; Tts : bool; Embedded : Embedded.EMBEDDED }.

(** [func (c *Identity) WebHook() Hook]: the other fields are zero. *)
Definition WebHook (c : Identity) : Hook :=
  mkHook (Username c) (AvatarURL c) (WebHookURL c) "" false Embedded.Empty.

Definition set_Embedded (e : Embedded.EMBEDDED) (c : Hook) : Hook :=
  mkHook (username c) (avatarURL c) (webHookURL c) (Content c) (Tts c) e.

(** One guarded append of [JSONRequest]:
    [if cond { if req != "" { req += "," }; req += frag }]. *)
Definition append_if (cond : bool) (req frag : string) : string :=
  if cond then (if negb (req ==? "") then req ++ "," else req) ++ frag else req.

(** [func (c *Hook) JSONRequest() string] *)
Definition JSONRequest : StL Hook log_entry string :=
  c <- st_get ;;
  let req := "" in
  let req := append_if (negb (username c ==? "")) req (qv "username" ++ ":" ++ qv (username c)) in
  let req := append_if (negb (avatarURL c ==? "")) req (qv "avatar_url" ++ ":" ++ qv (avatarURL c)) in
  let req := append_if (negb (Content c ==? "")) req (qv "content" ++ ":" ++ qv (Content c)) in
  let req := append_if (negb (Tts c ==? false)) req (qv "tts" ++ ": " ++ qv (format_bool (Tts c))) in
  emb <- st_field Embedded set_Embedded Embedded.Parse ;;
  let req := append_if (negb (emb ==? "")) req emb in
  st_ret ("{ " ++ req ++ " }").

(** [func (c *Hook) Close()]: [c = nil] assigns the method's own copy of
    the pointer, so the call has no effect. *)
Definition Close : StL Hook log_entry unit := st_ret tt.

(** ** The transport collaborator (net/http) *)

Record Request := mkRequest {
  Method : string; ReqURL : string; Header : list (string * string); Body : string }.

Record Response := mkResponse { Status : string }.

(** [req.Header.Set(key, value)]: replaces every value of [key]. *)
Definition header_set (key value : string) (r : Request) : Request :=
  mkRequest (Method r) (ReqURL r)
            ((key, value) :: filter (fun kv => negb (fst kv ==? key)) (Header r)) (Body r).

Class Transport := {
  transport_error : Type;
  (** [http.NewRequest(method, url, body)]; [None] is a non-nil error,
      with a nil request. *)
  NewRequest : string -> string -> string -> option Request;
  (** [client.Do(req)] *)
  Do : Request -> result Response transport_error
}.

Class TransportLaws `{Transport} := {
  NewRequest_fields : forall m u b r,
    NewRequest m u b = Some r -> r = mkRequest m u [] b
}.

(** How [SendWebHook] ends: the status line, or a panic. *)
Inductive send_outcome `{Transport} :=
| Returned (status : string)
| PanicNilRequest                    (** [req.Header.Set] on a nil [req] *)
| PanicTransport (e : transport_error). (** [panic(err)] after [client.Do] *)

(** The calls [SendWebHook] makes on the connection, in order:
    [client.Do(req)] and the deferred [resp.Body.Close()]. *)
Inductive net_call `{Transport} :=
| CallDo (req : Request)
| CallClose (resp : Response).

(** [func (c *Hook) SendWebHook() string]: the error of [NewRequest] is
    overwritten before it is checked; the outcome comes with the calls
    made on the connection.  [defer resp.Body.Close()] runs when the
    function returns, after [resp.Status] is read; a panic leaves before
    the [defer] statement is reached. *)
Definition SendWebHook `{Transport} : StL Hook log_entry (send_outcome * list net_call) :=
  jsonStr <- JSONRequest ;;
  c <- st_get ;;
  match NewRequest "POST" (webHookURL c) jsonStr with
  | None => st_ret (PanicNilRequest, [])
  | Some req =>
      let req := header_set "Content-Type" "application/json" req in
      match Do req with
      | Err e => st_ret (PanicTransport e, [CallDo req])
      | Ok resp =>
          let status := Status resp in
          st_ret (Returned status, [CallDo req; CallClose resp])
      end
  end.

(** Whether a string holds an ASCII control byte (below 0x20, or 0x7f):
    the URLs Go's [url.Parse] rejects before looking at their syntax. *)
Fixpoint has_ctl (s : string) : bool :=
  match s with
  | EmptyString => false
  | String c r => (N_of_ascii c <? 32)%N || (N_of_ascii c =? 127)%N || has_ctl r
  end.

(** A test double for net/http: [NewRequest] fails, as [url.Parse] does,
    on a URL that holds a control byte, and [Do] answers ["200 OK"]. *)
Definition loopback : Transport := {|
  transport_error := string;
  NewRequest m u b := if has_ctl u then None else Some (mkRequest m u [] b);
  Do r := Ok (mkResponse "200 OK") |}.

(** ** The lifecycle of a [Hook]

    A client builds a [Hook] with [Identity.WebHook], may assign its three
    exported fields, and calls its methods in any order.  The unexported
    identity fields can be assigned only inside the package. *)
Section Lifecycle.
Context `{Transport}.

Inductive step : Hook -> Hook -> Prop :=
| step_set_Content c s : step c (mkHook (username c) (avatarURL c) (webHookURL c) s (Tts c) (Embedded c))
| step_set_Tts c b : step c (mkHook (username c) (avatarURL c) (webHookURL c) (Content c) b (Embedded c))
| step_set_Embedded c e : step c (set_Embedded e c)
| step_JSONRequest c : step c (run_state JSONRequest c)
| step_SendWebHook c : step c (run_state SendWebHook c)
| step_Close c : step c (run_state Close c).

Inductive reachable (id : Identity) : Hook -> Prop :=
| reach_init : reachable id (WebHook id)
| reach_step c c' : reachable id c -> step c c' -> reachable id c'.

End Lifecycle.

(** The reference rendering: the five top-level fragments in the order
    of [JSONRequest], the last one being the embed. *)
Definition request_fragments (c : Hook) (emb : string) : list string :=
  [if username c ==? "" then "" else qv "username" ++ ":" ++ qv (username c);
   if avatarURL c ==? "" then "" else qv "avatar_url" ++ ":" ++ qv (avatarURL c);
   if Content c ==? "" then "" else qv "content" ++ ":" ++ qv (Content c);
   if Tts c ==? false then "" else qv "tts" ++ ": " ++ qv (format_bool (Tts c));
   emb].

(** The identity fields of a [Hook]. *)
Definition identity_of (c : Hook) : Identity :=
  mkIdentity (username c) (avatarURL c) (webHookURL c).

Lemma eqb_empty_is_empty s : (s ==? "") = is_empty s.
Proof. destruct s; reflexivity. Qed.

(** One guarded append is one [add_fragment] of the guarded fragment. *)
Lemma append_if_add b req frag :
  frag <> "" -> append_if b req frag = add_fragment req (if b then frag else "").
Proof.
  intros Hf. unfold append_if, add_fragment. apply is_empty_false in Hf.
  destruct b; [|reflexivity]. rewrite Hf, eqb_empty_is_empty.
  destruct (is_empty req); reflexivity.
Qed.

Lemma append_if_emb req emb : append_if (negb (emb ==? "")) req emb = add_fragment req emb.
Proof.
  rewrite eqb_empty_is_empty. unfold append_if, add_fragment.
  destruct (is_empty emb); [reflexivity|]. rewrite eqb_empty_is_empty.
  destruct (is_empty req); reflexivity.
Qed.

Lemma guard_fragment (b : bool) (x : string) :
  (if negb b then x else "") = (if b then "" else x).
Proof. destruct b; reflexivity. Qed.

(** [JSONRequest], run: the wrapped join, the receiver with its
    [Embedded] updated by [EMBEDDED.Parse], and that call's log. *)
Lemma JSONRequest_run c :
  JSONRequest c =
  ("{ " ++ join_nonempty (request_fragments c (run_val Embedded.Parse (Embedded c))) ++ " }",
   set_Embedded (run_state Embedded.Parse (Embedded c)) c,
   run_log Embedded.Parse (Embedded c)).
Proof.
  unfold JSONRequest, st_bind, st_get, st_field, st_ret.
  rewrite (st_shape Embedded.Parse (Embedded c)). cbn [fst snd].
  rewrite append_if_emb, !append_if_add by apply append_nonempty_l, qv_nonempty.
  rewrite !guard_fragment, <- add_fragments_join.
  rewrite !app_nil_r. reflexivity.
Qed.

Lemma JSONRequest_state c : run_state JSONRequest c = set_Embedded (run_state Embedded.Parse (Embedded c)) c.
Proof. unfold run_state at 1. rewrite JSONRequest_run. reflexivity. Qed.

Lemma SendWebHook_state `{Transport} c : run_state SendWebHook c = run_state JSONRequest c.
Proof.
  unfold run_state, SendWebHook, st_bind, st_get.
  destruct (JSONRequest c) as [[v c'] w]. cbn [fst snd].
  destruct (NewRequest _ _ _) as [r|]; [destruct (Do _)|]; reflexivity.
Qed.

(** The log of [JSONRequest]: COLOR's, then TIMESTAMP's. *)
Lemma JSONRequest_log c :
  run_log JSONRequest c =
  (run_log Color.Parse (Embedded.Color (Embedded c)) ++
   run_log Timestamp.Parse (Embedded.Timestamp (Embedded c)))%list.
Proof.
  unfold run_log at 1. rewrite JSONRequest_run. cbn [snd].
  unfold run_log at 1. rewrite Embedded.Parse_run. reflexivity.
Qed.

(** Every step keeps the identity fields. *)
Lemma step_identity `{Transport} c c' : step c c' -> identity_of c' = identity_of c.
Proof.
  destruct 1; try reflexivity;
    rewrite ?SendWebHook_state, ?JSONRequest_state; reflexivity.
Qed.

(** C1: [JSONRequest] renders, inside ["{ "] and [" }"], the comma join
    of the non-empty fragments username, avatar_url, content, tts and the
    embed, in that order, each present exactly when its field is not the
    zero value. *)
Theorem JSONRequest_order c :
  run_val JSONRequest c =
  "{ " ++ join_nonempty (request_fragments c (run_val Embedded.Parse (Embedded c))) ++ " }".
Proof. unfold run_val at 1. rewrite JSONRequest_run. reflexivity. Qed.

(** C3: the body is the empty object ["{  }"] exactly when the three
    identity-or-content strings are empty, [Tts] is false and the embed
    renders nothing; otherwise it wraps a non-empty join. *)
Theorem JSONRequest_empty_iff c :
  run_val JSONRequest c = "{  }" <->
  username c = "" /\ avatarURL c = "" /\ Content c = "" /\ Tts c = false /\
  run_val Embedded.Parse (Embedded c) = "".
Proof.
  unfold run_val at 1. rewrite JSONRequest_run. cbn [fst].
  transitivity (join_nonempty (request_fragments c (run_val Embedded.Parse (Embedded c))) = "").
  { split; intros H; [|rewrite H; reflexivity].
    change "{  }" with ("{ " ++ "" ++ " }") in H. apply append_cancel_l, (f_equal String.length) in H.
    rewrite !length_append_s in H. destruct (join_nonempty _); [reflexivity|simpl in H; lia]. }
  rewrite join_nonempty_empty_iff. unfold request_fragments. rewrite !Forall_cons_iff.
  destruct (go_eqb_spec (username c) ""), (go_eqb_spec (avatarURL c) ""),
    (go_eqb_spec (Content c) ""), (Tts c); cbn;
    intuition (try discriminate; try congruence; auto).
Qed.

(** C28: [JSONRequest] is stable: a second call on the updated receiver
    returns the same body and log, and leaves the receiver as the first
    call did. *)
Theorem JSONRequest_again c :
  JSONRequest (run_state JSONRequest c) =
  (run_val JSONRequest c, run_state JSONRequest c, run_log JSONRequest c).
Proof.
  destruct c as [u a w ct t e]. pose proof (Embedded.Parse_again e) as Ha.
  unfold run_val, run_log. rewrite JSONRequest_state, !JSONRequest_run.
  unfold set_Embedded, request_fragments. cbn [username avatarURL webHookURL Content Tts Embedded fst snd].
  rewrite (st_again_val _ _ Ha), (st_again_state _ _ Ha), (st_again_log _ _ Ha). reflexivity.
Qed.

(** C24: the log of [JSONRequest] is well typed: it is at most one
    [*strconv.NumError], from [ParseInt] on the embed's colour string, then
    at most one [*time.ParseError], naming the layout and the embed's
    timestamp string; nothing else reaches [log.Println]. *)
Theorem JSONRequest_log_typed c :
  let col := Color.Color (Embedded.Color (Embedded c)) in
  let ts := Timestamp.Time (Embedded.Timestamp (Embedded c)) in
  exists ne pe,
    run_log JSONRequest c = (map LogNumError ne ++ map LogParseError pe)%list /\
    (length ne <= 1)%nat /\ (length pe <= 1)%nat /\
    Forall (fun e => Strconv.Func e = "ParseInt" /\ Strconv.Num e = col) ne /\
    Forall (GoTime.reports ts) pe.
Proof.
  intros col ts.
  destruct (Color_log_typed (Embedded.Color (Embedded c))) as (ne & Hn & Hn1 & Hne).
  destruct (Timestamp_log_typed (Embedded.Timestamp (Embedded c))) as (pe & Hp & Hp1 & Hpe).
  exists ne, pe. rewrite JSONRequest_log, Hn, Hp. repeat split; try assumption.
  revert Hpe. apply Forall_impl. intros e [He _]. exact He.
Qed.

Lemma loopback_laws : @TransportLaws loopback.
Proof.
  constructor. intros m u b r. cbn. destruct (has_ctl u); [discriminate|]. intros H. injection H as <-. reflexivity.
Qed.

Section Send.
Context {T : Transport} {TL : TransportLaws}.

(** C17: against any transport that keeps what it is given, [SendWebHook]
    POSTs the body of [JSONRequest] to the hook's [webHookURL] with the one
    header [Content-Type: application/json], returns the response's status
    line (closing the response body) or panics with the transport's
    error, and leaves the receiver and the log as [JSONRequest] does. *)
Theorem SendWebHook_posts c r :
  NewRequest "POST" (webHookURL c) (run_val JSONRequest c) = Some r ->
  let req := mkRequest "POST" (webHookURL c) [("Content-Type", "application/json")] (run_val JSONRequest c) in
  SendWebHook c =
  (match Do req with
   | Ok resp => (Returned (Status resp), [CallDo req; CallClose resp])
   | Err e => (PanicTransport e, [CallDo req])
   end, run_state JSONRequest c, run_log JSONRequest c).
Proof.
  intros Hr req. unfold SendWebHook, st_bind, st_get, st_ret.
  rewrite (st_shape JSONRequest c), JSONRequest_state. cbn [fst snd webHookURL set_Embedded].
  rewrite Hr, (NewRequest_fields _ _ _ _ Hr). cbn.
  destruct (Do _); rewrite ?app_nil_r; reflexivity.
Qed.

End Send.

(** C18: the error of [http.NewRequest] is never checked: when it fails,
    [SendWebHook] dereferences the nil request and panics before anything
    is sent. *)
Theorem SendWebHook_nil_request `{Transport} c :
  NewRequest "POST" (webHookURL c) (run_val JSONRequest c) = None ->
  run_val SendWebHook c = (PanicNilRequest, []).
Proof.
  intros Hn. unfold run_val, SendWebHook, st_bind, st_get, st_ret.
  rewrite (st_shape JSONRequest c), JSONRequest_state. cbn [fst snd webHookURL set_Embedded].
  rewrite Hn. reflexivity.
Qed.

(** C19: [SendWebHook] never leaks a response body: on every path it calls
    [client.Do] at most once; when it returns a status line, that line is
    the response's and the response's body is closed exactly once, after
    [Do]; when it panics no response exists and nothing is closed. *)
Theorem SendWebHook_body_closed `{Transport} c :
  match run_val SendWebHook c with
  | (Returned s, calls) =>
      exists req resp, calls = [CallDo req; CallClose resp] /\ Do req = Ok resp /\ s = Status resp
  | (PanicTransport e, calls) => exists req, calls = [CallDo req] /\ Do req = Err e
  | (PanicNilRequest, calls) => calls = []
  end.
Proof.
  unfold run_val, SendWebHook, st_bind, st_get, st_ret.
  destruct (JSONRequest c) as [[v c'] w]. cbn [fst snd].
  destruct (NewRequest _ _ _) as [r|]; [|reflexivity].
  destruct (Do _) as [resp|e] eqn:E; cbn [fst]; [exists (header_set "Content-Type" "application/json" r), resp|exists (header_set "Content-Type" "application/json" r)]; auto.
Qed.

(** C21: from [Identity.WebHook], whatever the client assigns to the
    exported fields and whichever methods it calls, the hook keeps the
    identity it was built from. *)
Theorem reachable_identity `{Transport} id c : reachable id c -> identity_of c = id.
Proof.
  induction 1 as [|c c' _ IH Hs]; [destruct id; reflexivity|].
  rewrite (step_identity _ _ Hs). exact IH.
Qed.

(** ** Witnesses *)

Lemma SendWebHook_posts_witness :
  let body := "{ " ++ qv "content" ++ ":" ++ qv "hi" ++ " }" in
  let req := mkRequest "POST" "https://h/x" [("Content-Type", "application/json")] body in
  @SendWebHook loopback (mkHook "" "" "https://h/x" "hi" false Embedded.Empty) =
  ((Returned "200 OK", [CallDo req; CallClose (mkResponse "200 OK")]),
   mkHook "" "" "https://h/x" "hi" false Embedded.Empty, []).
Proof.
  rewrite (@SendWebHook_posts loopback loopback_laws _
             (mkRequest "POST" "https://h/x" [] ("{ " ++ qv "content" ++ ":" ++ qv "hi" ++ " }")));
    vm_compute; reflexivity.
Defined.

Lemma SendWebHook_nil_request_witness :
  @run_val _ _ (@send_outcome loopback * list (@net_call loopback)) (@SendWebHook loopback)
    (mkHook "" "" ("https://h/" ++ String newline "") "hi" false Embedded.Empty)
  = (@PanicNilRequest loopback, []).
Proof. apply (@SendWebHook_nil_request loopback). vm_compute. reflexivity. Defined.

Lemma reachable_identity_witness :
  identity_of (mkHook "bot" "" "https://h/x" "hi" false Embedded.Empty) = mkIdentity "bot" "" "https://h/x".
Proof.
  apply (@reachable_identity loopback).
  apply (reach_step _ (WebHook (mkIdentity "bot" "" "https://h/x"))); [apply reach_init|].
  exact (step_set_Content _ "hi").
Defined.

End Hook.
