(* ===== verification/GoLog.v ===== *)
(** * GoLog: the lines [log.Println(err)] writes

    COLOR.Parse (webhook.go:228-230) and TIMESTAMP.Parse (webhook.go:405-407)
    report their errors with [log.Println(err)].  The standard logger (flags
    [LstdFlags = Ldate | Ltime], empty prefix, log/log.go) writes, for each
    call, the header [formatHeader] of the clock reading, then
    [fmt.Appendln(err)] (the text [err.Error()] and a newline), then a
    newline if the buffer does not already end with one.

    The clock ([time.Now()] read as [t.Date()] and [t.Clock()]) is an
    input: the record [Clock].  The texts are [Strconv.Error] (with
    [strconv.Quote]) and [GoTime.Error] (with time's [quote]); the tables
    of [strconv.IsPrint] above Latin-1 are the parameter [print_tables].

    Theorem: every [log.Println] call of [JSONRequest] writes exactly one
    line, whatever the user's colour and timestamp strings hold (the
    quoting escapes every newline byte), and the example lines of a bad
    colour and an afternoon timestamp. *)

From Stdlib Require Import String Ascii ZArith List Lia Bool.
From S2P Require Import Prelude GoFmt Utf8 Strconv GoTime Parts Embedded Hook.
Import ListNotations.
Local Open Scope webhook_scope.
Local Open Scope string_scope.
Local Open Scope Z_scope.

Module GoLog.

(** [t.Date()] and [t.Clock()] of [time.Now()]. *)
Record Clock := mkClock { Year : Z; Month : Z; Day : Z; Hour : Z; Min : Z; Sec : Z }.

(** The loop of log's [itoa(buf, i, wid)] writing the digits from the
    right into [var b [20]byte]: [slots] is the room left in [b]; writing
    past its start is an index-out-of-range panic, [None]. *)
Fixpoint itoa_loop (slots : nat) (i wid : Z) (acc : string) : option string :=
  match slots with
  | O => None
  | S k =>
      if (10 <=? i) || (1 <? wid) then
        let q := Z.quot i 10 in
        itoa_loop k q (wid - 1) (String (Utf8.chr (Utf8.byte (48 + i - q * 10))) acc)
      else Some (String (Utf8.chr (Utf8.byte (48 + i))) acc)
  end.

(** [itoa(buf, i, wid)]: [i] in decimal, zero-padded to [wid] digits. *)
Definition itoa (i wid : Z) : option string := itoa_loop 20 i wid "".

Definition obind {A B} (m : option A) (k : A -> option B) : option B :=
  match m with Some a => k a | None => None end.

Notation "x <-o m ;; k" := (obind m (fun x => k)) (at level 61, m at next level, right associativity).

(** [formatHeader(buf, t, "", LstdFlags, file, line)]: ["2009/01/23 01:23:23 "]. *)
Definition formatHeader (t : Clock) : option string :=
  y <-o itoa (Year t) 4 ;; mo <-o itoa (Month t) 2 ;; d <-o itoa (Day t) 2 ;;
  h <-o itoa (Hour t) 2 ;; mi <-o itoa (Min t) 2 ;; s <-o itoa (Sec t) 2 ;;
  Some (y ++ "/" ++ mo ++ "/" ++ d ++ " " ++ h ++ ":" ++ mi ++ ":" ++ s ++ " ").

(** A clock reading whose fields fit the 19 digits of an [int64]. *)
Definition clock_ok (t : Clock) : bool :=
  forallb (fun x => (0 <=? x) && (x <? 10 ^ 19)) [Year t; Month t; Day t; Hour t; Min t; Sec t].

(** [buf[len(buf)-1] == '\n']. *)
Fixpoint ends_newline (s : string) : bool :=
  match s with
  | EmptyString => false
  | String c EmptyString => Ascii.eqb c newline
  | String _ r => ends_newline r
  end.

Section Println.
Variable print_tables : Z -> bool.

(** [err.Error()] of a logged error. *)
Definition entry_text (l : log_entry) : string :=
  match l with
  | LogNumError e => Strconv.Error print_tables e
  | LogParseError e => GoTime.Error e
  end.

(** [fmt.Appendln(nil, err)]. *)
Definition Sprintln (l : log_entry) : string := entry_text l ++ String newline "".

(** [Logger.output]: header, message, and a newline unless the buffer
    already ends with one. *)
Definition output (t : Clock) (msg : string) : option string :=
  h <-o formatHeader t ;;
  let buf := h ++ msg in
  Some (if is_empty buf || negb (ends_newline buf) then buf ++ String newline "" else buf).

(** [log.Println(err)] at clock reading [t]. *)
Definition Println (t : Clock) (l : log_entry) : option string := output t (Sprintln l).

End Println.

(** ** Lemmas *)

Lemma chr_digit d : 0 <= d < 10 -> Ascii.eqb (Utf8.chr (Utf8.byte (48 + d))) newline = false.
Proof.
  intros Hd. unfold Utf8.byte. change 255 with (Z.ones 8). rewrite Z.land_ones by lia.
  rewrite Z.mod_small by (change (2 ^ 8) with 256; lia). apply Utf8.chr_newline; lia.
Qed.

(** Enough room in [b] for the digits and the padding: [itoa] returns a
    string of digits. *)
Lemma itoa_loop_ok n i wid acc :
  (1 <= n)%nat -> 0 <= i < 10 ^ Z.of_nat n -> wid <= Z.of_nat n -> no_newline acc = true ->
  exists out, itoa_loop n i wid acc = Some out /\ no_newline out = true.
Proof.
  revert i wid acc. induction n as [|k IH]; intros i wid acc Hn Hi Hw Ha; [lia|].
  cbn [itoa_loop].
  assert (Hq : Z.quot i 10 = i / 10) by (apply Z.quot_div_nonneg; lia).
  assert (Hr : i - Z.quot i 10 * 10 = i mod 10) by (rewrite Hq, Z.mod_eq by lia; lia).
  destruct ((10 <=? i) || (1 <? wid)) eqn:E.
  - destruct k as [|k].
    { rewrite orb_true_iff, Z.leb_le, Z.ltb_lt in E. simpl in Hi, Hw. lia. }
    apply IH; [lia| |lia|].
    + rewrite Hq. split; [apply Z.div_pos; lia|].
      apply Z.div_lt_upper_bound; [lia|]. rewrite Nat2Z.inj_succ, Z.pow_succ_r in Hi by lia. lia.
    + cbn [no_newline]. rewrite <- Z.add_sub_assoc, Hr, chr_digit, Ha by (apply Z.mod_pos_bound; lia).
      reflexivity.
  - rewrite orb_false_iff, Z.leb_gt in E. eexists. split; [reflexivity|].
    cbn [no_newline]. rewrite chr_digit, Ha by lia. reflexivity.
Qed.

Lemma itoa_ok i wid : 0 <= i < 10 ^ 19 -> wid <= 4 ->
  exists out, itoa i wid = Some out /\ no_newline out = true.
Proof.
  intros Hi Hw. apply itoa_loop_ok; [lia| |lia|reflexivity].
  assert (10 ^ 19 <= 10 ^ Z.of_nat 20) by (apply Z.pow_le_mono_r; lia). lia.
Qed.

Lemma formatHeader_ok t : clock_ok t = true ->
  exists h, formatHeader t = Some h /\ no_newline h = true.
Proof.
  unfold clock_ok. cbn [forallb]. rewrite !andb_true_iff, !Z.leb_le, !Z.ltb_lt.
  intros (Hy & Hmo & Hd & Hh & Hmi & Hs & _).
  destruct (itoa_ok _ 4 Hy ltac:(lia)) as (y & Ey & Ny).
  destruct (itoa_ok _ 2 Hmo ltac:(lia)) as (mo & Emo & Nmo).
  destruct (itoa_ok _ 2 Hd ltac:(lia)) as (d & Ed & Nd).
  destruct (itoa_ok _ 2 Hh ltac:(lia)) as (h & Eh & Nh).
  destruct (itoa_ok _ 2 Hmi ltac:(lia)) as (mi & Emi & Nmi).
  destruct (itoa_ok _ 2 Hs ltac:(lia)) as (s & Es & Ns).
  unfold formatHeader. rewrite Ey, Emo, Ed, Eh, Emi, Es. cbn [obind].
  eexists. split; [reflexivity|]. one_line.
Qed.

Lemma ends_newline_snoc s : ends_newline (s ++ String newline "") = true.
Proof.
  induction s as [|c r IH]; [reflexivity|].
  cbn [append]. destruct r as [|c' r]; [reflexivity|]. exact IH.
Qed.

(** [Println] writes the header, the error's text and one newline: the
    buffer already ends with the newline [Appendln] adds. *)
Lemma Println_text pt t h l :
  formatHeader t = Some h -> Println pt t l = Some (h ++ entry_text pt l ++ String newline "").
Proof.
  intros Eh. unfold Println, output, Sprintln. rewrite Eh. cbn [obind].
  rewrite <- append_assoc_s, ends_newline_snoc.
  replace (is_empty _) with false by (symmetry; apply is_empty_false, append_nonempty_r; discriminate).
  rewrite append_assoc_s. reflexivity.
Qed.

(** A one-line text is logged as one line: the header, the text and a
    single newline. *)
Lemma Println_line pt t l :
  clock_ok t = true -> no_newline (entry_text pt l) = true ->
  exists text, Println pt t l = Some (text ++ String newline "") /\ no_newline text = true.
Proof.
  intros Ht Hl. destruct (formatHeader_ok t Ht) as (h & Eh & Nh).
  exists (h ++ entry_text pt l). rewrite (Println_text pt t h l Eh), append_assoc_s.
  split; [reflexivity|]. one_line.
Qed.

(** * Theorems *)

(** C20: every [log.Println(err)] call made by [JSONRequest] writes exactly
    one line, for any colour and timestamp strings and any clock reading
    of at most 19 digits per field: the header, the error's text without
    a newline byte (user input is quoted with [strconv.Quote] or time's
    [quote], which escape it), and one newline. *)
Theorem JSONRequest_log_one_line pt t c :
  clock_ok t = true ->
  Forall (fun l => exists text, Println pt t l = Some (text ++ String newline "") /\
                                no_newline text = true)
         (run_log Hook.JSONRequest c).
Proof.
  intros Ht. rewrite Hook.JSONRequest_log. apply Forall_app. split.
  - destruct (Color_log_typed (Embedded.Color (Hook.Embedded c))) as (ne & -> & _ & Hf).
    apply Forall_map. revert Hf. apply Forall_impl. intros e [Hfn _].
    apply Println_line; [exact Ht|]. apply Strconv.NumError_one_line. rewrite Hfn. reflexivity.
  - destruct (Timestamp_log_typed (Embedded.Timestamp (Hook.Embedded c))) as (pe & -> & _ & Hf).
    apply Forall_map. revert Hf. apply Forall_impl. intros e [_ Hm].
    apply Println_line; [exact Ht|]. apply GoTime.ParseError_one_line, Hm.
Qed.

(** C25: when the embed's colour is a non-empty plain string (printable
    ASCII without a double quote or a backslash) that [strconv.ParseInt]
    rejects, the first line the standard logger writes for [JSONRequest]
    is the clock header, then ["strconv.ParseInt: parsing "], the colour
    as given between double quotes, [": "] and the reason, then one
    newline. *)
Theorem JSONRequest_colour_line pt t h c s e :
  formatHeader t = Some h ->
  Embedded.Color (Hook.Embedded c) = Color.mkCOLOR s -> s <> "" -> Utf8.plain s = true ->
  snd (Strconv.ParseInt s 16 25) = Some e ->
  hd_error (map (Println pt t) (run_log Hook.JSONRequest c)) =
  Some (Some (h ++ "strconv.ParseInt: parsing " ++ qv s ++ ": " ++
              Strconv.err_text (Strconv.Err e) ++ String newline "")).
Proof.
  intros Eh Ec Hs Hp He. rewrite Hook.JSONRequest_log, Ec.
  unfold run_log at 1. rewrite Color_Parse_run.
  replace (Color.mkCOLOR s ==? Color.Empty) with false
    by (symmetry; apply go_eqb_false; intros E; injection E; exact Hs).
  cbn [Color.Color snd]. rewrite He. cbn [app map hd_error].
  rewrite (Println_text pt t h _ Eh). cbn [entry_text]. unfold Strconv.Error.
  destruct (Strconv.ParseInt_err _ _ _ _ He) as [-> ->].
  unfold Strconv.Quote. rewrite Strconv.quote_loop_plain by exact Hp.
  unfold qv. rewrite !append_assoc_s. reflexivity.
Qed.

(** ** Witnesses *)

Lemma JSONRequest_log_one_line_witness :
  clock_ok (mkClock 2024 1 2 3 4 5) = true /\
  Forall (fun l => exists text,
            Println (fun _ => false) (mkClock 2024 1 2 3 4 5) l = Some (text ++ String newline "") /\
            no_newline text = true)
         (run_log Hook.JSONRequest
            (Hook.mkHook "" "" "" "" false
               (Embedded.mkEMBEDDED (Color.mkCOLOR "12G4") Author.Empty Title.Empty Url.Empty
                  Description.Empty [] Image.Empty Thumbnail.Empty Footer.Empty
                  (Timestamp.mkTIMESTAMP "2024-01-02 15:04:05.6789")))).
Proof. split; [reflexivity|]. apply JSONRequest_log_one_line. reflexivity. Defined.

Lemma JSONRequest_colour_line_witness :
  hd_error (map (Println (fun _ => false) (mkClock 2024 1 2 3 4 5))
                (run_log Hook.JSONRequest
                   (Hook.mkHook "" "" "" "" false
                      (Embedded.mkEMBEDDED (Color.mkCOLOR "12G4") Author.Empty Title.Empty Url.Empty
                         Description.Empty [] Image.Empty Thumbnail.Empty Footer.Empty
                         Timestamp.Empty)))) =
  Some (Some ("2024/01/02 03:04:05 " ++ "strconv.ParseInt: parsing " ++ qv "12G4" ++ ": " ++
              Strconv.err_text Strconv.ErrSyntax ++ String newline "")).
Proof.
  apply (JSONRequest_colour_line _ _ _ _ "12G4" (Strconv.mkNumError "ParseInt" "12G4" Strconv.ErrSyntax));
    [vm_compute; reflexivity|reflexivity|discriminate|reflexivity|vm_compute; reflexivity].
Defined.

End GoLog.
