(* ===== verification/Session.v ===== *)
(** * Session: a client's method calls on one hook, as an execution

    A client holding a [*Hook] calls its methods [JSONRequest],
    [SendWebHook] and [Close] (webhook.go:39-95) in any order, any number
    of times.  An execution is a schedule [nat -> call] of such calls run
    from a hook, as the executions of a system driven by a schedule of
    step tags; [exec sched c n] is the hook after the first [n] calls.

    Rendering ([JSONRequest], and [SendWebHook] through it) may write the
    URL title back into the hook; [Close] changes nothing.  The theorem
    is the liveness property of these executions: once a call renders,
    the hook is stable from then on, whatever is called after. *)

From Stdlib Require Import String List Lia Bool.
From S2P Require Import Prelude Parts Embedded Hook.
Import ListNotations.

Module Session.
Import Hook.

(** The methods a client calls on a [*Hook]. *)
Inductive call := CallJSONRequest | CallSendWebHook | CallClose.

(** Whether the call renders the body. *)
Definition renders (m : call) : bool :=
  match m with CallJSONRequest | CallSendWebHook => true | CallClose => false end.

Section Exec.
Context `{Transport}.

(** The hook after one call. *)
Definition call_state (m : call) (c : Hook) : Hook :=
  match m with
  | CallJSONRequest => run_state JSONRequest c
  | CallSendWebHook => run_state SendWebHook c
  | CallClose => run_state Close c
  end.

(** The hook after the first [n] calls of the schedule. *)
Fixpoint exec (sched : nat -> call) (c : Hook) (n : nat) : Hook :=
  match n with
  | O => c
  | S k => call_state (sched k) (exec sched c k)
  end.

(** ** Lemmas *)

(** A rendering call leaves the hook [JSONRequest] leaves. *)
Lemma call_state_renders m c : renders m = true -> call_state m c = run_state JSONRequest c.
Proof. destruct m; simpl; try discriminate; intros _; [reflexivity|apply SendWebHook_state]. Qed.

(** A hook left by [JSONRequest] is a fixpoint of every call. *)
Lemma call_state_rendered m c :
  call_state m (run_state JSONRequest c) = run_state JSONRequest c.
Proof.
  assert (HJ : run_state JSONRequest (run_state JSONRequest c) = run_state JSONRequest c).
  { rewrite !JSONRequest_state. unfold set_Embedded at 2. cbn [Embedded].
    rewrite (st_again_state _ _ (Embedded.Parse_again (Embedded c))).
    destruct c; reflexivity. }
  destruct m; simpl; [exact HJ|rewrite SendWebHook_state; exact HJ|reflexivity].
Qed.

(** Along any schedule the hook is the initial one or the one
    [JSONRequest] leaves. *)
Lemma exec_cases sched c n : exec sched c n = c \/ exec sched c n = run_state JSONRequest c.
Proof.
  induction n as [|n [IH|IH]]; [left; reflexivity| |];
    change (exec sched c (S n)) with (call_state (sched n) (exec sched c n)); rewrite IH.
  - destruct (renders (sched n)) eqn:R; [right; apply call_state_renders, R|left].
    destruct (sched n); try discriminate R; reflexivity.
  - right. apply call_state_rendered.
Qed.

End Exec.

(** * Theorems *)

(** C22: liveness of the client's executions: in any schedule of method
    calls that renders at step [k] (a [JSONRequest] or a [SendWebHook]),
    the hook stops changing after that step, and the state it keeps is
    the one a single [JSONRequest] leaves on the initial hook, whatever
    the calls before and after are. *)
Theorem exec_stabilizes `{Transport} sched c k :
  renders (sched k) = true ->
  forall n, (S k <= n)%nat -> exec sched c n = run_state JSONRequest c.
Proof.
  intros Hk n Hn. induction Hn as [|n Hn IH].
  - change (exec sched c (S k)) with (call_state (sched k) (exec sched c k)).
    rewrite (call_state_renders _ _ Hk).
    destruct (exec_cases sched c k) as [->| ->]; [reflexivity|exact (call_state_rendered CallJSONRequest c)].
  - change (exec sched c (S n)) with (call_state (sched n) (exec sched c n)).
    rewrite IH. apply call_state_rendered.
Qed.

(** ** Witnesses *)

Lemma exec_stabilizes_witness :
  let sched := fun n => match n with O => CallClose | 1 => CallSendWebHook | _ => CallJSONRequest end in
  let c := mkHook "" "" "https://h/x" "hi" false
             (Embedded.mkEMBEDDED Color.Empty Author.Empty Title.Empty (Url.mkURL "" "https://u")
                Description.Empty [] Image.Empty Thumbnail.Empty Footer.Empty Timestamp.Empty) in
  renders (sched 1%nat) = true /\ @exec loopback sched c 5 = run_state JSONRequest c.
Proof.
  intros sched c. split; [reflexivity|]. apply (@exec_stabilizes loopback sched c 1); [reflexivity|lia].
Defined.

End Session.
