(* ===== verification/JsonRead.v ===== *)
(** * JsonRead: a reference JSON reader and the texts that encode a value

    Nothing in [src/] reads JSON; this file is the reference the body of
    the webhook is judged against ([Json] states the judgement).

    - [json] is the JSON value type and [parse_json] an executable reader
      for the part of RFC 8259 the program emits (objects, arrays, strings
      with the short escapes, [true], [false], [null]; it has no numbers
      and no [\u] escapes).  Its fuel is the length of the input plus one.
    - [value_enc], [members_enc] and [elems_enc] describe, as mutually
      inductive relations, the texts that encode a value, a member list and
      an element list, with the whitespace the format strings put around
      them; [frag_enc] is a fragment that is empty or encodes members.
    - [parse_enc] proves, by the relations' combined induction, that the
      reader returns the encoded value on every such text with the fuel it
      is given; the rest of the file builds encodings from smaller ones
      (comma joins, whitespace, wrapping in braces or brackets). *)

From Stdlib Require Import String Ascii ZArith List Lia Bool.
From S2P Require Import Prelude.
Import ListNotations.
Local Open Scope webhook_scope.
Local Open Scope string_scope.

Module JsonRead.

(** Nested in [list] and [prod]: no generated induction principle (the
    proofs below go by induction on the encodings instead). *)
Unset Elimination Schemes.
Inductive json : Type :=
| JNull
| JBool (b : bool)
| JString (s : string)
| JArray (vs : list json)
| JObject (ms : list (string * json)).
Set Elimination Schemes.

(** ** The reader *)

Definition dq : ascii := ascii_of_nat 34.

Definition is_ws (c : ascii) : bool :=
  (c =? " ")%char || (c =? "009")%char || (c =? "010")%char || (c =? "013")%char.

Fixpoint skip_ws (s : string) : string :=
  match s with
  | String c r => if is_ws c then skip_ws r else s
  | EmptyString => EmptyString
  end.

Definition is_ctrl (c : ascii) : bool := (N_of_ascii c <? 32)%N.

(** The short escapes of RFC 8259, section 7. *)
Definition unescape (c : ascii) : option ascii :=
  if (c =? dq)%char then Some dq
  else if (c =? "\")%char then Some "\"%char
  else if (c =? "/")%char then Some "/"%char
  else if (c =? "b")%char then Some "008"%char
  else if (c =? "f")%char then Some "012"%char
  else if (c =? "n")%char then Some "010"%char
  else if (c =? "r")%char then Some "013"%char
  else if (c =? "t")%char then Some "009"%char
  else None.

(** The characters of a string after its opening quote, up to and
    including the closing one. *)
Fixpoint parse_chars (s : string) : option (string * string) :=
  match s with
  | EmptyString => None
  | String c r =>
      if (c =? dq)%char then Some (EmptyString, r)
      else if (c =? "\")%char then
        match r with
        | String e r' =>
            match unescape e, parse_chars r' with
            | Some c', Some (x, r'') => Some (String c' x, r'')
            | _, _ => None
            end
        | EmptyString => None
        end
      else if is_ctrl c then None
      else match parse_chars r with
           | Some (x, r') => Some (String c x, r')
           | None => None
           end
  end.

Fixpoint strip_prefix (p s : string) : option string :=
  match p, s with
  | EmptyString, _ => Some s
  | String a p', String b s' => if (a =? b)%char then strip_prefix p' s' else None
  | String _ _, EmptyString => None
  end.

(** The byte [c] after optional whitespace, and the input after it. *)
Definition expect (c : ascii) (s : string) : option string :=
  match skip_ws s with
  | String d r => if (d =? c)%char then Some r else None
  | EmptyString => None
  end.

Fixpoint parse_value (fuel : nat) (s : string) {struct fuel} : option (json * string) :=
  match fuel with
  | O => None
  | S f =>
      match skip_ws s with
      | String c r =>
          if (c =? "{")%char then
            match expect "}" r with
            | Some r' => Some (JObject [], r')
            | None => match parse_members f r with
                      | Some (ms, r') => Some (JObject ms, r')
                      | None => None
                      end
            end
          else if (c =? "[")%char then
            match expect "]" r with
            | Some r' => Some (JArray [], r')
            | None => match parse_elems f r with
                      | Some (vs, r') => Some (JArray vs, r')
                      | None => None
                      end
            end
          else if (c =? dq)%char then
            match parse_chars r with
            | Some (x, r') => Some (JString x, r')
            | None => None
            end
          else match strip_prefix "true" (String c r) with
               | Some r' => Some (JBool true, r')
               | None =>
                   match strip_prefix "false" (String c r) with
                   | Some r' => Some (JBool false, r')
                   | None =>
                       match strip_prefix "null" (String c r) with
                       | Some r' => Some (JNull, r')
                       | None => None
                       end
                   end
               end
      | EmptyString => None
      end
  end
with parse_members (fuel : nat) (s : string) {struct fuel} : option (list (string * json) * string) :=
  match fuel with
  | O => None
  | S f =>
      match expect dq s with
      | Some r =>
          match parse_chars r with
          | Some (k, r1) =>
              match expect ":" r1 with
              | Some r2 =>
                  match parse_value f r2 with
                  | Some (v, r3) =>
                      match expect "," r3 with
                      | Some r4 =>
                          match parse_members f r4 with
                          | Some (ms, r5) => Some ((k, v) :: ms, r5)
                          | None => None
                          end
                      | None =>
                          match expect "}" r3 with
                          | Some r4 => Some ([(k, v)], r4)
                          | None => None
                          end
                      end
                  | None => None
                  end
              | None => None
              end
          | None => None
          end
      | None => None
      end
  end
with parse_elems (fuel : nat) (s : string) {struct fuel} : option (list json * string) :=
  match fuel with
  | O => None
  | S f =>
      match parse_value f s with
      | Some (v, r1) =>
          match expect "," r1 with
          | Some r2 =>
              match parse_elems f r2 with
              | Some (vs, r3) => Some (v :: vs, r3)
              | None => None
              end
          | None =>
              match expect "]" r1 with
              | Some r2 => Some ([v], r2)
              | None => None
              end
          end
      | None => None
      end
  end.

(** A whole document: one value and nothing but whitespace after it. *)
Definition parse_json (s : string) : option json :=
  match parse_value (S (String.length s)) s with
  | Some (v, r) => if is_empty (skip_ws r) then Some v else None
  | None => None
  end.

(** ** The texts that encode a value

    [all_ws w]: [w] is whitespace only.  [safe x]: [x] can stand between
    quotes as it is (no quote, no backslash, no control byte). *)
Fixpoint all_ws (s : string) : bool :=
  match s with
  | EmptyString => true
  | String c r => is_ws c && all_ws r
  end.

Definition safe_char (c : ascii) : bool :=
  negb (c =? dq)%char && negb (c =? "\")%char && negb (is_ctrl c).

Fixpoint safe (s : string) : bool :=
  match s with
  | EmptyString => true
  | String c r => safe_char c && safe r
  end.

Inductive value_enc : string -> json -> Prop :=
| enc_string x :
    safe x = true -> value_enc (qv x) (JString x)
| enc_object_nil w :
    all_ws w = true -> value_enc ("{" ++ w ++ "}") (JObject [])
| enc_object s ms :
    members_enc s ms -> value_enc ("{" ++ s ++ "}") (JObject ms)
| enc_array s vs :
    elems_enc s vs -> value_enc ("[" ++ s ++ "]") (JArray vs)
with members_enc : string -> list (string * json) -> Prop :=
| enc_member w1 k w2 w3 sv v w4 :
    all_ws w1 = true -> safe k = true -> all_ws w2 = true -> all_ws w3 = true ->
    value_enc sv v -> all_ws w4 = true ->
    members_enc (w1 ++ qv k ++ w2 ++ ":" ++ w3 ++ sv ++ w4) [(k, v)]
| enc_member_cons w1 k w2 w3 sv v w4 s ms :
    all_ws w1 = true -> safe k = true -> all_ws w2 = true -> all_ws w3 = true ->
    value_enc sv v -> all_ws w4 = true -> members_enc s ms ->
    members_enc (w1 ++ qv k ++ w2 ++ ":" ++ w3 ++ sv ++ w4 ++ "," ++ s) ((k, v) :: ms)
with elems_enc : string -> list json -> Prop :=
| enc_elem w1 sv v w2 :
    all_ws w1 = true -> value_enc sv v -> all_ws w2 = true ->
    elems_enc (w1 ++ sv ++ w2) [v]
| enc_elem_cons w1 sv v w2 s vs :
    all_ws w1 = true -> value_enc sv v -> all_ws w2 = true -> elems_enc s vs ->
    elems_enc (w1 ++ sv ++ w2 ++ "," ++ s) (v :: vs).

Scheme value_enc_mut := Induction for value_enc Sort Prop
with members_enc_mut := Induction for members_enc Sort Prop
with elems_enc_mut := Induction for elems_enc Sort Prop.
Combined Scheme enc_mutind from value_enc_mut, members_enc_mut, elems_enc_mut.

(** A fragment the program appends: empty and standing for no member, or
    the encoding of its members. *)
Definition frag_enc (x : string) (ms : list (string * json)) : Prop :=
  (x = "" /\ ms = []) \/ members_enc x ms.

(** ** The reader on encoded texts *)

Lemma skip_ws_ws w r : all_ws w = true -> skip_ws (w ++ r) = skip_ws r.
Proof.
  induction w as [|c w IH]; [reflexivity|]. simpl. intros H.
  apply andb_true_iff in H as [Hc Hw]. rewrite Hc. exact (IH Hw).
Qed.

Lemma qv_app x r : qv x ++ r = String dq (x ++ String dq r).
Proof. unfold qv. simpl. rewrite append_assoc_s. reflexivity. Qed.

Lemma parse_chars_safe x r : safe x = true -> parse_chars (x ++ String dq r) = Some (x, r).
Proof.
  induction x as [|c x IH]; [reflexivity|]. simpl. intros H.
  apply andb_true_iff in H as [Hc Hx]. unfold safe_char in Hc.
  apply andb_true_iff in Hc as [Hc Hctl]. apply andb_true_iff in Hc as [Hq Hb].
  apply negb_true_iff in Hq, Hb, Hctl. rewrite Hq, Hb, Hctl, (IH Hx). reflexivity.
Qed.

Lemma expect_ws c w r : all_ws w = true -> expect c (w ++ r) = expect c r.
Proof. intros Hw. unfold expect. rewrite (skip_ws_ws w r Hw). reflexivity. Qed.

Lemma expect_skip c r r' : skip_ws r = String c r' -> expect c r = Some r'.
Proof. intros H. unfold expect. rewrite H, Ascii.eqb_refl. reflexivity. Qed.

Lemma expect_hit c r : is_ws c = false -> expect c (String c r) = Some r.
Proof. intros H. unfold expect. simpl. rewrite H, Ascii.eqb_refl. reflexivity. Qed.

Lemma expect_hit_app c r : is_ws c = false -> expect c (String c EmptyString ++ r) = Some r.
Proof. exact (expect_hit c r). Qed.

Lemma expect_other c d r r' : skip_ws r = String d r' -> d <> c -> expect c r = None.
Proof. intros H Hd. unfold expect. rewrite H. destruct (Ascii.eqb_spec d c); [contradiction|reflexivity]. Qed.

Lemma parse_value_ws f w s : all_ws w = true -> parse_value f (w ++ s) = parse_value f s.
Proof. intros Hw. destruct f; [reflexivity|]. simpl. rewrite (skip_ws_ws w s Hw). reflexivity. Qed.

(** The first byte of an encoded value: a quote, a brace or a bracket. *)
Lemma value_enc_head sv v :
  value_enc sv v -> exists c t, sv = String c t /\ (c = dq \/ c = "{"%char \/ c = "["%char).
Proof.
  destruct 1.
  - exists dq, (x ++ dquote). split; [reflexivity|auto].
  - eexists _, _. split; [reflexivity|auto].
  - eexists _, _. split; [reflexivity|auto].
  - eexists _, _. split; [reflexivity|auto].
Qed.

Lemma members_enc_head s ms r : members_enc s ms -> exists t, skip_ws (s ++ r) = String dq t.
Proof.
  destruct 1; rewrite !append_assoc_s, skip_ws_ws by assumption; rewrite qv_app; eexists; reflexivity.
Qed.

Lemma elems_enc_head s vs r :
  elems_enc s vs -> exists c t, skip_ws (s ++ r) = String c t /\ c <> "]"%char.
Proof.
  destruct 1 as [w1 sv v w2 H1 Hv H2|w1 sv v w2 s vs H1 Hv H2 Hs];
    rewrite !append_assoc_s, skip_ws_ws by assumption;
    destruct (value_enc_head _ _ Hv) as (c & t & -> & Hc);
    destruct Hc as [E|[E|E]]; subst c; (eexists _, _; split; [reflexivity|discriminate]).
Qed.

(** Lengths of encodings: the one hypothesis on the fuel, flattened. *)
Ltac len_tac :=
  match goal with
  | Hf : (String.length _ < _)%nat |- _ =>
      repeat (rewrite length_append_s in Hf || rewrite qv_app in Hf); simpl String.length in Hf;
      repeat rewrite length_append_s; lia
  | Hf : (S (String.length _) < _)%nat |- _ =>
      repeat (rewrite length_append_s in Hf || rewrite qv_app in Hf); simpl String.length in Hf;
      repeat rewrite length_append_s; lia
  end.

(** The reader returns the encoded value, member list or element list,
    leaving the rest of the input, when its fuel exceeds the length of
    the encoding. *)
Lemma parse_enc :
  (forall sv v, value_enc sv v ->
     forall f r, (String.length sv < f)%nat -> parse_value f (sv ++ r) = Some (v, r)) /\
  (forall s ms, members_enc s ms ->
     forall f r r', (String.length s < f)%nat -> skip_ws r = String "}" r' ->
     parse_members f (s ++ r) = Some (ms, r')) /\
  (forall s vs, elems_enc s vs ->
     forall f r r', (S (String.length s) < f)%nat -> skip_ws r = String "]" r' ->
     parse_elems f (s ++ r) = Some (vs, r')).
Proof.
  apply enc_mutind.
  - intros x Hx f r Hf. destruct f as [|f]; [lia|].
    rewrite qv_app. simpl. rewrite parse_chars_safe by exact Hx. reflexivity.
  - intros w Hw f r Hf. destruct f as [|f]; [lia|]. rewrite !append_assoc_s. simpl.
    rewrite (expect_skip "}" (w ++ String "}" r) r) by (rewrite skip_ws_ws by exact Hw; reflexivity).
    reflexivity.
  - intros s ms Hs IH f r Hf. destruct f as [|f]; [lia|]. rewrite !append_assoc_s. simpl.
    destruct (members_enc_head s ms (String "}" r) Hs) as [t Ht].
    rewrite (expect_other "}" dq _ t Ht) by discriminate.
    rewrite (IH f (String "}" r) r) by (reflexivity || (simpl in Hf; rewrite length_append_s in Hf; simpl in Hf; lia)).
    reflexivity.
  - intros s vs Hs IH f r Hf. destruct f as [|f]; [lia|]. rewrite !append_assoc_s. simpl.
    destruct (elems_enc_head s vs (String "]" r) Hs) as (c & t & Ht & Hc).
    rewrite (expect_other "]" c _ t Ht Hc).
    rewrite (IH f (String "]" r) r) by (reflexivity || (simpl in Hf; rewrite length_append_s in Hf; simpl in Hf; lia)).
    reflexivity.
  - intros w1 k w2 w3 sv v w4 H1 Hk H2 H3 Hv IH H4 f r r' Hf Hr.
    destruct f as [|f]; [lia|]. rewrite !append_assoc_s. cbn [parse_members parse_elems].
    rewrite expect_ws, qv_app by exact H1. rewrite expect_hit by reflexivity.
    rewrite parse_chars_safe by exact Hk.
    rewrite expect_ws by exact H2. rewrite expect_hit_app by reflexivity.
    rewrite parse_value_ws by exact H3. rewrite IH by len_tac.
    rewrite !(expect_ws _ w4) by exact H4. rewrite (expect_other "," "}" r r' Hr) by discriminate.
    rewrite (expect_skip "}" r r' Hr). reflexivity.
  - intros w1 k w2 w3 sv v w4 s ms H1 Hk H2 H3 Hv IHv H4 Hs IHs f r r' Hf Hr.
    destruct f as [|f]; [lia|]. rewrite !append_assoc_s. cbn [parse_members parse_elems].
    rewrite expect_ws, qv_app by exact H1. rewrite expect_hit by reflexivity.
    rewrite parse_chars_safe by exact Hk.
    rewrite expect_ws by exact H2. rewrite expect_hit_app by reflexivity.
    rewrite parse_value_ws by exact H3. rewrite IHv by len_tac.
    rewrite !(expect_ws _ w4) by exact H4. rewrite expect_hit_app by reflexivity.
    rewrite (IHs f r r') by (assumption || len_tac). reflexivity.
  - intros w1 sv v w2 H1 Hv IH H2 f r r' Hf Hr.
    destruct f as [|f]; [lia|]. rewrite !append_assoc_s. cbn [parse_members parse_elems].
    rewrite parse_value_ws by exact H1. rewrite IH by len_tac.
    rewrite !(expect_ws _ w2) by exact H2. rewrite (expect_other "," "]" r r' Hr) by discriminate.
    rewrite (expect_skip "]" r r' Hr). reflexivity.
  - intros w1 sv v w2 s vs H1 Hv IHv H2 Hs IHs f r r' Hf Hr.
    destruct f as [|f]; [lia|]. rewrite !append_assoc_s. cbn [parse_members parse_elems].
    rewrite parse_value_ws by exact H1. rewrite IHv by len_tac.
    rewrite !(expect_ws _ w2) by exact H2. rewrite expect_hit_app by reflexivity.
    rewrite (IHs f r r') by (assumption || len_tac). reflexivity.
Qed.

(** A document that encodes [v] is read as [v]. *)
Lemma parse_json_enc s v : value_enc s v -> parse_json s = Some v.
Proof.
  intros H. unfold parse_json.
  pose proof (proj1 parse_enc s v H (S (String.length s)) "" ltac:(lia)) as E.
  rewrite append_empty_r in E. rewrite E. reflexivity.
Qed.

(** ** Building encodings *)

Lemma safe_app a b : safe (a ++ b) = safe a && safe b.
Proof. induction a as [|c a IH]; [reflexivity|]. simpl. rewrite IH. apply andb_assoc. Qed.

Lemma all_ws_app a b : all_ws (a ++ b) = all_ws a && all_ws b.
Proof. induction a as [|c a IH]; [reflexivity|]. simpl. rewrite IH. apply andb_assoc. Qed.

Lemma all_ws_app_true a b : all_ws a = true -> all_ws b = true -> all_ws (a ++ b) = true.
Proof. intros Ha Hb. rewrite all_ws_app, Ha, Hb. reflexivity. Qed.

Lemma enc_kv w1 k w3 sv v w4 :
  all_ws w1 = true -> safe k = true -> all_ws w3 = true -> value_enc sv v -> all_ws w4 = true ->
  members_enc (w1 ++ qv k ++ ":" ++ w3 ++ sv ++ w4) [(k, v)].
Proof. intros H1 Hk H3 Hv H4. exact (enc_member w1 k "" w3 sv v w4 H1 Hk eq_refl H3 Hv H4). Qed.

Lemma members_enc_nonempty s ms : members_enc s ms -> s <> "".
Proof. destruct 1; apply append_nonempty_r, append_nonempty_l, qv_nonempty. Qed.

Lemma members_enc_app s1 ms1 s2 ms2 :
  members_enc s1 ms1 -> members_enc s2 ms2 -> members_enc (s1 ++ "," ++ s2) (ms1 ++ ms2).
Proof.
  intros H1 H2. induction H1; rewrite !append_assoc_s; simpl app.
  - apply enc_member_cons; assumption.
  - apply enc_member_cons; assumption.
Qed.

Lemma members_enc_ws_l w s ms : all_ws w = true -> members_enc s ms -> members_enc (w ++ s) ms.
Proof.
  intros Hw H. destruct H; rewrite <- append_assoc_s; constructor; try assumption;
    apply all_ws_app_true; assumption.
Qed.

Lemma members_enc_ws_r w s ms : all_ws w = true -> members_enc s ms -> members_enc (s ++ w) ms.
Proof.
  intros Hw H. induction H; rewrite !append_assoc_s.
  - apply enc_member; try assumption. apply all_ws_app_true; assumption.
  - apply enc_member_cons; assumption.
Qed.

Lemma elems_enc_ws_l w s vs : all_ws w = true -> elems_enc s vs -> elems_enc (w ++ s) vs.
Proof.
  intros Hw H. destruct H; rewrite <- append_assoc_s; constructor; try assumption;
    apply all_ws_app_true; assumption.
Qed.

Lemma elems_enc_ws_r w s vs : all_ws w = true -> elems_enc s vs -> elems_enc (s ++ w) vs.
Proof.
  intros Hw H. induction H; rewrite !append_assoc_s.
  - apply enc_elem; try assumption. apply all_ws_app_true; assumption.
  - apply enc_elem_cons; assumption.
Qed.

(** The comma join of fragments encodes the concatenation of their
    members. *)
Lemma join_enc xs mss : Forall2 frag_enc xs mss -> frag_enc (join_nonempty xs) (concat mss).
Proof.
  induction 1 as [|x ms xs mss Hx _ IH]; [left; split; reflexivity|].
  rewrite join_nonempty_cons. simpl concat.
  destruct Hx as [[-> ->]|Hx]; [exact IH|].
  pose proof (members_enc_nonempty _ _ Hx) as Hne. apply is_empty_false in Hne. rewrite Hne.
  destruct IH as [[E ->]|IH].
  - rewrite E. simpl is_empty. cbv iota. right. rewrite app_nil_r. exact Hx.
  - pose proof (members_enc_nonempty _ _ IH) as Hne'. apply is_empty_false in Hne'.
    rewrite Hne'. right. apply members_enc_app; assumption.
Qed.

(** ["{ " ++ x ++ " }"], the wrapping of [JSONRequest], AUTHOR and FIELDS. *)
Lemma obj_wrap x ms : frag_enc x ms -> value_enc ("{ " ++ x ++ " }") (JObject ms).
Proof.
  intros [[-> ->]|H]; [exact (enc_object_nil "  " eq_refl)|].
  replace ("{ " ++ x ++ " }") with ("{" ++ (" " ++ x ++ " ") ++ "}")
    by (rewrite !append_assoc_s; reflexivity).
  apply enc_object, (members_enc_ws_l " "), (members_enc_ws_r " "); auto.
Qed.

(** A list of encoded values, comma-joined, encodes the element list. *)
Lemma elems_concat svs vs :
  Forall2 value_enc svs vs -> vs <> [] -> elems_enc (String.concat "," svs) vs.
Proof.
  induction 1 as [|sv v svs vs Hv Hr IH]; [congruence|]. intros _.
  destruct svs as [|sv' svs'].
  - inversion Hr; subst. simpl. rewrite <- (append_empty_r sv).
    exact (enc_elem "" sv v "" eq_refl Hv eq_refl).
  - inversion Hr; subst.
    change (String.concat "," (sv :: sv' :: svs')) with (sv ++ "," ++ String.concat "," (sv' :: svs')).
    exact (enc_elem_cons "" sv v "" _ _ eq_refl Hv eq_refl (IH ltac:(discriminate))).
Qed.

(** ** The parts' fragments *)

Lemma enc_str_end w1 k w3 v :
  all_ws w1 = true -> safe k = true -> all_ws w3 = true -> safe v = true ->
  members_enc (w1 ++ qv k ++ ":" ++ w3 ++ qv v) [(k, JString v)].
Proof.
  intros H1 Hk H3 Hv. rewrite <- (append_empty_r (qv v)).
  exact (enc_kv w1 k w3 (qv v) (JString v) "" H1 Hk H3 (enc_string v Hv) eq_refl).
Qed.

Lemma enc_str w1 k w3 v w4 :
  all_ws w1 = true -> safe k = true -> all_ws w3 = true -> safe v = true -> all_ws w4 = true ->
  members_enc (w1 ++ qv k ++ ":" ++ w3 ++ qv v ++ w4) [(k, JString v)].
Proof. intros H1 Hk H3 Hv H4. exact (enc_kv w1 k w3 (qv v) (JString v) w4 H1 Hk H3 (enc_string v Hv) H4). Qed.

Lemma enc_val_end w1 k w3 sv v :
  all_ws w1 = true -> safe k = true -> all_ws w3 = true -> value_enc sv v ->
  members_enc (w1 ++ qv k ++ ":" ++ w3 ++ sv) [(k, v)].
Proof.
  intros H1 Hk H3 Hv. rewrite <- (append_empty_r sv).
  exact (enc_kv w1 k w3 sv v "" H1 Hk H3 Hv eq_refl).
Qed.

Lemma append_empty_l (r : string) : "" ++ r = r.
Proof. reflexivity. Qed.

Lemma qv_app_eqb k r : (qv k ++ r ==? "") = false.
Proof. rewrite qv_app. reflexivity. Qed.

Lemma members_enc_eq s s' ms : s' = s -> members_enc s ms -> members_enc s' ms.
Proof. intros ->. exact (fun H => H). Qed.

(** Equal up to the association of [++], once the guards on fragments
    that start with a key are decided. *)
Ltac assoc_eq :=
  repeat progress (rewrite ?append_empty_l, ?append_assoc_s, ?qv_app_eqb;
                   cbn [negb go_eqb string_GoEq String.eqb]);
  reflexivity.

(** A non-empty fragment given by the encoding [M] of its members. *)
Ltac frag_by M := right; eapply members_enc_eq; [|exact M]; assoc_eq.

Lemma frag_none : frag_enc "" [].
Proof. left. split; reflexivity. Qed.

Lemma elems_one sv v : value_enc sv v -> elems_enc sv [v].
Proof. intros Hv. rewrite <- (append_empty_r sv). exact (enc_elem "" sv v "" eq_refl Hv eq_refl). Qed.

Lemma members_enc_nil s : ~ members_enc s [].
Proof. inversion 1. Qed.

End JsonRead.
