(* ===== verification/Json.v ===== *)
(** * Json: what the body denotes, read as JSON

    The program writes JSON by concatenating format strings; nothing in
    [src/] reads it back.  The specification (section 4.3 and section 6)
    promises that the body is a JSON object with the keys username,
    avatar_url, content, tts and embeds, and the embed object the keys of
    its parts.  This file states that promise against the reader of
    [JsonRead]:

    - the reader [parse_json] and the encodings are those of [JsonRead];
    - [request_members] and [embed_members] are the message the
      specification describes, built from the hook's fields.

    The refinement theorem [JSONRequest_json] shows that, when the text
    the user supplies contains no quote, no backslash and no control
    byte, the body of [JSONRequest] is read as the object
    [request_members]; [content_injection] shows what happens otherwise:
    a quote in [Content] forges a key of its own. *)

From Stdlib Require Import String Ascii ZArith List Lia Bool.
From S2P Require Import Prelude GoFmt Strconv GoTime Parts Embedded Hook JsonRead.
Import ListNotations.
Local Open Scope webhook_scope.
Local Open Scope string_scope.

Module Json.
Import JsonRead.

(** ** The message the specification describes (section 6)

    Each part stands for the members it contributes to the embed object,
    none when it is zero; a string member is present when its text is
    not empty. *)
Definition str_member (k v : string) : list (string * json) :=
  if v ==? "" then [] else [(k, JString v)].

Definition title_members (t : Title.TITLE) : list (string * json) :=
  str_member "title" (Title.Title t).

Definition description_members (d : Description.DESCRIPTION) : list (string * json) :=
  str_member "description" (Description.Description d).

(** The colour is the decimal string of what [ParseInt] returns. *)
Definition color_members (c : Color.COLOR) : list (string * json) :=
  if c ==? Color.Empty then []
  else [("color", JString (itoa (fst (Strconv.ParseInt (Color.Color c) 16 25))))].

(** The URL part carries a title of its own, the URL when it has none. *)
Definition url_members (u : Url.URL_) : list (string * json) :=
  if u ==? Url.Empty then []
  else [("title", JString (if Url.Title u ==? "" then Url.URL u else Url.Title u));
        ("url", JString (Url.URL u))].

Definition author_members (a : Author.AUTHOR) : list (string * json) :=
  if a ==? Author.Empty then []
  else [("author", JObject (if Author.Name a ==? "" then []
                            else str_member "name" (Author.Name a) ++ str_member "url" (Author.URL a)
                                 ++ str_member "icon_url" (Author.IconURL a)))].

Definition field_json (f : Fields.FIELDS) : json :=
  JObject (str_member "name" (Fields.Name f) ++ str_member "value" (Fields.Value f)
           ++ (if Fields.Inline f then [("inline", JString "true")] else [])).

Definition fields_members (fs : list Fields.FIELDS) : list (string * json) :=
  match filter Embedded.nonzero_field fs with
  | [] => []
  | l => [("fields", JArray (map field_json l))]
  end.

Definition image_members (i : Image.IMAGE) : list (string * json) :=
  if i ==? Image.Empty then [] else [("image", JObject [("url", JString (Image.URL i))])].

Definition thumbnail_members (t : Thumbnail.THUMBNAIL) : list (string * json) :=
  if t ==? Thumbnail.Empty then [] else [("thumbnail", JObject [("url", JString (Thumbnail.URL t))])].

Definition footer_members (f : Footer.FOOTER) : list (string * json) :=
  if f ==? Footer.Empty then []
  else [("footer", JObject (str_member "text" (Footer.Text f) ++ str_member "icon_url" (Footer.IconURL f)))].

(** The timestamp is the parsed time printed back, the zero time when it
    does not parse. *)
Definition timestamp_members (t : Timestamp.TIMESTAMP) : list (string * json) :=
  if t ==? Timestamp.Empty then []
  else [("timestamp", JString (GoTime.format (match GoTime.parse (Timestamp.Time t) with
                                              | Ok x => x
                                              | Err _ => GoTime.zero_time
                                              end)))].

Definition embed_members (e : Embedded.EMBEDDED) : list (string * json) :=
  fields_members (Embedded.Fields e) ++ description_members (Embedded.Description e)
  ++ title_members (Embedded.Title e) ++ author_members (Embedded.Author e)
  ++ color_members (Embedded.Color e) ++ url_members (Embedded.URL e)
  ++ image_members (Embedded.Image e) ++ thumbnail_members (Embedded.Thumbnail e)
  ++ footer_members (Embedded.Footer e) ++ timestamp_members (Embedded.Timestamp e).

(** The top-level object: username, avatar_url, content, tts, embeds. *)
Definition request_members (c : Hook.Hook) : list (string * json) :=
  str_member "username" (Hook.username c) ++ str_member "avatar_url" (Hook.avatarURL c)
  ++ str_member "content" (Hook.Content c)
  ++ (if Hook.Tts c then [("tts", JString "true")] else [])
  ++ match embed_members (Hook.Embedded c) with
     | [] => []
     | ms => [("embeds", JArray [JObject ms])]
     end.

(** Every text the user supplies can stand between quotes as it is. *)
Definition safe_field (f : Fields.FIELDS) : bool :=
  safe (Fields.Name f) && safe (Fields.Value f).

Definition safe_embed (e : Embedded.EMBEDDED) : bool :=
  forallb safe_field (Embedded.Fields e)
  && safe (Description.Description (Embedded.Description e))
  && safe (Title.Title (Embedded.Title e))
  && safe (Author.Name (Embedded.Author e)) && safe (Author.URL (Embedded.Author e))
  && safe (Author.IconURL (Embedded.Author e))
  && safe (Url.Title (Embedded.URL e)) && safe (Url.URL (Embedded.URL e))
  && safe (Image.URL (Embedded.Image e)) && safe (Thumbnail.URL (Embedded.Thumbnail e))
  && safe (Footer.Text (Embedded.Footer e)) && safe (Footer.IconURL (Embedded.Footer e)).

Definition safe_hook (c : Hook.Hook) : bool :=
  safe (Hook.username c) && safe (Hook.avatarURL c) && safe (Hook.Content c)
  && safe_embed (Hook.Embedded c).

(** ** What the program prints between quotes without user text *)

Lemma digit_char_safe d : (0 <= d < 10)%Z -> safe_char (digit_char d) = true.
Proof. intros H. enum_digit d. Qed.

Lemma utoa_loop_safe f u acc : safe acc = true -> safe (utoa_loop f u acc) = true.
Proof.
  revert u acc. induction f as [|f IH]; intros u acc H; [exact H|]. simpl.
  assert (Hd : safe (String (digit_char (u mod 10)) acc) = true).
  { simpl. rewrite digit_char_safe, H by (apply Z.mod_pos_bound; lia). reflexivity. }
  destruct (u <? 10)%Z; [exact Hd|apply IH, Hd].
Qed.

Lemma itoa_safe n : safe (itoa n) = true.
Proof.
  unfold itoa, utoa. destruct (n <? 0)%Z; [rewrite safe_app|]; rewrite utoa_loop_safe; reflexivity.
Qed.

Lemma zeros_safe n : safe (zeros n) = true.
Proof. induction n; [reflexivity|exact IHn]. Qed.

Lemma append_int_safe x w : safe (append_int x w) = true.
Proof.
  unfold append_int, utoa. rewrite !safe_app, zeros_safe, utoa_loop_safe by reflexivity.
  destruct (x <? 0)%Z; reflexivity.
Qed.

Lemma substring_safe n m s : safe s = true -> safe (substring n m s) = true.
Proof.
  revert n m. induction s as [|c s IH]; intros n m H; [destruct n, m; reflexivity|].
  simpl in H. apply andb_true_iff in H as [Hc Hs].
  destruct n as [|n]; [destruct m as [|m]; [reflexivity|]|]; simpl.
  - rewrite Hc, IH by exact Hs. reflexivity.
  - apply IH, Hs.
Qed.

Lemma format_safe t : safe (GoTime.format t) = true.
Proof.
  unfold GoTime.format, GoTime.append_nano4.
  rewrite !safe_app, !append_int_safe, substring_safe by apply append_int_safe. reflexivity.
Qed.

(** ** The parts' fragments *)

Lemma title_frag t : safe (Title.Title t) = true -> frag_enc (run_val Title.Parse t) (title_members t).
Proof.
  intros Hs. unfold run_val, Title.Parse. rewrite pure_parse_run. cbn [fst].
  unfold title_members, str_member. change (t ==? Title.Empty) with (Title.Title t ==? "").
  destruct (Title.Title t ==? ""); [exact frag_none|right].
  exact (enc_str_end "" "title" " " _ eq_refl eq_refl eq_refl Hs).
Qed.

Lemma description_frag d :
  safe (Description.Description d) = true ->
  frag_enc (run_val Description.Parse d) (description_members d).
Proof.
  intros Hs. unfold run_val, Description.Parse. rewrite pure_parse_run. cbn [fst].
  unfold description_members, str_member.
  change (d ==? Description.Empty) with (Description.Description d ==? "").
  destruct (Description.Description d ==? ""); [exact frag_none|right].
  exact (enc_str " " "description" " " _ " " eq_refl eq_refl eq_refl Hs eq_refl).
Qed.

Lemma color_frag c : frag_enc (run_val Color.Parse c) (color_members c).
Proof.
  unfold run_val. rewrite Color_Parse_run. unfold color_members.
  destruct (c ==? Color.Empty); [exact frag_none|right].
  exact (enc_str "" "color" " " _ " " eq_refl eq_refl eq_refl (itoa_safe _) eq_refl).
Qed.

Lemma image_frag i : safe (Image.URL i) = true -> frag_enc (run_val Image.Parse i) (image_members i).
Proof.
  intros Hs. unfold run_val, Image.Parse. rewrite pure_parse_run. cbn [fst].
  unfold image_members. destruct (i ==? Image.Empty); [exact frag_none|right].
  eapply members_enc_eq;
    [|exact (enc_val_end "" "image" " " _ _ eq_refl eq_refl eq_refl
               (obj_wrap _ _ (or_intror (enc_str_end "" "url" " " _ eq_refl eq_refl eq_refl Hs))))].
  assoc_eq.
Qed.

Lemma thumbnail_frag t :
  safe (Thumbnail.URL t) = true -> frag_enc (run_val Thumbnail.Parse t) (thumbnail_members t).
Proof.
  intros Hs. unfold run_val, Thumbnail.Parse. rewrite pure_parse_run. cbn [fst].
  unfold thumbnail_members. destruct (t ==? Thumbnail.Empty); [exact frag_none|right].
  eapply members_enc_eq;
    [|exact (enc_val_end "" "thumbnail" " " _ _ eq_refl eq_refl eq_refl
               (obj_wrap _ _ (or_intror (enc_str_end "" "url" " " _ eq_refl eq_refl eq_refl Hs))))].
  assoc_eq.
Qed.

Lemma timestamp_frag t : frag_enc (run_val Timestamp.Parse t) (timestamp_members t).
Proof.
  unfold run_val. rewrite Timestamp_Parse_run. unfold timestamp_members.
  destruct (t ==? Timestamp.Empty); [exact frag_none|right].
  destruct (GoTime.parse (Timestamp.Time t));
    exact (enc_str_end "" "timestamp" " " _ eq_refl eq_refl eq_refl (format_safe _)).
Qed.

Lemma url_frag u :
  safe (Url.Title u) = true -> safe (Url.URL u) = true ->
  frag_enc (run_val Url.Parse u) (url_members u).
Proof.
  intros Ht Hu. unfold run_val. rewrite Url_Parse_run. unfold url_members.
  destruct (u ==? Url.Empty); [exact frag_none|right]. cbn zeta.
  destruct u as [t x]. cbn [Url.Title Url.URL] in *.
  destruct t as [|c t']; cbn [fst Url.Title Url.URL go_eqb string_GoEq String.eqb];
    [pose proof Hu as HT|pose proof Ht as HT];
    (eapply members_enc_eq;
     [|exact (members_enc_app _ [_] _ [_]
                (enc_str_end "" "title" " " _ eq_refl eq_refl eq_refl HT)
                (enc_str " " "url" " " _ " " eq_refl eq_refl eq_refl Hu eq_refl))]);
    assoc_eq.
Qed.

(** The members of AUTHOR's object: none without a name. *)
Lemma auth_frag a :
  safe (Author.Name a) = true -> safe (Author.URL a) = true -> safe (Author.IconURL a) = true ->
  frag_enc (Author.auth a)
    (if Author.Name a ==? "" then []
     else str_member "name" (Author.Name a) ++ str_member "url" (Author.URL a)
          ++ str_member "icon_url" (Author.IconURL a)).
Proof.
  destruct a as [n u i]. unfold Author.auth, str_member. cbn [Author.Name Author.URL Author.IconURL].
  intros Hn Hu Hi.
  pose proof (enc_str "" "name" " " n " " eq_refl eq_refl eq_refl Hn eq_refl) as Mn.
  pose proof (enc_str " " "url" " " u " " eq_refl eq_refl eq_refl Hu eq_refl) as Mu.
  pose proof (enc_str " " "icon_url" " " i " " eq_refl eq_refl eq_refl Hi eq_refl) as Mi.
  destruct (n ==? "") eqn:En; [exact frag_none|right]. cbn [negb].
  destruct (u ==? ""), (i ==? ""); cbn [negb app].
  - exact Mn.
  - eapply members_enc_eq; [|exact (members_enc_app _ [_] _ [_] Mn Mi)]. assoc_eq.
  - eapply members_enc_eq; [|exact (members_enc_app _ [_] _ [_] Mn Mu)]. assoc_eq.
  - eapply members_enc_eq;
      [|exact (members_enc_app _ [_] _ [_; _] Mn (members_enc_app _ [_] _ [_] Mu Mi))].
    assoc_eq.
Qed.

Lemma author_frag a :
  safe (Author.Name a) = true -> safe (Author.URL a) = true -> safe (Author.IconURL a) = true ->
  frag_enc (run_val Author.Parse a) (author_members a).
Proof.
  intros Hn Hu Hi. unfold run_val, Author.Parse. rewrite pure_parse_run. cbn [fst].
  unfold author_members. destruct (a ==? Author.Empty); [exact frag_none|right].
  eapply members_enc_eq;
    [|exact (enc_val_end "" "author" " " _ _ eq_refl eq_refl eq_refl
               (obj_wrap _ _ (auth_frag a Hn Hu Hi)))].
  assoc_eq.
Qed.

Lemma footer_frag f :
  safe (Footer.Text f) = true -> safe (Footer.IconURL f) = true ->
  frag_enc (run_val Footer.Parse f) (footer_members f).
Proof.
  intros Ht Hi. unfold run_val, Footer.Parse. rewrite pure_parse_run. cbn [fst].
  unfold footer_members. destruct f as [t i]. unfold Footer.foot, str_member.
  cbn [Footer.Text Footer.IconURL] in *.
  change (Footer.mkFOOTER t i ==? Footer.Empty) with ((t ==? "") && (i ==? "")).
  pose proof (enc_str_end "" "text" " " t eq_refl eq_refl eq_refl Ht) as Mt.
  pose proof (enc_str_end "" "icon_url" " " i eq_refl eq_refl eq_refl Hi) as Mi.
  destruct (t ==? ""), (i ==? ""); cbn [andb negb app]; [exact frag_none|right..].
  - eapply members_enc_eq; [|exact (enc_val_end "" "footer" " " _ _ eq_refl eq_refl eq_refl (enc_object _ _ Mi))].
    assoc_eq.
  - eapply members_enc_eq; [|exact (enc_val_end "" "footer" " " _ _ eq_refl eq_refl eq_refl (enc_object _ _ Mt))].
    assoc_eq.
  - eapply members_enc_eq;
      [|exact (enc_val_end "" "footer" " " _ _ eq_refl eq_refl eq_refl
                 (enc_object _ _ (members_enc_app _ [_] _ [_] Mt Mi)))].
    assoc_eq.
Qed.

(** The members of one field object, in the order name, value, inline. *)
Lemma field_frag f :
  safe_field f = true ->
  frag_enc (Fields.field f)
    (str_member "name" (Fields.Name f) ++ str_member "value" (Fields.Value f)
     ++ (if Fields.Inline f then [("inline", JString "true")] else [])).
Proof.
  destruct f as [n v b]. unfold safe_field, Fields.field, str_member.
  cbn [Fields.Name Fields.Value Fields.Inline]. intros H. apply andb_true_iff in H as [Hn Hv].
  pose proof (enc_str "" "name" " " n " " eq_refl eq_refl eq_refl Hn eq_refl) as Mn.
  pose proof (enc_str "" "value" " " v " " eq_refl eq_refl eq_refl Hv eq_refl) as Mv.
  pose proof (enc_str "" "inline" " " "true" " " eq_refl eq_refl eq_refl eq_refl eq_refl) as Mb.
  destruct (n ==? ""), (v ==? ""), b;
    cbn [negb app go_eqb bool_GoEq Bool.eqb format_bool string_GoEq String.eqb].
  - frag_by Mb.
  - exact frag_none.
  - frag_by (members_enc_app _ [_] _ [_] Mv Mb).
  - frag_by Mv.
  - frag_by (members_enc_app _ [_] _ [_] Mn Mb).
  - frag_by Mn.
  - frag_by (members_enc_app _ [_] _ [_; _] Mn (members_enc_app _ [_] _ [_] Mv Mb)).
  - frag_by (members_enc_app _ [_] _ [_] Mn Mv).
Qed.

Lemma fields_values fs :
  forallb safe_field fs = true ->
  Forall2 value_enc (map Embedded.field_object fs) (map field_json fs).
Proof.
  induction fs as [|f fs IH]; [constructor|]. cbn [forallb map].
  intros H. apply andb_true_iff in H as [Hf Hfs]. constructor; [|exact (IH Hfs)].
  apply obj_wrap, field_frag, Hf.
Qed.

Lemma forallb_filter {A} (p q : A -> bool) l :
  forallb p l = true -> forallb p (filter q l) = true.
Proof.
  induction l as [|x l IH]; [reflexivity|]. cbn [forallb filter].
  intros H. apply andb_true_iff in H as [Hx Hl].
  destruct (q x); [cbn [forallb]; rewrite Hx|]; exact (IH Hl).
Qed.

Lemma fields_frag e :
  forallb safe_field (Embedded.Fields e) = true ->
  frag_enc (run_val Embedded.parseFields e) (fields_members (Embedded.Fields e)).
Proof.
  intros Hs. rewrite Embedded.parseFields_val, Embedded.fields_loop_join. unfold fields_members.
  pose proof (forallb_filter safe_field Embedded.nonzero_field _ Hs) as Hf.
  destruct (filter Embedded.nonzero_field (Embedded.Fields e)) as [|f fs]; [exact frag_none|].
  cbn [map]. rewrite (proj2 (go_eqb_false _ _))
    by (apply concat_head_nonempty; unfold Embedded.field_object; discriminate).
  frag_by (enc_val_end "" "fields" " " _ _ eq_refl eq_refl eq_refl
             (enc_array _ _ (elems_enc_ws_l " " _ _ eq_refl (elems_enc_ws_r " " _ _ eq_refl
                (elems_concat _ _ (fields_values (f :: fs) Hf) ltac:(discriminate)))))).
Qed.

(** Destructure a conjunction of boolean tests into its hypotheses. *)
Ltac split_safe H :=
  repeat rewrite andb_true_iff in H;
  repeat match goal with
         | H' : _ /\ _ |- _ => destruct H' as [? ?]
         end.

(** The fragments of [EMBEDDED.Parse], joined, encode the embed's members. *)
Lemma embed_join_frag e :
  safe_embed e = true -> frag_enc (join_nonempty (Embedded.fragments e)) (embed_members e).
Proof.
  intros Hs. unfold safe_embed in Hs. split_safe Hs.
  assert (HF : Forall2 frag_enc (Embedded.fragments e)
    [fields_members (Embedded.Fields e); description_members (Embedded.Description e);
     title_members (Embedded.Title e); author_members (Embedded.Author e);
     color_members (Embedded.Color e); url_members (Embedded.URL e);
     image_members (Embedded.Image e); thumbnail_members (Embedded.Thumbnail e);
     footer_members (Embedded.Footer e); timestamp_members (Embedded.Timestamp e)]).
  { unfold Embedded.fragments.
    repeat apply Forall2_cons; try apply Forall2_nil;
      first [ apply fields_frag | apply description_frag | apply title_frag
            | apply author_frag | apply color_frag | apply url_frag | apply image_frag
            | apply thumbnail_frag | apply footer_frag | apply timestamp_frag ]; assumption. }
  pose proof (join_enc _ _ HF) as J. cbn [concat] in J. rewrite app_nil_r in J. exact J.
Qed.

Lemma embed_frag e :
  safe_embed e = true ->
  frag_enc (run_val Embedded.Parse e)
    (match embed_members e with [] => [] | ms => [("embeds", JArray [JObject ms])] end).
Proof.
  intros Hs. pose proof (embed_join_frag e Hs) as J.
  unfold run_val. rewrite Embedded.Parse_run. cbn [fst]. rewrite add_fragments_join.
  destruct J as [[E1 E2]|J]; [rewrite E1, E2; exact frag_none|].
  pose proof (members_enc_nonempty _ _ J) as Hne. apply go_eqb_false in Hne. rewrite Hne.
  destruct (embed_members e) as [|m ms]; [exfalso; exact (members_enc_nil _ J)|].
  frag_by (enc_val_end "" "embeds" " " _ _ eq_refl eq_refl eq_refl
             (enc_array _ _ (elems_one _ _ (enc_object _ _ J)))).
Qed.

(** One top-level fragment of [JSONRequest], guarded by its field. *)
Lemma str_frag k w3 v :
  safe k = true -> all_ws w3 = true -> safe v = true ->
  frag_enc (if v ==? "" then "" else qv k ++ ":" ++ w3 ++ qv v) (str_member k v).
Proof.
  intros Hk H3 Hv. unfold str_member. destruct (v ==? ""); [exact frag_none|right].
  exact (enc_str_end "" k w3 v eq_refl Hk H3 Hv).
Qed.

(** The body of [JSONRequest] encodes the top-level object, for any
    members [mc] the content fragment encodes. *)
Lemma JSONRequest_enc c mc :
  safe (Hook.username c) = true -> safe (Hook.avatarURL c) = true ->
  safe_embed (Hook.Embedded c) = true ->
  frag_enc (if Hook.Content c ==? "" then "" else qv "content" ++ ":" ++ qv (Hook.Content c)) mc ->
  value_enc (run_val Hook.JSONRequest c)
    (JObject (str_member "username" (Hook.username c) ++ str_member "avatar_url" (Hook.avatarURL c)
              ++ mc ++ (if Hook.Tts c then [("tts", JString "true")] else [])
              ++ match embed_members (Hook.Embedded c) with
                 | [] => []
                 | ms => [("embeds", JArray [JObject ms])]
                 end)).
Proof.
  intros Hu Ha He Hc. unfold run_val. rewrite Hook.JSONRequest_run. cbn [fst].
  apply obj_wrap.
  assert (HF : Forall2 frag_enc
    (Hook.request_fragments c (run_val Embedded.Parse (Hook.Embedded c)))
    [str_member "username" (Hook.username c); str_member "avatar_url" (Hook.avatarURL c); mc;
     (if Hook.Tts c then [("tts", JString "true")] else []);
     match embed_members (Hook.Embedded c) with [] => [] | ms => [("embeds", JArray [JObject ms])] end]).
  { unfold Hook.request_fragments.
    repeat apply Forall2_cons; try apply Forall2_nil;
      [apply (str_frag _ "") | apply (str_frag _ "") | exact Hc | | apply embed_frag];
      try reflexivity; try assumption.
    destruct (Hook.Tts c); [|exact frag_none].
    exact (or_intror (enc_str_end "" "tts" " " "true" eq_refl eq_refl eq_refl eq_refl)). }
  pose proof (join_enc _ _ HF) as J. cbn [concat] in J. rewrite app_nil_r in J. exact J.
Qed.

(** C2: refinement of the body against the message of the
    specification: when the text the user supplies contains no quote, no
    backslash and no control byte, the body [JSONRequest] returns is one
    JSON document, an object whose members are username, avatar_url,
    content, tts and embeds, each present exactly when its field is set,
    the embed object holding the members of its parts in the order
    fields, description, title, author, color, url, image, thumbnail,
    footer, timestamp. *)
Theorem JSONRequest_json c :
  safe_hook c = true ->
  parse_json (run_val Hook.JSONRequest c) = Some (JObject (request_members c)).
Proof.
  intros Hs. apply parse_json_enc. unfold safe_hook in Hs. split_safe Hs.
  apply JSONRequest_enc; try assumption. apply (str_frag _ ""); [reflexivity|reflexivity|assumption].
Qed.

(** C33: without escaping, a quote in the content forges a member: take
    any hook whose text is safe and put in its content a safe text [a],
    a double quote, a comma, a safe key [k] between double quotes, a
    colon, a double quote and a safe text [b].  The hook has no field [k], yet
    a JSON reader takes the body for the object whose content is [a] and
    which has the member [k] with the value [b], right after the content,
    before tts and the embeds. *)
Theorem content_injection u av url a k b tts e :
  safe_hook (Hook.mkHook u av url a tts e) = true -> safe k = true -> safe b = true ->
  parse_json (run_val Hook.JSONRequest
                (Hook.mkHook u av url (a ++ dquote ++ "," ++ qv k ++ ":" ++ dquote ++ b) tts e)) =
  Some (JObject (str_member "username" u ++ str_member "avatar_url" av
                 ++ [("content", JString a); (k, JString b)]
                 ++ (if tts then [("tts", JString "true")] else [])
                 ++ match embed_members e with
                    | [] => []
                    | ms => [("embeds", JArray [JObject ms])]
                    end)).
Proof.
  intros Hs Hk Hb. unfold safe_hook in Hs. cbn [Hook.username Hook.avatarURL Hook.Content Hook.Embedded] in Hs.
  split_safe Hs. apply parse_json_enc, JSONRequest_enc; try assumption.
  cbn [Hook.Content]. rewrite (proj2 (go_eqb_false _ _)) by (unfold dquote; apply append_nonempty_r; discriminate).
  right. eapply members_enc_eq;
    [|exact (enc_member_cons "" "content" "" "" _ _ "" _ _ eq_refl eq_refl eq_refl eq_refl
               (enc_string a ltac:(assumption)) eq_refl (enc_str_end "" k "" b eq_refl Hk eq_refl Hb))].
  unfold qv. rewrite !append_assoc_s. reflexivity.
Qed.

(** ** Witnesses *)

(** A hook with every part set, the URL part without a title: the embed
    object carries the key "title" twice, once for TITLE and once for
    URL, as section 9 of the specification notes. *)
Lemma JSONRequest_json_witness :
  let e := Embedded.mkEMBEDDED (Color.mkCOLOR "FF0000") (Author.mkAUTHOR "a" "https://a" "")
             (Title.mkTITLE "T") (Url.mkURL "" "https://u") (Description.mkDESCRIPTION "D")
             [Fields.mkFIELDS "n1" "v1" true; Fields.Empty] (Image.mkIMAGE "https://i")
             (Thumbnail.mkTHUMBNAIL "https://t") (Footer.mkFOOTER "f" "")
             (Timestamp.mkTIMESTAMP "2024-01-02 03:04:05.6789") in
  let c := Hook.mkHook "bot" "https://x/a.png" "https://h" "hi" true e in
  parse_json (run_val Hook.JSONRequest c) = Some (JObject (request_members c)).
Proof. intros e c. apply JSONRequest_json. vm_compute. reflexivity. Defined.

Lemma content_injection_witness :
  parse_json (run_val Hook.JSONRequest
                (Hook.mkHook "" "" "https://h" ("hi" ++ dquote ++ "," ++ qv "tts" ++ ":" ++ dquote ++ "true")
                   false Embedded.Empty)) =
  Some (JObject ([] ++ [] ++ [("content", JString "hi"); ("tts", JString "true")] ++ [] ++ [])).
Proof. exact (content_injection "" "" "https://h" "hi" "tts" "true" false Embedded.Empty eq_refl eq_refl eq_refl). Defined.

End Json.
